(** * gitbackup: repository discovery, clone-URL choice, synchronisation

    A shallow embedding of the Go sources of gitbackup and the properties
    its specification states about them.

    Conventions of the embedding.
    - A Go [error] is modelled by its message (what [Error()] returns);
      [fmt.Errorf] with a [%v] verb builds a new message around the old one.
    - A hosting service is modelled by the sequence of replies it gives to
      the listing calls, in the order the adapter makes them (a "script").
      Every adapter run reports what it returned, the requests it sent and
      the replies it left unread.
    - A listing loop that sends a request for which the script holds no
      reply is still waiting: outcome [Blocked]. *)

From Stdlib Require Import ZArith Ascii String List Bool Lia.
From stdpp Require Import base option list strings gmap fin_maps.

Set Default Proof Using "Type".

(** ** Data model *)

(** Go's [error], by its message. *)
Definition error := string.

(** [Repository]: the normalised unit of work every adapter produces. *)
Record Repository := {
  CloneURL : string;
  Name : string;
  Namespace : string;
  Private : bool
}.

(** What a call of an adapter comes to:
    [Returned rs] is [return rs, nil]; [Failed e] is [return nil, e];
    [Fatal m] is [log.Fatalf], which ends the process inside the adapter;
    [Blocked] is a loop waiting for a reply the script does not hold. *)
Inductive outcome :=
| Returned (repositories : list Repository)
| Failed (err : error)
| Fatal (msg : string)
| Blocked.

(** One reply of a listing endpoint: the Go triple [(items, resp, err)],
    which is either a page with its response header or an error. *)
Inductive reply (Item Resp : Type) :=
| Page (items : list Item) (resp : Resp)
| Refused (err : error).
Arguments Page {Item Resp} items resp.
Arguments Refused {Item Resp} err.

(** A finished (or blocked) adapter run. *)
Record run (Req Rest : Type) := {
  result : outcome;
  asked : list Req;
  unread : Rest
}.
Arguments result {Req Rest} r.
Arguments asked {Req Rest} r.
Arguments unread {Req Rest} r.

(** ** String helpers of the Go standard library *)

(** [strings.Split(s, sep)] for a one-character separator: never empty,
    [Split("", sep)] is [[""]]. *)
Fixpoint splitChar (sep : ascii) (s : string) : list string :=
  match s with
  | EmptyString => [EmptyString]
  | String c rest =>
      if Ascii.eqb c sep then EmptyString :: splitChar sep rest
      else match splitChar sep rest with
           | h :: t => String c h :: t
           | [] => [String c EmptyString]
           end
  end.

(** [strings.Split(s, "/")[0]] *)
Definition firstSegment (s : string) : string :=
  hd EmptyString (splitChar "/"%char s).

(** the newline character, ["\n"] *)
Definition nl : string := String (ascii_of_nat 10) EmptyString.

(** [p != nil] for a pointer field *)
Definition notNil {A : Type} (p : option A) : bool :=
  match p with
  | Some _ => true
  | None => false
  end.

(** [s != ""] *)
Definition nonEmpty (s : string) : bool := negb (String.eqb s "").

(** ** Helpers whose definitions are not among the sources *)

(** Modelled from the spec: [getCloneURL] (the clone URL resolver) is called
    by every adapter but its definition is not among the sources; the
    preference it reads is the package variable [useHTTPSClone].  The spec
    (4.3): if the preference is set and the HTTPS URL is non-empty, return
    it; else if the SSH URL is non-empty, return it; else fall back to
    whichever of the two is non-empty. *)
Definition getCloneURL (useHTTPSClone : bool) (httpsURL sshURL : string) : string :=
  if useHTTPSClone && nonEmpty httpsURL then httpsURL
  else if nonEmpty sshURL then sshURL
  else httpsURL.

(** Modelled from the spec: [contains] is called by [getGithubRepositories]
    and [handleValidateConfig] but its definition is not among the sources.
    The spec (4.2): membership by exact string match. *)
Fixpoint contains (list : list string) (x : string) : bool :=
  match list with
  | [] => false
  | y :: rest => String.eqb y x || contains rest x
  end.

(** ** The listing loop

    The four [for { ... }] listing loops of the adapters have one shape:
    send the request for the current page; on an error return it with no
    repositories; otherwise run the inner [for _, repo := range ...] over
    the page, and either stop (next page is the sentinel) or move the cursor
    to the next page the reply names. *)
Section Paging.
Context {Item Resp Req : Type}.
(** one pass of the inner loop: the repositories so far and one item *)
Variable body : list Repository -> Item -> list Repository.
(** the next-page indicator of a reply's response header *)
Variable nextPage : Resp -> Z.
(** the request sent for a page cursor *)
Variable request : Z -> Req.

Fixpoint pageLoop (script : list (reply Item Resp)) (page : Z)
    (repositories : list Repository) (sent : list Req)
    : run Req (list (reply Item Resp)) :=
  match script with
  | [] =>
      {| result := Blocked; asked := sent ++ [request page]; unread := [] |}
  | Refused err :: rest =>
      {| result := Failed err; asked := sent ++ [request page]; unread := rest |}
  | Page items resp :: rest =>
      let repositories := fold_left body items repositories in
      if (nextPage resp =? 0)%Z
      then {| result := Returned repositories;
              asked := sent ++ [request page]; unread := rest |}
      else pageLoop rest (nextPage resp) repositories (sent ++ [request page])
  end.

End Paging.

(** ** Provider payloads

    One module per client library, with the fields the adapters read. *)

Module github.
(** [github.Repository].  The library declares every field as a pointer;
    the adapter dereferences [Fork], [FullName], [Name] and [Private]
    unguarded (GitHub sends them with every repository), so they are plain
    values here, and it nil-checks [CloneURL] and [SSHURL], so they are
    options. *)
Record Repository := {
  Fork : bool;
  FullName : string;
  Name : string;
  Private : bool;
  CloneURL : option string;
  SSHURL : option string
}.
(** [github.StarredRepository]: the interest relationship wrapping a repository *)
Record StarredRepository := { Repository_ : Repository }.
(** [github.Response] *)
Record Response := { NextPage : Z }.
(** [github.RepositoryListOptions] with its embedded [ListOptions] *)
Record RepositoryListOptions := { Type_ : string; Page : Z }.
(** [github.ActivityListStarredOptions] with its embedded [ListOptions] *)
Record ActivityListStarredOptions := { StarredPage : Z }.
End github.

Module gitlab.
(** [gitlab.ForkParent] *)
Record ForkParent := { ParentID : Z; ParentPathWithNamespace : string }.
(** [gitlab.Project] *)
Record Project := {
  Name : string;
  PathWithNamespace : string;
  WebURL : string;
  SSHURLToRepo : string;
  Visibility : string;
  ForkedFromProject : option ForkParent
}.
(** [gitlab.Response] *)
Record Response := { NextPage : Z }.
(** [gitlab.ListProjectsOptions] with its embedded [ListOptions] *)
Record ListProjectsOptions := {
  Owned : option bool;
  Membership : option bool;
  Starred : option bool;
  VisibilityOpt : option string;
  Page : Z
}.
Definition PublicVisibility : string := "public".
Definition PrivateVisibility : string := "private".
Definition InternalVisibility : string := "internal".
End gitlab.

Module forgejo.
(** [forgejo.User] *)
Record User := { ID : Z; UserName : string }.
(** [forgejo.Repository] *)
Record Repository := {
  Name : string;
  Owner : User;
  Private : bool;
  CloneURL : string;
  SSHURL : string
}.
(** [forgejo.Response] *)
Record Response := { NextPage : Z }.
(** the calls an adapter run makes: [GetMyUserInfo] and the two listing
    requests [SearchRepos] and [ListMyRepos] *)
Inductive Request :=
| GetMyUserInfo
| SearchRepos (page : Z) (starredByUserID : Z)
| ListMyRepos (page : Z).
End forgejo.

Module bitbucket.
(** one element of [links["clone"]] that is a map, with its two entries *)
Record CloneLink := { name : string; href : string }.
(** [bitbucket.Repository].  [Links] is a [map[string]interface{}]; what the
    adapter reads of it is whether the ["clone"] entry is a list and, for
    each element, whether it is a map ([Some]) or not ([None]). *)
Record Repository := {
  Slug : string;
  Full_name : string;
  Is_private : bool;
  Links : option (list (option CloneLink))
}.
(** [bitbucket.Workspace] *)
Record Workspace := { WorkspaceSlug : string }.
(** [bitbucket.RepositoriesOptions] *)
Record RepositoriesOptions := { Owner : string }.
End bitbucket.

(** ** The adapters *)

(** What the GitLab client answers: the replies of [Projects.ListProjects]. *)
Abbreviation GitlabClient := (list (reply gitlab.Project gitlab.Response)).

(** one reply of a Forgejo listing call; the response may be nil *)
Abbreviation forgejoReply := (reply forgejo.Repository (option forgejo.Response)).

(** one reply of [Repositories.ListForAccount]: its items, or an error *)
Abbreviation bitbucketReply := (reply bitbucket.Repository unit).

Section Adapters.
(** the package variable [useHTTPSClone], read by [getCloneURL] *)
Variable useHTTPSClone : bool.

(** *** GitHub *)

(** the body of [for _, repo := range repos] in [getGithubRepositories] *)
Definition githubRepoBody (githubNamespaceWhitelist : list string) (ignoreFork : bool)
    (repositories : list Repository) (repo : github.Repository) : list Repository :=
  if github.Fork repo && ignoreFork then repositories
  else
    let namespace := firstSegment (github.FullName repo) in
    if (0 <? length githubNamespaceWhitelist)%nat
       && negb (contains githubNamespaceWhitelist namespace)
    then repositories
    else
      let httpsCloneURL := default EmptyString (github.CloneURL repo) in
      let sshCloneURL := default EmptyString (github.SSHURL repo) in
      let cloneURL := getCloneURL useHTTPSClone httpsCloneURL sshCloneURL in
      repositories ++ [ {| CloneURL := cloneURL;
                           Name := github.Name repo;
                           Namespace := namespace;
                           Private := github.Private repo |} ].

(** the body of [for _, star := range stars] in [getGithubStarredRepositories] *)
Definition githubStarBody (ignoreFork : bool)
    (repositories : list Repository) (star : github.StarredRepository) : list Repository :=
  let repo := github.Repository_ star in
  if github.Fork repo && ignoreFork then repositories
  else
    let namespace := firstSegment (github.FullName repo) in
    let httpsCloneURL := default EmptyString (github.CloneURL repo) in
    let sshCloneURL := default EmptyString (github.SSHURL repo) in
    let cloneURL := getCloneURL useHTTPSClone httpsCloneURL sshCloneURL in
    repositories ++ [ {| CloneURL := cloneURL;
                         Name := github.Name repo;
                         Namespace := namespace;
                         Private := github.Private repo |} ].

(** What the GitHub client answers: the replies of [Repositories.List] and
    those of [Activity.ListStarred]. *)
Record GithubClient := {
  listReplies : list (reply github.Repository github.Response);
  starredReplies : list (reply github.StarredRepository github.Response)
}.

(** The requests a GitHub run sends. *)
Inductive GithubRequest :=
| ReqList (options : github.RepositoryListOptions)
| ReqListStarred (options : github.ActivityListStarredOptions).

(** [getGithubStarredRepositories]: [options] starts as the zero value, so
    the first request carries page 0. *)
Definition getGithubStarredRepositories (client : GithubClient) (ignoreFork : bool)
    : run GithubRequest GithubClient :=
  let r := pageLoop (githubStarBody ignoreFork) github.NextPage
             (fun page => ReqListStarred {| github.StarredPage := page |})
             (starredReplies client) 0%Z [] [] in
  {| result := result r; asked := asked r;
     unread := {| listReplies := listReplies client; starredReplies := unread r |} |}.

(** [getGithubRepositories]: the starred selector is handed to
    [getGithubStarredRepositories] before anything else happens; the other
    selectors travel in [options.Type]. *)
Definition getGithubRepositories (client : GithubClient) (githubRepoType : string)
    (githubNamespaceWhitelist : list string) (ignoreFork : bool)
    : run GithubRequest GithubClient :=
  if String.eqb githubRepoType "starred"
  then getGithubStarredRepositories client ignoreFork
  else
    let r := pageLoop (githubRepoBody githubNamespaceWhitelist ignoreFork) github.NextPage
               (fun page => ReqList {| github.Type_ := githubRepoType; github.Page := page |})
               (listReplies client) 0%Z [] [] in
    {| result := result r; asked := asked r;
       unread := {| listReplies := unread r; starredReplies := starredReplies client |} |}.

(** *** GitLab *)

(** the body of [for _, repo := range repos] in [getGitlabRepositories] *)
Definition gitlabRepoBody (ignoreFork : bool)
    (repositories : list Repository) (repo : gitlab.Project) : list Repository :=
  if notNil (gitlab.ForkedFromProject repo) && ignoreFork then repositories
  else
    let namespace := firstSegment (gitlab.PathWithNamespace repo) in
    let cloneURL := getCloneURL useHTTPSClone (gitlab.WebURL repo) (gitlab.SSHURLToRepo repo) in
    repositories ++ [ {| CloneURL := cloneURL;
                         Name := gitlab.Name repo;
                         Namespace := namespace;
                         Private := String.eqb (gitlab.Visibility repo) "private" |} ].

(** [gitlabListOptions] as the two switches leave it, for a page cursor.
    A visibility selector other than ["all"] always sets [Visibility]; a
    selector the inner switch does not know leaves it pointing at the zero
    value. *)
Definition gitlabListOptions (gitlabProjectVisibility gitlabProjectMembershipType : string)
    (page : Z) : gitlab.ListProjectsOptions :=
  let m := gitlabProjectMembershipType in
  let owned := String.eqb m "owner" || String.eqb m "all" in
  let membership := String.eqb m "member" || String.eqb m "all" in
  let starred := String.eqb m "starred" || String.eqb m "all" in
  let visibility :=
    if String.eqb gitlabProjectVisibility "all" then None
    else if String.eqb gitlabProjectVisibility "public" then Some gitlab.PublicVisibility
    else if String.eqb gitlabProjectVisibility "private" then Some gitlab.PrivateVisibility
    else if String.eqb gitlabProjectVisibility "internal" then Some gitlab.InternalVisibility
    else if String.eqb gitlabProjectVisibility "default" then Some gitlab.InternalVisibility
    else Some EmptyString in
  {| gitlab.Owned := if owned then Some true else None;
     gitlab.Membership := if membership then Some true else None;
     gitlab.Starred := if starred then Some true else None;
     gitlab.VisibilityOpt := visibility;
     gitlab.Page := page |}.


Definition getGitlabRepositories (client : GitlabClient)
    (gitlabProjectVisibility gitlabProjectMembershipType : string) (ignoreFork : bool)
    : run gitlab.ListProjectsOptions GitlabClient :=
  pageLoop (gitlabRepoBody ignoreFork) gitlab.NextPage
    (gitlabListOptions gitlabProjectVisibility gitlabProjectMembershipType)
    client 0%Z [] [].

(** *** Forgejo *)

(** the body of [for _, repo := range results] in [paginateForgejoRepositories] *)
Definition forgejoRepoBody
    (repositories : list Repository) (repo : forgejo.Repository) : list Repository :=
  repositories ++ [ {| CloneURL := getCloneURL useHTTPSClone (forgejo.CloneURL repo) (forgejo.SSHURL repo);
                       Name := forgejo.Name repo;
                       Namespace := forgejo.UserName (forgejo.Owner repo);
                       Private := forgejo.Private repo |} ].

(** [resp == nil || resp.NextPage == 0] stops the loop: a nil response
    counts as the sentinel. *)
Definition forgejoNextPage (resp : option forgejo.Response) : Z :=
  match resp with
  | None => 0%Z
  | Some r => forgejo.NextPage r
  end.


(** [paginateForgejoRepositories]: [fetch] is the closure that sends the
    request for a page; the first page is 1. *)
Definition paginateForgejoRepositories (fetch : Z -> forgejo.Request)
    (script : list forgejoReply) : run forgejo.Request (list forgejoReply) :=
  pageLoop forgejoRepoBody forgejoNextPage fetch script 1%Z [] [].

(** What the Forgejo client answers: the reply of [GetMyUserInfo] and the
    replies of the listing calls. *)
Record ForgejoClient := {
  myUserInfo : forgejo.User + error;
  repoReplies : list forgejoReply
}.

(** [fmt.Errorf("<context>: %v", err)] *)
Definition wrapError (context : string) (err : error) : error :=
  (context +:+ ": " +:+ err)%string.

(** an error of the paginated listing comes back wrapped; a result is
    handed on as it is *)
Definition wrapFailure (context : string) (r : run forgejo.Request (list forgejoReply))
    : run forgejo.Request (list forgejoReply) :=
  match result r with
  | Failed err =>
      {| result := Failed (wrapError context err); asked := asked r; unread := unread r |}
  | _ => r
  end.

(** a run that comes after calls already made *)
Definition afterCalls (sent : list forgejo.Request)
    (r : run forgejo.Request (list forgejoReply)) : run forgejo.Request (list forgejoReply) :=
  {| result := result r; asked := sent ++ asked r; unread := unread r |}.

(** [getForgejoRepositories]: the starred selector first asks who the user
    is ([GetMyUserInfo]); the other selectors do not. *)
Definition getForgejoRepositories (client : ForgejoClient) (forgejoRepoType : string)
    : run forgejo.Request (list forgejoReply) :=
  if String.eqb forgejoRepoType "starred" then
    match myUserInfo client with
    | inr err =>
        {| result := Fatal ("Error fetching user info from forgejo: " +:+ err)%string;
           asked := [forgejo.GetMyUserInfo]; unread := repoReplies client |}
    | inl user =>
        afterCalls [forgejo.GetMyUserInfo]
          (wrapFailure "fetching starred repositories from forgejo"
             (paginateForgejoRepositories
                (fun page => forgejo.SearchRepos page (forgejo.ID user))
                (repoReplies client)))
    end
  else if String.eqb forgejoRepoType "user" || String.eqb forgejoRepoType "" then
    wrapFailure "fetching user repositories from forgejo"
      (paginateForgejoRepositories (fun page => forgejo.ListMyRepos page)
         (repoReplies client))
  else
    {| result := Failed ("unknown repo type: " +:+ forgejoRepoType)%string;
       asked := []; unread := repoReplies client |}.

(** *** Bitbucket *)

(** [extractBitbucketCloneURLs]: the last ["https"] and the last ["ssh"]
    entry of [links["clone"]] win; elements that are not maps are skipped. *)
Definition extractBitbucketCloneURLs (links : option (list (option bitbucket.CloneLink)))
    : string * string :=
  match links with
  | None => (EmptyString, EmptyString)
  | Some linkmaps =>
      fold_left
        (fun (urls : string * string) (linkmaps : option bitbucket.CloneLink) =>
           match linkmaps with
           | None => urls
           | Some linkmap =>
               let httpsURL :=
                 if String.eqb (bitbucket.name linkmap) "https"
                 then bitbucket.href linkmap else fst urls in
               let sshURL :=
                 if String.eqb (bitbucket.name linkmap) "ssh"
                 then bitbucket.href linkmap else snd urls in
               (httpsURL, sshURL)
           end)
        linkmaps (EmptyString, EmptyString)
  end.

(** the body of [for _, repo := range resp.Items] in [getBitbucketRepositories] *)
Definition bitbucketRepoBody
    (repositories : list Repository) (repo : bitbucket.Repository) : list Repository :=
  let namespace := firstSegment (bitbucket.Full_name repo) in
  let urls := extractBitbucketCloneURLs (bitbucket.Links repo) in
  let cloneURL := getCloneURL useHTTPSClone (fst urls) (snd urls) in
  repositories ++ [ {| CloneURL := cloneURL;
                       Name := bitbucket.Slug repo;
                       Namespace := namespace;
                       Private := bitbucket.Is_private repo |} ].


(** What the Bitbucket client answers: the reply of [Workspaces.List] and
    the replies of [Repositories.ListForAccount]. *)
Record BitbucketClient := {
  workspacesReply : list bitbucket.Workspace + error;
  accountReplies : list bitbucketReply
}.

(** the requests a Bitbucket run sends *)
Inductive BitbucketRequest :=
| ReqWorkspaces
| ReqListForAccount (options : bitbucket.RepositoriesOptions).

(** [for _, workspace := range resp.Workspaces]: one [ListForAccount] call
    for every workspace *)
Fixpoint bitbucketWorkspaceLoop (workspaces : list bitbucket.Workspace)
    (script : list bitbucketReply) (repositories : list Repository)
    (sent : list BitbucketRequest) : run BitbucketRequest (list bitbucketReply) :=
  match workspaces with
  | [] => {| result := Returned repositories; asked := sent; unread := script |}
  | workspace :: more =>
      let options := {| bitbucket.Owner := bitbucket.WorkspaceSlug workspace |} in
      let sent := sent ++ [ReqListForAccount options] in
      match script with
      | [] => {| result := Blocked; asked := sent; unread := [] |}
      | Refused err :: rest => {| result := Failed err; asked := sent; unread := rest |}
      | Page items _ :: rest =>
          bitbucketWorkspaceLoop more rest (fold_left bitbucketRepoBody items repositories) sent
      end
  end.

Definition getBitbucketRepositories (client : BitbucketClient)
    : run BitbucketRequest (list bitbucketReply) :=
  match workspacesReply client with
  | inr err =>
      {| result := Failed err; asked := [ReqWorkspaces]; unread := accountReplies client |}
  | inl workspaces =>
      bitbucketWorkspaceLoop workspaces (accountReplies client) [] [ReqWorkspaces]
  end.

End Adapters.

(** ** Configuration (config_file.go, options.go, main.go) *)

(** [MaxConcurrentClones]: the upper limit of concurrent git clones *)
Definition MaxConcurrentClones : nat := 20.

Definition defaultMaxUserMigrationRetry : Z := 5.

Definition defaultConfigFile : string := "gitbackup.yml".

Record githubConfig := {
  gh_RepoType : string;
  gh_NamespaceWhitelist : list string
}.

Record gitlabConfig := {
  gl_ProjectVisibility : string;
  gl_ProjectMembershipType : string
}.

Record forgejoConfig := {
  fj_RepoType : string
}.

(** [fileConfig]: the YAML configuration file structure *)
Record fileConfig := {
  fc_Service : string;
  fc_GitHostURL : string;
  fc_BackupDir : string;
  fc_IgnorePrivate : bool;
  fc_IgnoreFork : bool;
  fc_UseHTTPSClone : bool;
  fc_Bare : bool;
  fc_GitHub : githubConfig;
  fc_GitLab : gitlabConfig;
  fc_Forgejo : forgejoConfig
}.

(** [defaultFileConfig] *)
Definition defaultFileConfig : fileConfig := {|
  fc_Service := "github";
  fc_GitHostURL := "";
  fc_BackupDir := "";
  fc_IgnorePrivate := false;
  fc_IgnoreFork := false;
  fc_UseHTTPSClone := false;
  fc_Bare := false;
  fc_GitHub := {| gh_RepoType := "all"; gh_NamespaceWhitelist := [] |};
  fc_GitLab := {| gl_ProjectVisibility := "internal"; gl_ProjectMembershipType := "all" |};
  fc_Forgejo := {| fj_RepoType := "user" |}
|}.

(** [appConfig].  Its declaration is not among the sources; the fields are
    those [fileConfigToAppConfig] and [buildConfig] assign. *)
Record appConfig := {
  service : string;
  gitHostURL : string;
  backupDir : string;
  ignorePrivate : bool;
  ignoreFork : bool;
  useHTTPSClone : bool;
  bare : bool;
  githubRepoType : string;
  githubNamespaceWhitelist : list string;
  githubCreateUserMigration : bool;
  githubCreateUserMigrationRetry : bool;
  githubCreateUserMigrationRetryMax : Z;
  githubListUserMigrations : bool;
  githubWaitForMigrationComplete : bool;
  gitlabProjectVisibility : string;
  gitlabProjectMembershipType : string;
  forgejoRepoType : string
}.

(** [fileConfigToAppConfig]: the migration fields keep their zero values *)
Definition fileConfigToAppConfig (fc : fileConfig) : appConfig := {|
  service := fc_Service fc;
  gitHostURL := fc_GitHostURL fc;
  backupDir := fc_BackupDir fc;
  ignorePrivate := fc_IgnorePrivate fc;
  ignoreFork := fc_IgnoreFork fc;
  useHTTPSClone := fc_UseHTTPSClone fc;
  bare := fc_Bare fc;
  githubRepoType := gh_RepoType (fc_GitHub fc);
  githubNamespaceWhitelist := gh_NamespaceWhitelist (fc_GitHub fc);
  githubCreateUserMigration := false;
  githubCreateUserMigrationRetry := false;
  githubCreateUserMigrationRetryMax := 0;
  githubListUserMigrations := false;
  githubWaitForMigrationComplete := false;
  gitlabProjectVisibility := gl_ProjectVisibility (fc_GitLab fc);
  gitlabProjectMembershipType := gl_ProjectMembershipType (fc_GitLab fc);
  forgejoRepoType := fj_RepoType (fc_Forgejo fc)
|}.

(** *** The command-line flags (options.go) *)

(** a flag's [Value]; a flag declared without one has the zero value *)
Inductive FlagValue :=
| StringValue (s : string)
| BoolValue (b : bool)
| IntValue (n : Z).

Record Flag := { flagName : string; flagValue : FlagValue }.

(** [appFlags], in declaration order *)
Definition appFlags : list Flag := [
  {| flagName := "config"; flagValue := StringValue "" |};
  {| flagName := "service"; flagValue := StringValue "" |};
  {| flagName := "githost.url"; flagValue := StringValue "" |};
  {| flagName := "backupdir"; flagValue := StringValue "" |};
  {| flagName := "ignore-private"; flagValue := BoolValue false |};
  {| flagName := "ignore-fork"; flagValue := BoolValue false |};
  {| flagName := "use-https-clone"; flagValue := BoolValue false |};
  {| flagName := "bare"; flagValue := BoolValue false |};
  {| flagName := "github.repoType"; flagValue := StringValue "all" |};
  {| flagName := "github.namespaceWhitelist"; flagValue := StringValue "" |};
  {| flagName := "github.createUserMigration"; flagValue := BoolValue false |};
  {| flagName := "github.createUserMigrationRetry"; flagValue := BoolValue true |};
  {| flagName := "github.createUserMigrationRetryMax";
     flagValue := IntValue defaultMaxUserMigrationRetry |};
  {| flagName := "github.listUserMigrations"; flagValue := BoolValue false |};
  {| flagName := "github.waitForUserMigration"; flagValue := BoolValue true |};
  {| flagName := "gitlab.projectVisibility"; flagValue := StringValue "internal" |};
  {| flagName := "gitlab.projectMembershipType"; flagValue := StringValue "all" |};
  {| flagName := "forgejo.repoType"; flagValue := StringValue "user" |}
].

(** the value of a flag nobody set on the command line *)
Fixpoint lookupFlag (flags : list Flag) (name : string) : option FlagValue :=
  match flags with
  | [] => None
  | f :: rest => if String.eqb (flagName f) name then Some (flagValue f) else lookupFlag rest name
  end.

(** [cCtx.String(name)] when the flag is not set *)
Definition defaultString (name : string) : string :=
  match lookupFlag appFlags name with
  | Some (StringValue s) => s
  | _ => ""
  end.

(** [cCtx.Bool(name)] when the flag is not set *)
Definition defaultBool (name : string) : bool :=
  match lookupFlag appFlags name with
  | Some (BoolValue b) => b
  | _ => false
  end.

(** [cCtx.Int(name)] when the flag is not set *)
Definition defaultInt (name : string) : Z :=
  match lookupFlag appFlags name with
  | Some (IntValue n) => n
  | _ => 0%Z
  end.

(** What [buildConfig] reads from the command line when there is no config
    file and no flag is set (its [else] branch), before [setupBackupDir],
    which is not among the sources, computes the backup directory.  An empty
    whitelist flag leaves [githubNamespaceWhitelist] nil. *)
Definition cliDefaults : appConfig := {|
  service := defaultString "service";
  gitHostURL := defaultString "githost.url";
  backupDir := defaultString "backupdir";
  ignorePrivate := defaultBool "ignore-private";
  ignoreFork := defaultBool "ignore-fork";
  useHTTPSClone := defaultBool "use-https-clone";
  bare := defaultBool "bare";
  githubRepoType := defaultString "github.repoType";
  githubNamespaceWhitelist :=
    (let ns := defaultString "github.namespaceWhitelist" in
     if (0 <? String.length ns)%nat then splitChar ","%char ns else []);
  githubCreateUserMigration := defaultBool "github.createUserMigration";
  githubCreateUserMigrationRetry := defaultBool "github.createUserMigrationRetry";
  githubCreateUserMigrationRetryMax := defaultInt "github.createUserMigrationRetryMax";
  githubListUserMigrations := defaultBool "github.listUserMigrations";
  githubWaitForMigrationComplete := defaultBool "github.waitForUserMigration";
  gitlabProjectVisibility := defaultString "gitlab.projectVisibility";
  gitlabProjectMembershipType := defaultString "gitlab.projectMembershipType";
  forgejoRepoType := defaultString "forgejo.repoType"
|}.

(** ** The file system seen by [handleInitConfig]

    A path is the list of its components below the working directory; the
    empty list is both Go's empty path string and the working directory
    itself, which always exists.  A tree holds a regular file with its
    contents or a directory at a path.  What the operating system refuses
    for reasons the tree does not show (permissions, a read-only or full
    disk) is a second component of the machine. *)

Inductive node :=
| File (data : string)
| Dir.

Abbreviation path := (list string).
Abbreviation tree := (gmap (list string) node).

(** the path as the [%s] verb prints it *)
Definition pathString (p : path) : string := String.concat "/" p.

(** [filepath.Dir] *)
Definition filepath_Dir (p : path) : path := removelast p.

(** [filepath.Join] *)
Definition filepath_Join (p : path) (elems : list string) : path := p ++ elems.

(** [os.Stat]: the node at the path, if there is one *)
Definition os_Stat (fs : tree) (p : path) : option node :=
  match p with
  | [] => Some Dir
  | _ => fs !! p
  end.

(** is there a directory at the path? *)
Definition isDir (fs : tree) (p : path) : bool :=
  match os_Stat fs p with
  | Some Dir => true
  | _ => false
  end.

(** how a write can fail: the file cannot be opened or created, and nothing
    changes; or the write breaks off after the file was created or truncated,
    which leaves the part that was written *)
Inductive writeFailure :=
| NotOpened (err : error)
| BrokenOff (written : string) (err : error).

(** what the operating system refuses: to make a directory at a path, to
    write the file at a path; [None] is no refusal *)
Record refusals := {
  refuseMkdir : path -> option error;
  refuseWrite : path -> option writeFailure
}.

(** an operating system that refuses nothing *)
Definition noRefusal : refusals :=
  {| refuseMkdir := fun _ => None; refuseWrite := fun _ => None |}.

(** [os.MkdirAll], walking down from the working directory: an existing
    directory is kept, a missing one is made unless the system refuses it,
    a regular file on the way is the error [ENOTDIR].  The directories made
    before a failure stay. *)
Fixpoint mkdirFrom (os : refusals) (fs : tree) (above : path) (below : path)
    : tree * option error :=
  match below with
  | [] => (fs, None)
  | c :: below' =>
      let here := above ++ [c] in
      match fs !! here with
      | Some Dir => mkdirFrom os fs here below'
      | Some (File _) => (fs, Some ("mkdir " +:+ pathString here +:+ ": not a directory")%string)
      | None =>
          match refuseMkdir os here with
          | Some err => (fs, Some ("mkdir " +:+ pathString here +:+ ": " +:+ err)%string)
          | None => mkdirFrom os (<[here := Dir]> fs) here below'
          end
      end
  end.

Definition os_MkdirAll (os : refusals) (fs : tree) (p : path) : tree * option error :=
  mkdirFrom os fs [] p.

(** [os.WriteFile]: creates or truncates the file and writes the data; fails
    on a directory, where the parent is not a directory, and where the
    system refuses the write. *)
Definition os_WriteFile (os : refusals) (fs : tree) (p : path) (data : string)
    : tree * option error :=
  match p with
  | [] => (fs, Some "open : no such file or directory"%string)
  | _ =>
      match fs !! p with
      | Some Dir => (fs, Some ("open " +:+ pathString p +:+ ": is a directory")%string)
      | _ =>
          if isDir fs (filepath_Dir p)
          then match refuseWrite os p with
               | None => (<[p := File data]> fs, None)
               | Some (NotOpened err) =>
                   (fs, Some ("open " +:+ pathString p +:+ ": " +:+ err)%string)
               | Some (BrokenOff written err) =>
                   (<[p := File written]> fs,
                    Some ("write " +:+ pathString p +:+ ": " +:+ err)%string)
               end
          else (fs, Some ("open " +:+ pathString p +:+ ": no such file or directory")%string)
      end
  end.

(** the machine [handleInitConfig] runs on: the file tree, what was printed
    to standard output, and what the operating system refuses *)
Record world := {
  files : tree;
  stdout : list string;
  refuses : refusals
}.

(** the operating system refuses neither to make a missing directory on the
    way to the path nor to write the file at the path *)
Definition permits (w : world) (p : path) : Prop :=
  (forall q, q `prefix_of` filepath_Dir p -> files w !! q = None ->
             refuseMkdir (refuses w) q = None)
  /\ refuseWrite (refuses w) p = None.

Section ConfigFile.
(** [os.UserConfigDir]: the configuration directory of the user, or an
    error when the environment does not name one *)
Variable os_UserConfigDir : path + error.
(** [yaml.Marshal] on a [fileConfig] *)
Variable yaml_Marshal : fileConfig -> string + error.

(** [defaultConfigPath] *)
Definition defaultConfigPath : path + error :=
  match os_UserConfigDir with
  | inr err => inr ("unable to determine config directory: " +:+ err)%string
  | inl configDir => inl (filepath_Join configDir ["gitbackup"%string; defaultConfigFile])
  end.

(** [resolveConfigPath] *)
Definition resolveConfigPath (configPath : path) : path + error :=
  match configPath with
  | [] => defaultConfigPath
  | _ => inl configPath
  end.

(** [handleInitConfig]: the error it returns ([None] is [nil]) and the world
    it leaves behind *)
Definition handleInitConfig (w : world) (configPath : path) : option error * world :=
  match resolveConfigPath configPath with
  | inr err => (Some err, w)
  | inl path =>
      match os_Stat (files w) path with
      | Some _ => (Some (pathString path +:+ " already exists")%string, w)
      | None =>
          let dir := filepath_Dir path in
          match os_MkdirAll (refuses w) (files w) dir with
          | (fs, Some err) =>
              (Some ("error creating directory " +:+ pathString dir +:+ ": " +:+ err)%string,
               {| files := fs; stdout := stdout w; refuses := refuses w |})
          | (fs, None) =>
              let cfg := defaultFileConfig in
              match yaml_Marshal cfg with
              | inr err =>
                  (Some ("error generating config: " +:+ err)%string,
                   {| files := fs; stdout := stdout w; refuses := refuses w |})
              | inl data =>
                  match os_WriteFile (refuses w) fs path data with
                  | (fs', Some err) =>
                      (Some ("error writing " +:+ pathString path +:+ ": " +:+ err)%string,
                       {| files := fs'; stdout := stdout w; refuses := refuses w |})
                  | (fs', None) =>
                      (None,
                       {| files := fs';
                          stdout := stdout w ++ [("Created " +:+ pathString path +:+ nl)%string];
                          refuses := refuses w |})
                  end
              end
          end
      end
  end.

End ConfigFile.

(** ** The discovery façade

    Modelled from the spec: [getRepositories], the façade between the
    configuration and the adapters, is not among the sources.  The spec
    (4.2): it dispatches to the adapter matching the configured service;
    applies the namespace whitelist ("if non-empty, repositories whose
    namespace is not in the set are dropped; comparison is exact string
    match"); applies ignore-private ("drops repositories with
    private == true"); and keeps the adapter's page order.  The service
    selection is the client, which is built for the configured service, and
    the adapters are called with the parameters their definitions take.
    The whitelist is the one the configuration holds
    ([githubNamespaceWhitelist]).  The [Repository] model has no fork field,
    so the façade has nothing to apply ignore-fork to. *)

Inductive Client :=
| ClientGithub (c : GithubClient)
| ClientGitlab (c : GitlabClient)
| ClientBitbucket (c : BitbucketClient)
| ClientForgejo (c : ForgejoClient).

(** the adapter of the client's service, called with the configuration *)
Definition listRepositories (c : appConfig) (client : Client) : outcome :=
  match client with
  | ClientGithub gh =>
      result (getGithubRepositories (useHTTPSClone c) gh (githubRepoType c)
                (githubNamespaceWhitelist c) (ignoreFork c))
  | ClientGitlab gl =>
      result (getGitlabRepositories (useHTTPSClone c) gl (gitlabProjectVisibility c)
                (gitlabProjectMembershipType c) (ignoreFork c))
  | ClientBitbucket bb =>
      result (getBitbucketRepositories (useHTTPSClone c) bb)
  | ClientForgejo fj =>
      result (getForgejoRepositories (useHTTPSClone c) fj (forgejoRepoType c))
  end.

(** the namespace whitelist: if non-empty, drop the repositories whose
    namespace is not in it *)
Definition keepWhitelisted (c : appConfig) (repositories : list Repository) : list Repository :=
  if (0 <? length (githubNamespaceWhitelist c))%nat
  then List.filter (fun repo => contains (githubNamespaceWhitelist c) (Namespace repo))
         repositories
  else repositories.

(** ignore-private: drop the repositories with [Private == true] *)
Definition dropPrivate (c : appConfig) (repositories : list Repository) : list Repository :=
  if ignorePrivate c
  then List.filter (fun repo => negb (Private repo)) repositories
  else repositories.

Definition discover (c : appConfig) (client : Client) : outcome :=
  match listRepositories c client with
  | Returned repositories => Returned (dropPrivate c (keepWhitelisted c repositories))
  | other => other
  end.

(** ** The synchronisation engine

    Modelled from the spec: the engine ([handleGitRepositoryClone] and what
    it calls) is not among the sources; of it the sources hold
    [MaxConcurrentClones] only.  The spec (4.4): the target of a repository
    is [backupRoot/service/namespace/name], with the suffix [.git] in bare
    mode; a missing target is cloned, a target that is a git repository of
    the matching kind is updated by a fetch, any other target is a conflict
    that fails this one item; a repository whose clone URL is empty is
    skipped with a warning (4.3, 7); the exit code of the git tool decides
    between success and failure of an item; the summary counts the
    successes and lists the failures. *)

(** what the backup root holds at a path: a git repository (bare or with a
    working tree) or something else *)
Inductive entry :=
| GitRepository (isBare : bool)
| Foreign.

Abbreviation store := (gmap (list string) entry).

Inductive operation :=
| Clone
| Fetch.

(** one invocation of the external git tool *)
Record gitCommand := {
  gitOperation : operation;
  gitURL : string;
  gitTarget : path;
  gitBare : bool
}.

(** the backup root, and the invocations of the git tool made on it so far,
    oldest first *)
Record backup := {
  contents : store;
  invoked : list gitCommand
}.

(** the aggregate summary of a run *)
Record summary := {
  succeeded : nat;
  failures : list (Repository * error);
  warnings : list Repository
}.

Definition emptySummary : summary :=
  {| succeeded := 0; failures := []; warnings := [] |}.

(** the summary after one more item that ended with this exit of the git
    tool *)
Definition recordExit (sm : summary) (repo : Repository) (exit : option error) : summary :=
  match exit with
  | None =>
      {| succeeded := S (succeeded sm); failures := failures sm; warnings := warnings sm |}
  | Some err =>
      {| succeeded := succeeded sm; failures := failures sm ++ [(repo, err)];
         warnings := warnings sm |}
  end.

Section Sync.
(** the backup root directory *)
Variable backupRoot : path.
(** the exit of the external git tool for an invocation: [None] is exit
    code zero *)
Variable git : gitCommand -> option error.

(** one run of the git tool.  The invocation is recorded as it was made.  A
    clone that exits with code zero leaves a git repository of the requested
    kind at its target; a fetch brings refs into the repository it finds and
    neither makes nor removes one; a failed invocation leaves the backup
    root as it was. *)
Definition runGit (cmd : gitCommand) (b : backup) : option error * backup :=
  (git cmd,
   {| contents :=
        match git cmd, gitOperation cmd with
        | None, Clone => <[gitTarget cmd := GitRepository (gitBare cmd)]> (contents b)
        | _, _ => contents b
        end;
      invoked := invoked b ++ [cmd] |}).

(** the target path of a repository *)
Definition targetPath (c : appConfig) (repo : Repository) : path :=
  backupRoot ++ [service c; Namespace repo;
                 if bare c then (Name repo +:+ ".git")%string else Name repo].

(** the conflict of 4.4: the target exists and is not a git repository of
    the expected kind *)
Definition conflict (sm : summary) (repo : Repository) : summary :=
  recordExit sm repo (Some "target is not a git repository of the expected kind"%string).

(** one item: decide the operation by what is at the target, run the git
    tool, record the outcome *)
Definition syncOne (c : appConfig) (st : backup * summary) (repo : Repository)
    : backup * summary :=
  let '(b, sm) := st in
  let target := targetPath c repo in
  if negb (nonEmpty (CloneURL repo)) then
    (b, {| succeeded := succeeded sm; failures := failures sm;
           warnings := warnings sm ++ [repo] |})
  else
    match contents b !! target with
    | None =>
        let '(exit, b') := runGit {| gitOperation := Clone; gitURL := CloneURL repo;
                                     gitTarget := target; gitBare := bare c |} b in
        (b', recordExit sm repo exit)
    | Some (GitRepository isBare) =>
        if Bool.eqb isBare (bare c) then
          let '(exit, b') := runGit {| gitOperation := Fetch; gitURL := CloneURL repo;
                                       gitTarget := target; gitBare := bare c |} b in
          (b', recordExit sm repo exit)
        else (b, conflict sm repo)
    | Some Foreign => (b, conflict sm repo)
    end.

(** a run over the repositories in the order given *)
Definition sync (c : appConfig) (repositories : list Repository) (b : backup)
    : backup * summary :=
  fold_left (syncOne c) repositories (b, emptySummary).

(** discovery followed by synchronisation; a failed discovery is fatal to
    the run and touches nothing *)
Definition backupRun (c : appConfig) (client : Client) (b : backup)
    : option (backup * summary) :=
  match discover c client with
  | Returned repositories => Some (sync c repositories b)
  | _ => None
  end.

End Sync.

(** ** The worker pool

    Modelled from the spec: the pool is part of the engine that is not
    among the sources.  The spec (4.4, 5, 9): a fixed set of workers, as
    many as the ceiling, takes items from a shared queue; a worker is idle
    or busy with one repository, on whose operation it blocks until the git
    tool is done; completion order is unconstrained; the results are
    collected under a lock, one item at a time.  The ceiling is "verifiable
    by instrumenting operation start/end": the pool keeps that record. *)

(** the start and the end of the operation on a repository *)
Inductive event :=
| Started (repo : Repository)
| Ended (repo : Repository).

Record pool := {
  queue : list Repository;
  workers : list (option Repository);
  events : list event;
  disk : backup;
  report : summary
}.

(** the pool at the start of a run *)
Definition startPool (ceiling : nat) (repositories : list Repository) (b : backup) : pool :=
  {| queue := repositories; workers := replicate ceiling None; events := [];
     disk := b; report := emptySummary |}.

(** the repositories whose operation has started, in order of start *)
Definition startedOf (events : list event) : list Repository :=
  omap (fun e => match e with Started repo => Some repo | Ended _ => None end) events.

(** the repositories whose operation has ended, in order of completion *)
Definition endedOf (events : list event) : list Repository :=
  omap (fun e => match e with Ended repo => Some repo | Started _ => None end) events.

(** the operations in flight: started and not ended *)
Definition inFlight (events : list event) : nat :=
  length (startedOf events) - length (endedOf events).

(** the repositories the workers are busy with *)
Fixpoint busyWith (workers : list (option Repository)) : list Repository :=
  match workers with
  | [] => []
  | Some repo :: workers => repo :: busyWith workers
  | None :: workers => busyWith workers
  end.

Section Pool.
Variable backupRoot : path.
Variable git : gitCommand -> option error.
Variable c : appConfig.

(** one step of the pool: an idle worker takes the head of the queue and
    starts its operation, or a busy worker's operation ends and its outcome
    is collected *)
Inductive poolStep : pool -> pool -> Prop :=
| stepDispatch (p : pool) (i : nat) (repo : Repository) (rest : list Repository) :
    queue p = repo :: rest ->
    workers p !! i = Some None ->
    poolStep p {| queue := rest;
                  workers := <[i := Some repo]> (workers p);
                  events := events p ++ [Started repo];
                  disk := disk p;
                  report := report p |}
| stepComplete (p : pool) (i : nat) (repo : Repository) :
    workers p !! i = Some (Some repo) ->
    poolStep p {| queue := queue p;
                  workers := <[i := None]> (workers p);
                  events := events p ++ [Ended repo];
                  disk := (syncOne backupRoot git c (disk p, report p) repo).1;
                  report := (syncOne backupRoot git c (disk p, report p) repo).2 |}.

(** the states a run can reach *)
Inductive reachable (ceiling : nat) (repositories : list Repository) (b : backup)
    : pool -> Prop :=
| reachStart : reachable ceiling repositories b (startPool ceiling repositories b)
| reachStep (p q : pool) :
    reachable ceiling repositories b p -> poolStep p q ->
    reachable ceiling repositories b q.

(** the pool has drained: nothing queued, every worker idle *)
Definition drained (p : pool) : Prop :=
  queue p = [] /\ busyWith (workers p) = [].

End Pool.

(** ** Reading scripts and loops

    The vocabulary the statements below use: what a script holds, and each
    inner loop read as "convert the items that are kept". *)

Section Scripts.
Context {Item Resp : Type}.
Variable nextPage : Resp -> Z.

(** a reply after which the loop goes on: a page that names a next page *)
Definition continuing (r : reply Item Resp) : bool :=
  match r with
  | Page _ resp => negb (nextPage resp =? 0)%Z
  | Refused _ => false
  end.

(** the next-page value a reply carries *)
Definition cursorOf (r : reply Item Resp) : Z :=
  match r with
  | Page _ resp => nextPage resp
  | Refused _ => 0%Z
  end.

(** the items a reply carries *)
Definition itemsOf (r : reply Item Resp) : list Item :=
  match r with
  | Page items _ => items
  | Refused _ => []
  end.

(** the items of all the replies of a script, in order *)
Definition allItems (script : list (reply Item Resp)) : list Item :=
  concat (map itemsOf script).

(** a reply that is not an error *)
Definition answered (r : reply Item Resp) : bool :=
  match r with
  | Page _ _ => true
  | Refused _ => false
  end.

End Scripts.
Arguments answered {Item Resp} r.
Arguments itemsOf {Item Resp} r.
Arguments allItems {Item Resp} script.

(** the [Repository] literal of the two GitHub loops *)
Definition githubRepository (useHTTPSClone : bool) (repo : github.Repository) : Repository :=
  {| CloneURL := getCloneURL useHTTPSClone
                   (default EmptyString (github.CloneURL repo))
                   (default EmptyString (github.SSHURL repo));
     Name := github.Name repo;
     Namespace := firstSegment (github.FullName repo);
     Private := github.Private repo |}.

(** the repositories the two [continue] statements of
    [getGithubRepositories] let through *)
Definition githubKept (githubNamespaceWhitelist : list string) (ignoreFork : bool)
    (repo : github.Repository) : bool :=
  negb (github.Fork repo && ignoreFork)
  && negb ((0 <? length githubNamespaceWhitelist)%nat
           && negb (contains githubNamespaceWhitelist (firstSegment (github.FullName repo)))).

(** the stars the one [continue] statement of
    [getGithubStarredRepositories] lets through *)
Definition githubStarKept (ignoreFork : bool) (repo : github.Repository) : bool :=
  negb (github.Fork repo && ignoreFork).

(** the payload a GitHub run reads: the stars' repositories for the starred
    selector, the listed repositories otherwise *)
Definition githubPayload (client : GithubClient) (githubRepoType : string)
    : list github.Repository :=
  if String.eqb githubRepoType "starred"
  then map github.Repository_ (allItems (starredReplies client))
  else allItems (listReplies client).

(** the [Repository] literal of the GitLab loop *)
Definition gitlabRepository (useHTTPSClone : bool) (repo : gitlab.Project) : Repository :=
  {| CloneURL := getCloneURL useHTTPSClone (gitlab.WebURL repo) (gitlab.SSHURLToRepo repo);
     Name := gitlab.Name repo;
     Namespace := firstSegment (gitlab.PathWithNamespace repo);
     Private := String.eqb (gitlab.Visibility repo) "private" |}.

(** the projects the [continue] statement of [getGitlabRepositories] lets
    through *)
Definition gitlabKept (ignoreFork : bool) (repo : gitlab.Project) : bool :=
  negb (notNil (gitlab.ForkedFromProject repo) && ignoreFork).

(** the [Repository] literal of the Forgejo loop *)
Definition forgejoRepository (useHTTPSClone : bool) (repo : forgejo.Repository) : Repository :=
  {| CloneURL := getCloneURL useHTTPSClone (forgejo.CloneURL repo) (forgejo.SSHURL repo);
     Name := forgejo.Name repo;
     Namespace := forgejo.UserName (forgejo.Owner repo);
     Private := forgejo.Private repo |}.

(** a page of Forgejo repositories whose response names a next page *)
Definition forgejoPage (p : list forgejo.Repository * Z) : forgejoReply :=
  Page p.1 (Some {| forgejo.NextPage := p.2 |}).

(** the [Repository] literal of the Bitbucket loop *)
Definition bitbucketRepository (useHTTPSClone : bool) (repo : bitbucket.Repository) : Repository :=
  {| CloneURL := getCloneURL useHTTPSClone
                   (fst (extractBitbucketCloneURLs (bitbucket.Links repo)))
                   (snd (extractBitbucketCloneURLs (bitbucket.Links repo)));
     Name := bitbucket.Slug repo;
     Namespace := firstSegment (bitbucket.Full_name repo);
     Private := bitbucket.Is_private repo |}.


(** the backup root after a clone of every repository of a list *)
Definition cloned (backupRoot : path) (c : appConfig) (repositories : list Repository)
    (fs : store) : store :=
  fold_left (fun fs repo => <[targetPath backupRoot c repo := GitRepository (bare c)]> fs)
    repositories fs.

(** the invocation of the git tool that clones a repository *)
Definition cloneCommand (backupRoot : path) (c : appConfig) (repo : Repository) : gitCommand :=
  {| gitOperation := Clone; gitURL := CloneURL repo;
     gitTarget := targetPath backupRoot c repo; gitBare := bare c |}.

(** the invocation of the git tool that updates the clone of a repository *)
Definition fetchCommand (backupRoot : path) (c : appConfig) (repo : Repository) : gitCommand :=
  {| gitOperation := Fetch; gitURL := CloneURL repo;
     gitTarget := targetPath backupRoot c repo; gitBare := bare c |}.

(** an empty backup root on which git has not run *)
Definition freshBackup : backup := {| contents := ∅; invoked := [] |}.

(** ** Worked inputs *)

Module Examples.

(** a repository of the namespace [other] that the user has starred *)
Definition otherTool : github.Repository :=
  {| github.Fork := false;
     github.FullName := "other/tool";
     github.Name := "tool";
     github.Private := false;
     github.CloneURL := Some "https://github.com/other/tool.git"%string;
     github.SSHURL := Some "git@github.com:other/tool.git"%string |}.

(** a repository of the namespace [acme] *)
Definition acmeApi : github.Repository :=
  {| github.Fork := false;
     github.FullName := "acme/api";
     github.Name := "api";
     github.Private := false;
     github.CloneURL := Some "https://github.com/acme/api.git"%string;
     github.SSHURL := Some "git@github.com:acme/api.git"%string |}.

(** a fork in the namespace [acme] *)
Definition acmeFork : github.Repository :=
  {| github.Fork := true;
     github.FullName := "acme/hello-world";
     github.Name := "hello-world";
     github.Private := false;
     github.CloneURL := Some "https://github.com/acme/hello-world.git"%string;
     github.SSHURL := Some "git@github.com:acme/hello-world.git"%string |}.

(** GitHub answering with two pages of repositories and one page of stars *)
Definition githubAccount : GithubClient :=
  {| listReplies :=
       [ Page [acmeApi; otherTool] {| github.NextPage := 2 |};
         Page [acmeFork] {| github.NextPage := 0 |} ];
     starredReplies :=
       [ Page [ {| github.Repository_ := otherTool |} ] {| github.NextPage := 0 |} ] |}.

(** a GitLab project forked from another one, and one that is internal *)
Definition gitlabForked : gitlab.Project :=
  {| gitlab.Name := "hello-world";
     gitlab.PathWithNamespace := "acme/hello-world";
     gitlab.WebURL := "https://gitlab.com/acme/hello-world";
     gitlab.SSHURLToRepo := "git@gitlab.com:acme/hello-world.git";
     gitlab.Visibility := "public";
     gitlab.ForkedFromProject :=
       Some {| gitlab.ParentID := 7; gitlab.ParentPathWithNamespace := "upstream/hello-world" |} |}.

Definition gitlabInternal : gitlab.Project :=
  {| gitlab.Name := "wiki";
     gitlab.PathWithNamespace := "acme/wiki";
     gitlab.WebURL := "https://gitlab.com/acme/wiki";
     gitlab.SSHURLToRepo := "git@gitlab.com:acme/wiki.git";
     gitlab.Visibility := "internal";
     gitlab.ForkedFromProject := None |}.

Definition gitlabSecret : gitlab.Project :=
  {| gitlab.Name := "secrets";
     gitlab.PathWithNamespace := "acme/secrets";
     gitlab.WebURL := "https://gitlab.com/acme/secrets";
     gitlab.SSHURLToRepo := "git@gitlab.com:acme/secrets.git";
     gitlab.Visibility := "private";
     gitlab.ForkedFromProject := None |}.

(** GitLab answering with two pages *)
Definition gitlabAccount : GitlabClient :=
  [ Page [gitlabForked; gitlabInternal] {| gitlab.NextPage := 2 |};
    Page [gitlabSecret] {| gitlab.NextPage := 0 |} ].

(** the private repository of the spec's scenario *)
Definition acmeSecrets : github.Repository :=
  {| github.Fork := false;
     github.FullName := "acme/secrets";
     github.Name := "secrets";
     github.Private := true;
     github.CloneURL := Some "https://github.com/acme/secrets.git"%string;
     github.SSHURL := Some "git@github.com:acme/secrets.git"%string |}.

(** GitHub answering with the scenario's two repositories on one page *)
Definition acmeAccount : GithubClient :=
  {| listReplies := [ Page [acmeApi; acmeSecrets] {| github.NextPage := 0 |} ];
     starredReplies := [] |}.

(** a configuration for GitHub with ignore-private set *)
Definition ignoringPrivate : appConfig :=
  {| service := "github";
     gitHostURL := "";
     backupDir := "backup";
     ignorePrivate := true;
     ignoreFork := false;
     useHTTPSClone := false;
     bare := false;
     githubRepoType := "all";
     githubNamespaceWhitelist := [];
     githubCreateUserMigration := false;
     githubCreateUserMigrationRetry := true;
     githubCreateUserMigrationRetryMax := 5;
     githubListUserMigrations := false;
     githubWaitForMigrationComplete := true;
     gitlabProjectVisibility := "internal";
     gitlabProjectMembershipType := "all";
     forgejoRepoType := "user" |}.

(** GitHub answering the starred listing with a repository of another
    namespace and one of [acme] *)
Definition starredAccount : GithubClient :=
  {| listReplies := [];
     starredReplies :=
       [ Page [ {| github.Repository_ := otherTool |}; {| github.Repository_ := acmeApi |} ]
           {| github.NextPage := 0 |} ] |}.

(** a configuration for the stars of GitHub, restricted to the namespace
    [acme] *)
Definition acmeStars : appConfig :=
  {| service := "github";
     gitHostURL := "";
     backupDir := "backup";
     ignorePrivate := false;
     ignoreFork := false;
     useHTTPSClone := false;
     bare := false;
     githubRepoType := "starred";
     githubNamespaceWhitelist := ["acme"%string];
     githubCreateUserMigration := false;
     githubCreateUserMigrationRetry := true;
     githubCreateUserMigrationRetryMax := 5;
     githubListUserMigrations := false;
     githubWaitForMigrationComplete := true;
     gitlabProjectVisibility := "internal";
     gitlabProjectMembershipType := "all";
     forgejoRepoType := "user" |}.

(** a git tool that always exits with code zero *)
Definition gitSucceeds (cmd : gitCommand) : option error := None.

(** three repositories as the adapters produce them *)
Definition repoApi : Repository := githubRepository false acmeApi.
Definition repoSecrets : Repository := githubRepository false acmeSecrets.
Definition repoTool : Repository := githubRepository false otherTool.

(** a pool of two workers, both busy, one repository still queued *)
Definition busyPool : pool :=
  {| queue := [repoTool];
     workers := [Some repoApi; Some repoSecrets];
     events := [Started repoApi; Started repoSecrets];
     disk := freshBackup;
     report := emptySummary |}.

(** a rendering of a [fileConfig] as YAML text, standing for [yaml.Marshal] *)
Definition yamlBool (b : bool) : string := if b then "true" else "false".

Definition yamlString (s : string) : string :=
  if nonEmpty s then s else String (ascii_of_nat 34) (String (ascii_of_nat 34) EmptyString).

Definition renderYaml (cfg : fileConfig) : string + error :=
  inl (String.concat nl
         [ "service: " +:+ yamlString (fc_Service cfg);
           "githost_url: " +:+ yamlString (fc_GitHostURL cfg);
           "backup_dir: " +:+ yamlString (fc_BackupDir cfg);
           "ignore_private: " +:+ yamlBool (fc_IgnorePrivate cfg);
           "ignore_fork: " +:+ yamlBool (fc_IgnoreFork cfg);
           "use_https_clone: " +:+ yamlBool (fc_UseHTTPSClone cfg);
           "bare: " +:+ yamlBool (fc_Bare cfg);
           "github:";
           "    repo_type: " +:+ yamlString (gh_RepoType (fc_GitHub cfg));
           "    namespace_whitelist: ["
             +:+ String.concat ", " (gh_NamespaceWhitelist (fc_GitHub cfg)) +:+ "]";
           "gitlab:";
           "    project_visibility: " +:+ yamlString (gl_ProjectVisibility (fc_GitLab cfg));
           "    project_membership_type: "
             +:+ yamlString (gl_ProjectMembershipType (fc_GitLab cfg));
           "forgejo:";
           "    repo_type: " +:+ yamlString (fj_RepoType (fc_Forgejo cfg));
           "" ])%string.

(** the configuration directory of a user *)
Definition homeConfig : path + error := inl [".config"%string].

(** a machine with nothing below the working directory *)
Definition emptyWorld : world := {| files := ∅; stdout := []; refuses := noRefusal |}.

(** a machine on which nothing can be written: a read-only disk *)
Definition readOnlyWorld : world :=
  {| files := ∅; stdout := [];
     refuses := {| refuseMkdir := fun _ => Some "read-only file system"%string;
                   refuseWrite := fun _ => Some (NotOpened "read-only file system") |} |}.

(** a machine whose disk is full: a file can be created, but the write
    breaks off before any data is written *)
Definition fullDiskWorld : world :=
  {| files := ∅; stdout := [];
     refuses := {| refuseMkdir := fun _ => None;
                   refuseWrite := fun _ => Some (BrokenOff "" "no space left on device") |} |}.

(** a machine where [etc] is a regular file *)
Definition etcIsAFile : world :=
  {| files := {[ ["etc"%string] := File "" ]}; stdout := []; refuses := noRefusal |}.

(** Forgejo refusing the first listing call *)
Definition forgejoDown : ForgejoClient :=
  {| myUserInfo := inl {| forgejo.ID := 42; forgejo.UserName := "acme" |};
     repoReplies := [Refused "connection reset"%string] |}.

(** Forgejo refusing to tell who the user is *)
Definition forgejoAnonymous : ForgejoClient :=
  {| myUserInfo := inr "unauthorized"%string;
     repoReplies := [] |}.

End Examples.

(** ** Further vocabulary *)

(** does the character occur in the string? *)
Fixpoint hasChar (c : ascii) (s : string) : bool :=
  match s with
  | EmptyString => false
  | String c' rest => Ascii.eqb c' c || hasChar c rest
  end.

(** the [href] of the last element of [links["clone"]] that is a map and
    whose [name] is the given one; the empty string when there is none *)
Definition lastHref (linkName : string) (linkmaps : list (option bitbucket.CloneLink))
    : string :=
  match List.find (fun l => String.eqb (bitbucket.name l) linkName)
          (rev (omap id linkmaps)) with
  | Some l => bitbucket.href l
  | None => EmptyString
  end.

(** the request of [Repositories.ListForAccount] for a workspace *)
Definition accountRequest (workspace : bitbucket.Workspace) : BitbucketRequest :=
  ReqListForAccount {| bitbucket.Owner := bitbucket.WorkspaceSlug workspace |}.

(** ** Reading and validating the configuration (config_file.go, options.go) *)

(** [knownServices] (main.go): the services and their default host names *)
Definition knownServices : gmap string string :=
  <["github"%string := "github.com"%string]>
    (<["gitlab"%string := "gitlab.com"%string]>
       (<["bitbucket"%string := "bitbucket.org"%string]>
          (<["forgejo"%string := "codeberg.org"%string]> ∅))).

(** [os.ReadFile] *)
Definition os_ReadFile (fs : tree) (p : path) : string + error :=
  match os_Stat fs p with
  | Some (File data) => inl data
  | Some Dir => inr ("read " +:+ pathString p +:+ ": is a directory")%string
  | None => inr ("open " +:+ pathString p +:+ ": no such file or directory")%string
  end.

(** an [appConfig] with another backup directory *)
Definition withBackupDir (c : appConfig) (dir : string) : appConfig := {|
  service := service c;
  gitHostURL := gitHostURL c;
  backupDir := dir;
  ignorePrivate := ignorePrivate c;
  ignoreFork := ignoreFork c;
  useHTTPSClone := useHTTPSClone c;
  bare := bare c;
  githubRepoType := githubRepoType c;
  githubNamespaceWhitelist := githubNamespaceWhitelist c;
  githubCreateUserMigration := githubCreateUserMigration c;
  githubCreateUserMigrationRetry := githubCreateUserMigrationRetry c;
  githubCreateUserMigrationRetryMax := githubCreateUserMigrationRetryMax c;
  githubListUserMigrations := githubListUserMigrations c;
  githubWaitForMigrationComplete := githubWaitForMigrationComplete c;
  gitlabProjectVisibility := gitlabProjectVisibility c;
  gitlabProjectMembershipType := gitlabProjectMembershipType c;
  forgejoRepoType := forgejoRepoType c
|}.

(** [cli.Context]: the flags set on the command line with their values.
    The value of the [config] flag is kept as a path (empty when the flag
    is not given). *)
Record Context := {
  configFlag : path;
  flagsSet : gmap string FlagValue
}.

(** [cCtx.IsSet(name)] *)
Definition ctxIsSet (cCtx : Context) (name : string) : bool :=
  notNil (flagsSet cCtx !! name).

(** [cCtx.String(name)]: the value set, or the flag's default *)
Definition ctxString (cCtx : Context) (name : string) : string :=
  match flagsSet cCtx !! name with
  | Some (StringValue s) => s
  | Some _ => EmptyString
  | None => defaultString name
  end.

(** [cCtx.Bool(name)] *)
Definition ctxBool (cCtx : Context) (name : string) : bool :=
  match flagsSet cCtx !! name with
  | Some (BoolValue b) => b
  | Some _ => false
  | None => defaultBool name
  end.

(** [cCtx.Int(name)] *)
Definition ctxInt (cCtx : Context) (name : string) : Z :=
  match flagsSet cCtx !! name with
  | Some (IntValue n) => n
  | Some _ => 0%Z
  | None => defaultInt name
  end.

Section ConfigReading.
(** [os.UserConfigDir] *)
Variable os_UserConfigDir : path + error.
(** [yaml.Unmarshal] into a zero [fileConfig] *)
Variable yaml_Unmarshal : string -> fileConfig + error.
(** [os.Getenv] *)
Variable os_Getenv : string -> string.
(** [validGitlabProjectMembership], whose definition is not among the
    sources *)
Variable validGitlabProjectMembership : string -> bool.
(** the [%q] verb of [fmt]: the string, quoted *)
Variable quoted : string -> string.
(** [setupBackupDir], whose definition is not among the sources: the backup
    directory it computes from the backup directory, the service and the
    host URL *)
Variable setupBackupDir : string -> string -> string -> string.

(** [loadConfigFile] *)
Definition loadConfigFile (fs : tree) (configPath : path) : fileConfig + error :=
  match resolveConfigPath os_UserConfigDir configPath with
  | inr err => inr err
  | inl path =>
      match os_ReadFile fs path with
      | inr err => inr ("error reading " +:+ pathString path +:+ ": " +:+ err)%string
      | inl data =>
          match yaml_Unmarshal data with
          | inr err => inr ("error parsing " +:+ pathString path +:+ ": " +:+ err)%string
          | inl cfg => inl cfg
          end
      end
  end.

(** the errors [handleValidateConfig] collects: the service, then the
    fields of the service, then the environment of the service *)
Definition serviceErrors (cfg : fileConfig) : list string :=
  match knownServices !! fc_Service cfg with
  | Some _ => []
  | None =>
      [("invalid service: " +:+ quoted (fc_Service cfg)
        +:+ " (must be github, gitlab, bitbucket, or forgejo)")%string]
  end.

Definition fieldErrors (cfg : fileConfig) : list string :=
  if String.eqb (fc_Service cfg) "github" then
    if negb (contains ["all"; "owner"; "member"; "starred"]%string
               (gh_RepoType (fc_GitHub cfg)))
    then [("invalid github.repo_type: " +:+ quoted (gh_RepoType (fc_GitHub cfg))
           +:+ " (must be all, owner, member, or starred)")%string]
    else []
  else if String.eqb (fc_Service cfg) "gitlab" then
    (if negb (contains ["internal"; "public"; "private"]%string
                (gl_ProjectVisibility (fc_GitLab cfg)))
     then [("invalid gitlab.project_visibility: "
            +:+ quoted (gl_ProjectVisibility (fc_GitLab cfg))
            +:+ " (must be internal, public, or private)")%string]
     else [])
    ++ (if negb (validGitlabProjectMembership (gl_ProjectMembershipType (fc_GitLab cfg)))
        then [("invalid gitlab.project_membership_type: "
               +:+ quoted (gl_ProjectMembershipType (fc_GitLab cfg))
               +:+ " (must be all, owner, member, or starred)")%string]
        else [])
  else if String.eqb (fc_Service cfg) "forgejo" then
    if negb (contains ["user"; "starred"]%string (fj_RepoType (fc_Forgejo cfg)))
    then [("invalid forgejo.repo_type: " +:+ quoted (fj_RepoType (fc_Forgejo cfg))
           +:+ " (must be user or starred)")%string]
    else []
  else [].

Definition envErrors (cfg : fileConfig) : list string :=
  if String.eqb (fc_Service cfg) "github" then
    if String.eqb (os_Getenv "GITHUB_TOKEN") ""
    then ["GITHUB_TOKEN environment variable not set"%string] else []
  else if String.eqb (fc_Service cfg) "gitlab" then
    if String.eqb (os_Getenv "GITLAB_TOKEN") ""
    then ["GITLAB_TOKEN environment variable not set"%string] else []
  else if String.eqb (fc_Service cfg) "bitbucket" then
    (if String.eqb (os_Getenv "BITBUCKET_USERNAME") ""
     then ["BITBUCKET_USERNAME environment variable not set"%string] else [])
    ++ (if String.eqb (os_Getenv "BITBUCKET_TOKEN") ""
           && String.eqb (os_Getenv "BITBUCKET_PASSWORD") ""
        then ["BITBUCKET_TOKEN or BITBUCKET_PASSWORD environment variable must be set"%string]
        else [])
  else if String.eqb (fc_Service cfg) "forgejo" then
    if String.eqb (os_Getenv "FORGEJO_TOKEN") ""
    then ["FORGEJO_TOKEN environment variable not set"%string] else []
  else [].

Definition validationErrors (cfg : fileConfig) : list string :=
  serviceErrors cfg ++ fieldErrors cfg ++ envErrors cfg.

(** [handleValidateConfig] *)
Definition handleValidateConfig (w : world) (configPath : path) : option error * world :=
  match resolveConfigPath os_UserConfigDir configPath with
  | inr err => (Some err, w)
  | inl path =>
      match loadConfigFile (files w) configPath with
      | inr err => (Some err, w)
      | inl cfg =>
          let errors := validationErrors cfg in
          if (0 <? length errors)%nat then
            (Some "config validation failed"%string,
             {| files := files w;
                stdout := stdout w ++ [("Validation errors:" +:+ nl)%string]
                          ++ map (fun e => ("  - " +:+ e +:+ nl)%string) errors;
                refuses := refuses w |})
          else
            (None,
             {| files := files w;
                stdout := stdout w ++ [(pathString path +:+ " is valid" +:+ nl)%string];
                refuses := refuses w |})
      end
  end.

(** [validateConfig] (options.go) *)
Definition validateConfig (c : appConfig) : option error :=
  match knownServices !! service c with
  | None =>
      Some "please specify the git service type: github, gitlab, bitbucket, forgejo"%string
  | Some _ =>
      if negb (validGitlabProjectMembership (gitlabProjectMembershipType c))
      then Some "please specify a valid gitlab project membership - all/owner/member/starred"%string
      else None
  end.

(** the whitelist a non-empty flag value gives: [strings.Split(ns, ",")] *)
Definition whitelistOf (ns : string) (otherwise : list string) : list string :=
  if (0 <? String.length ns)%nat then splitChar ","%char ns else otherwise.

(** [buildConfig], its branch for a loaded config file: only the flags set
    on the command line override the file; the migration flags always come
    from the command line *)
Definition overFile (cCtx : Context) (c : appConfig) : appConfig := {|
  service := if ctxIsSet cCtx "service" then ctxString cCtx "service" else service c;
  gitHostURL :=
    if ctxIsSet cCtx "githost.url" then ctxString cCtx "githost.url" else gitHostURL c;
  backupDir := if ctxIsSet cCtx "backupdir" then ctxString cCtx "backupdir" else backupDir c;
  ignorePrivate :=
    if ctxIsSet cCtx "ignore-private" then ctxBool cCtx "ignore-private" else ignorePrivate c;
  ignoreFork :=
    if ctxIsSet cCtx "ignore-fork" then ctxBool cCtx "ignore-fork" else ignoreFork c;
  useHTTPSClone :=
    if ctxIsSet cCtx "use-https-clone" then ctxBool cCtx "use-https-clone"
    else useHTTPSClone c;
  bare := if ctxIsSet cCtx "bare" then ctxBool cCtx "bare" else bare c;
  githubRepoType :=
    if ctxIsSet cCtx "github.repoType" then ctxString cCtx "github.repoType"
    else githubRepoType c;
  githubNamespaceWhitelist :=
    if ctxIsSet cCtx "github.namespaceWhitelist"
    then whitelistOf (ctxString cCtx "github.namespaceWhitelist") (githubNamespaceWhitelist c)
    else githubNamespaceWhitelist c;
  githubCreateUserMigration := ctxBool cCtx "github.createUserMigration";
  githubCreateUserMigrationRetry := ctxBool cCtx "github.createUserMigrationRetry";
  githubCreateUserMigrationRetryMax := ctxInt cCtx "github.createUserMigrationRetryMax";
  githubListUserMigrations := ctxBool cCtx "github.listUserMigrations";
  githubWaitForMigrationComplete := ctxBool cCtx "github.waitForUserMigration";
  gitlabProjectVisibility :=
    if ctxIsSet cCtx "gitlab.projectVisibility" then ctxString cCtx "gitlab.projectVisibility"
    else gitlabProjectVisibility c;
  gitlabProjectMembershipType :=
    if ctxIsSet cCtx "gitlab.projectMembershipType"
    then ctxString cCtx "gitlab.projectMembershipType"
    else gitlabProjectMembershipType c;
  forgejoRepoType :=
    if ctxIsSet cCtx "forgejo.repoType" then ctxString cCtx "forgejo.repoType"
    else forgejoRepoType c
|}.

(** [buildConfig], its branch without a config file: every value is read
    from the command line *)
Definition fromCommandLine (cCtx : Context) : appConfig := {|
  service := ctxString cCtx "service";
  gitHostURL := ctxString cCtx "githost.url";
  backupDir := ctxString cCtx "backupdir";
  ignorePrivate := ctxBool cCtx "ignore-private";
  ignoreFork := ctxBool cCtx "ignore-fork";
  useHTTPSClone := ctxBool cCtx "use-https-clone";
  bare := ctxBool cCtx "bare";
  githubRepoType := ctxString cCtx "github.repoType";
  githubNamespaceWhitelist := whitelistOf (ctxString cCtx "github.namespaceWhitelist") [];
  githubCreateUserMigration := ctxBool cCtx "github.createUserMigration";
  githubCreateUserMigrationRetry := ctxBool cCtx "github.createUserMigrationRetry";
  githubCreateUserMigrationRetryMax := ctxInt cCtx "github.createUserMigrationRetryMax";
  githubListUserMigrations := ctxBool cCtx "github.listUserMigrations";
  githubWaitForMigrationComplete := ctxBool cCtx "github.waitForUserMigration";
  gitlabProjectVisibility := ctxString cCtx "gitlab.projectVisibility";
  gitlabProjectMembershipType := ctxString cCtx "gitlab.projectMembershipType";
  forgejoRepoType := ctxString cCtx "forgejo.repoType"
|}.

(** [buildConfig]: the config file, when there is one at the resolved path,
    is the base; a path that cannot be resolved and a missing file are not
    errors, a file that cannot be loaded is *)
Definition buildConfig (fs : tree) (cCtx : Context) : appConfig + error :=
  let configPath := configFlag cCtx in
  let loaded : option fileConfig + error :=
    match resolveConfigPath os_UserConfigDir configPath with
    | inr _ => inl None
    | inl resolvedPath =>
        match os_Stat fs resolvedPath with
        | None => inl None
        | Some _ =>
            match loadConfigFile fs configPath with
            | inr err => inr err
            | inl fc => inl (Some fc)
            end
        end
    end in
  match loaded with
  | inr err => inr err
  | inl found =>
      let c := match found with
               | Some fc => overFile cCtx (fileConfigToAppConfig fc)
               | None => fromCommandLine cCtx
               end in
      inl (withBackupDir c (setupBackupDir (backupDir c) (service c) (gitHostURL c)))
  end.

End ConfigReading.

(** ** Worked inputs for the configuration *)

Module ConfigExamples.

(** an environment in which only [GITHUB_TOKEN] is set *)
Definition tokenSet (name : string) : string :=
  if String.eqb name "GITHUB_TOKEN" then "testtoken"%string else EmptyString.

(** the membership types the messages of the sources name *)
Definition membershipNamed (m : string) : bool :=
  contains ["all"; "owner"; "member"; "starred"]%string m.

(** the string between double quotes *)
Definition inQuotes (s : string) : string :=
  (String (ascii_of_nat 34) EmptyString +:+ s +:+ String (ascii_of_nat 34) EmptyString)%string.

(** a parser that reads back what [Examples.renderYaml] writes for the
    default configuration, and nothing else *)
Definition parseDefault (data : string) : fileConfig + error :=
  match Examples.renderYaml defaultFileConfig with
  | inl text => if String.eqb data text then inl defaultFileConfig
                else inr "yaml: cannot parse"%string
  | inr err => inr err
  end.

(** a backup directory set-up that keeps the directory it is given *)
Definition keepBackupDir (dir svc host : string) : string := dir.

(** a GitLab configuration file as the tests write it *)
Definition gitlabFile : fileConfig := {|
  fc_Service := "gitlab";
  fc_GitHostURL := "";
  fc_BackupDir := "";
  fc_IgnorePrivate := false;
  fc_IgnoreFork := true;
  fc_UseHTTPSClone := false;
  fc_Bare := false;
  fc_GitHub := {| gh_RepoType := ""; gh_NamespaceWhitelist := ["acme"%string] |};
  fc_GitLab := {| gl_ProjectVisibility := "private"; gl_ProjectMembershipType := "all" |};
  fc_Forgejo := {| fj_RepoType := "" |}
|}.

(** a parser that reads every text as [gitlabFile] *)
Definition parseGitlab (data : string) : fileConfig + error := inl gitlabFile.

(** a machine with a config file at [gitbackup.yml] *)
Definition withConfigFile : tree := {[ ["gitbackup.yml"%string] := File "service: gitlab" ]}.

(** the command line [-config gitbackup.yml -service github] *)
Definition serviceOverridden : Context :=
  {| configFlag := ["gitbackup.yml"%string];
     flagsSet := {[ "service"%string := StringValue "github" ]} |}.

(** the command line without any flag *)
Definition noFlags : Context := {| configFlag := []; flagsSet := ∅ |}.

(** a GitHub configuration file with a GitLab membership type nobody knows *)
Definition githubFileOddMembership : fileConfig := {|
  fc_Service := "github";
  fc_GitHostURL := "";
  fc_BackupDir := "";
  fc_IgnorePrivate := false;
  fc_IgnoreFork := false;
  fc_UseHTTPSClone := false;
  fc_Bare := false;
  fc_GitHub := {| gh_RepoType := "all"; gh_NamespaceWhitelist := [] |};
  fc_GitLab := {| gl_ProjectVisibility := ""; gl_ProjectMembershipType := "" |};
  fc_Forgejo := {| fj_RepoType := "" |}
|}.

(** an environment in which only [GITLAB_TOKEN] is set *)
Definition gitlabTokenSet (name : string) : string :=
  if String.eqb name "GITLAB_TOKEN" then "testtoken"%string else EmptyString.

(** a machine with a directory at [gitbackup.yml] *)
Definition directoryInTheWay : tree := {[ ["gitbackup.yml"%string] := Dir ]}.

(** the command line [-config gitbackup.yml] *)
Definition configGiven : Context :=
  {| configFlag := ["gitbackup.yml"%string]; flagsSet := ∅ |}.

End ConfigExamples.

(** ** Facts about the listing loop *)

Section PagingFacts.
Context {Item Resp Req : Type}.
Variable body : list Repository -> Item -> list Repository.
Variable nextPage : Resp -> Z.
Variable request : Z -> Req.

Local Abbreviation loop := (pageLoop body nextPage request).
Local Abbreviation goesOn := (fun r => continuing nextPage r = true).

Lemma fold_left_allItems (pre : list (reply Item Resp)) (items : list Item)
    (acc : list Repository) :
  fold_left body (allItems pre ++ items) acc
  = fold_left body items (fold_left body (allItems pre) acc).
Proof. apply fold_left_app. Qed.

(** the sentinel ends the loop: everything before it is consumed, nothing
    after it is read *)
Lemma pageLoop_returns (pre : list (reply Item Resp)) :
  forall (items : list Item) (resp : Resp) (rest : list (reply Item Resp))
         (page : Z) (acc : list Repository) (sent : list Req),
    Forall goesOn pre ->
    nextPage resp = 0%Z ->
    loop (pre ++ Page items resp :: rest) page acc sent
    = {| result := Returned (fold_left body (allItems pre ++ items) acc);
         asked := sent ++ map request (page :: map (cursorOf nextPage) pre);
         unread := rest |}.
Proof.
  induction pre as [|r pre IH]; intros items resp rest page acc sent Hpre Hz.
  - simpl. rewrite Hz. reflexivity.
  - inversion Hpre as [|? ? Hr Hpre']; subst.
    destruct r as [its rsp|e]; simpl in Hr; [|discriminate].
    simpl. destruct (nextPage rsp =? 0)%Z eqn:E; [discriminate|].
    rewrite (IH items resp rest (nextPage rsp) _ _ Hpre' Hz). f_equal.
    + unfold allItems. simpl. by rewrite <- app_assoc, (fold_left_app body its).
    + simpl. by rewrite <- app_assoc.
Qed.

(** an error ends the loop at once *)
Lemma pageLoop_fails (pre : list (reply Item Resp)) :
  forall (err : error) (rest : list (reply Item Resp))
         (page : Z) (acc : list Repository) (sent : list Req),
    Forall goesOn pre ->
    loop (pre ++ Refused err :: rest) page acc sent
    = {| result := Failed err;
         asked := sent ++ map request (page :: map (cursorOf nextPage) pre);
         unread := rest |}.
Proof.
  induction pre as [|r pre IH]; intros err rest page acc sent Hpre.
  - reflexivity.
  - inversion Hpre as [|? ? Hr Hpre']; subst.
    destruct r as [its rsp|e]; simpl in Hr; [|discriminate].
    simpl. destruct (nextPage rsp =? 0)%Z eqn:E; [discriminate|].
    rewrite (IH err rest (nextPage rsp) _ _ Hpre'). f_equal.
    simpl. by rewrite <- app_assoc.
Qed.

(** without the sentinel the loop does not end *)
Lemma pageLoop_blocks (script : list (reply Item Resp)) :
  forall (page : Z) (acc : list Repository) (sent : list Req),
    Forall goesOn script ->
    loop script page acc sent
    = {| result := Blocked;
         asked := sent ++ map request (page :: map (cursorOf nextPage) script);
         unread := [] |}.
Proof.
  induction script as [|r script IH]; intros page acc sent Hs.
  - reflexivity.
  - inversion Hs as [|? ? Hr Hs']; subst.
    destruct r as [its rsp|e]; simpl in Hr; [|discriminate].
    simpl. destruct (nextPage rsp =? 0)%Z eqn:E; [discriminate|].
    rewrite (IH (nextPage rsp) _ _ Hs'). f_equal.
    simpl. by rewrite <- app_assoc.
Qed.

(** every script is of one of the three shapes *)
Lemma script_shape (script : list (reply Item Resp)) :
  Forall goesOn script
  \/ (exists pre items resp rest,
        script = pre ++ Page items resp :: rest
        /\ Forall goesOn pre /\ nextPage resp = 0%Z)
  \/ (exists pre err rest,
        script = pre ++ Refused err :: rest /\ Forall goesOn pre).
Proof.
  induction script as [|r script IH].
  - left. constructor.
  - destruct r as [its rsp|e].
    + destruct (nextPage rsp =? 0)%Z eqn:E.
      * right. left. exists [], its, rsp, script.
        split; [reflexivity|]. split; [constructor|]. by apply Z.eqb_eq.
      * assert (Hr : continuing nextPage (Page its rsp) = true) by (simpl; by rewrite E).
        destruct IH as [H|[(pre & items & resp & rest & -> & Hpre & Hz)
                          |(pre & err & rest & -> & Hpre)]].
        -- left. by constructor.
        -- right. left. exists (Page its rsp :: pre), items, resp, rest.
           split; [reflexivity|]. split; [by constructor|done].
        -- right. right. exists (Page its rsp :: pre), err, rest.
           split; [reflexivity|]. by constructor.
    + right. right. exists [], e, script. split; [reflexivity|constructor].
Qed.

(** a loop that returned has read a sentinel, and returns what the inner
    loop made of the pages up to it *)
Lemma pageLoop_returned (script : list (reply Item Resp)) (page : Z)
    (acc : list Repository) (sent : list Req) (repos : list Repository) :
  result (loop script page acc sent) = Returned repos ->
  exists pre items resp,
    script = pre ++ Page items resp :: unread (loop script page acc sent)
    /\ Forall goesOn pre /\ nextPage resp = 0%Z
    /\ repos = fold_left body (allItems pre ++ items) acc.
Proof.
  intros Hres.
  destruct (script_shape script) as [H|[(pre & items & resp & rest & -> & Hpre & Hz)
                                       |(pre & err & rest & -> & Hpre)]].
  - rewrite pageLoop_blocks in Hres by done. discriminate.
  - rewrite pageLoop_returns in * by done. simpl in *.
    exists pre, items, resp. repeat split; try done. congruence.
  - rewrite pageLoop_fails in Hres by done. discriminate.
Qed.

(** a loop that failed has read an error, before any sentinel *)
Lemma pageLoop_failed (script : list (reply Item Resp)) (page : Z)
    (acc : list Repository) (sent : list Req) (err : error) :
  result (loop script page acc sent) = Failed err ->
  exists pre,
    script = pre ++ Refused err :: unread (loop script page acc sent)
    /\ Forall goesOn pre.
Proof.
  intros Hres.
  destruct (script_shape script) as [H|[(pre & items & resp & rest & -> & Hpre & Hz)
                                       |(pre & e & rest & -> & Hpre)]].
  - rewrite pageLoop_blocks in Hres by done. discriminate.
  - rewrite pageLoop_returns in Hres by done. discriminate.
  - rewrite pageLoop_fails in * by done. simpl in *.
    exists pre. split; [congruence|done].
Qed.

(** the loop itself never ends the process *)
Lemma pageLoop_not_fatal (script : list (reply Item Resp)) (page : Z)
    (acc : list Repository) (sent : list Req) (msg : string) :
  result (loop script page acc sent) <> Fatal msg.
Proof.
  destruct (script_shape script) as [H|[(pre & items & resp & rest & -> & Hpre & Hz)
                                       |(pre & e & rest & -> & Hpre)]].
  - by rewrite pageLoop_blocks.
  - by rewrite pageLoop_returns.
  - by rewrite pageLoop_fails.
Qed.

End PagingFacts.

(** ** The inner loops, read as filter and map *)

Lemma contains_In (l : list string) (x : string) :
  contains l x = true <-> In x l.
Proof.
  induction l as [|y l IH]; simpl.
  - split; [discriminate|tauto].
  - rewrite orb_true_iff, IH, String.eqb_eq. tauto.
Qed.

Lemma filter_sublist_bool {A : Type} (f : A -> bool) (l : list A) :
  sublist (List.filter f l) l.
Proof.
  induction l as [|x l IH]; simpl.
  - constructor.
  - destruct (f x); by constructor.
Qed.

Lemma allItems_app {Item Resp : Type} (a b : list (reply Item Resp)) :
  allItems (a ++ b) = allItems a ++ allItems b.
Proof. unfold allItems. by rewrite map_app, concat_app. Qed.

Lemma githubRepoBody_fold (u : bool) (wl : list string) (ign : bool)
    (items : list github.Repository) :
  forall acc,
    fold_left (githubRepoBody u wl ign) items acc
    = acc ++ map (githubRepository u) (List.filter (githubKept wl ign) items).
Proof.
  induction items as [|repo items IH]; intros acc; simpl.
  - by rewrite app_nil_r.
  - rewrite IH. unfold githubRepoBody, githubKept.
    destruct (github.Fork repo && ign); simpl; [done|].
    destruct ((0 <? length wl)%nat
              && negb (contains wl (firstSegment (github.FullName repo)))); simpl; [done|].
    by rewrite <- app_assoc.
Qed.

Lemma githubStarBody_fold (u : bool) (ign : bool)
    (stars : list github.StarredRepository) :
  forall acc,
    fold_left (githubStarBody u ign) stars acc
    = acc ++ map (githubRepository u)
               (List.filter (githubStarKept ign) (map github.Repository_ stars)).
Proof.
  induction stars as [|star stars IH]; intros acc; simpl.
  - by rewrite app_nil_r.
  - rewrite IH. unfold githubStarBody, githubStarKept.
    destruct (github.Fork (github.Repository_ star) && ign); simpl; [done|].
    by rewrite <- app_assoc.
Qed.

Lemma gitlabRepoBody_fold (u : bool) (ign : bool) (items : list gitlab.Project) :
  forall acc,
    fold_left (gitlabRepoBody u ign) items acc
    = acc ++ map (gitlabRepository u) (List.filter (gitlabKept ign) items).
Proof.
  induction items as [|repo items IH]; intros acc; simpl.
  - by rewrite app_nil_r.
  - rewrite IH. unfold gitlabRepoBody, gitlabKept.
    destruct (notNil (gitlab.ForkedFromProject repo) && ign); simpl; [done|].
    by rewrite <- app_assoc.
Qed.

Lemma forgejoRepoBody_fold (u : bool) (items : list forgejo.Repository) :
  forall acc,
    fold_left (forgejoRepoBody u) items acc = acc ++ map (forgejoRepository u) items.
Proof.
  induction items as [|repo items IH]; intros acc; simpl.
  - by rewrite app_nil_r.
  - rewrite IH. unfold forgejoRepoBody. by rewrite <- app_assoc.
Qed.

Lemma bitbucketRepoBody_fold (u : bool) (items : list bitbucket.Repository) :
  forall acc,
    fold_left (bitbucketRepoBody u) items acc = acc ++ map (bitbucketRepository u) items.
Proof.
  induction items as [|repo items IH]; intros acc; simpl.
  - by rewrite app_nil_r.
  - rewrite IH. unfold bitbucketRepoBody. by rewrite <- app_assoc.
Qed.

(** ** What a GitHub run returns *)

(** the listed repositories a run returns, for a selector other than starred *)
Lemma github_listed_returned (u : bool) (client : GithubClient) (ty : string)
    (wl : list string) (ign : bool) (repos : list Repository) :
  ty <> "starred"%string ->
  result (getGithubRepositories u client ty wl ign) = Returned repos ->
  exists kept,
    sublist kept (allItems (listReplies client))
    /\ Forall (fun r => githubKept wl ign r = true) kept
    /\ repos = map (githubRepository u) kept.
Proof.
  intros Hty Hres. unfold getGithubRepositories in Hres.
  apply String.eqb_neq in Hty. rewrite Hty in Hres. simpl in Hres.
  apply pageLoop_returned in Hres as (pre & items & resp & Hscript & _ & _ & ->).
  rewrite githubRepoBody_fold. simpl.
  exists (List.filter (githubKept wl ign) (allItems pre ++ items)).
  split; [|split; [|done]].
  - rewrite Hscript, allItems_app.
    etrans; [apply filter_sublist_bool|].
    change (allItems (Page items resp :: ?t)) with (items ++ allItems t).
    rewrite app_assoc. apply sublist_inserts_r. done.
  - apply Forall_forall. intros r Hr. apply list_elem_of_In in Hr.
    by apply filter_In in Hr as [_ ?].
Qed.

(** the starred repositories a run returns *)
Lemma github_starred_returned (u : bool) (client : GithubClient)
    (wl : list string) (ign : bool) (repos : list Repository) :
  result (getGithubRepositories u client "starred" wl ign) = Returned repos ->
  exists kept,
    sublist kept (map github.Repository_ (allItems (starredReplies client)))
    /\ Forall (fun r => githubStarKept ign r = true) kept
    /\ repos = map (githubRepository u) kept.
Proof.
  intros Hres. unfold getGithubRepositories, getGithubStarredRepositories in Hres.
  simpl in Hres.
  apply pageLoop_returned in Hres as (pre & items & resp & Hscript & _ & _ & ->).
  rewrite githubStarBody_fold. simpl.
  exists (List.filter (githubStarKept ign) (map github.Repository_ (allItems pre ++ items))).
  split; [|split; [|done]].
  - rewrite Hscript, allItems_app.
    etrans; [apply filter_sublist_bool|].
    change (allItems (Page items resp :: ?t)) with (items ++ allItems t).
    rewrite app_assoc, (map_app _ (allItems pre ++ items)).
    apply sublist_inserts_r. done.
  - apply Forall_forall. intros r Hr. apply list_elem_of_In in Hr.
    by apply filter_In in Hr as [_ ?].
Qed.

(** the projects a GitLab run returns *)
Lemma gitlab_returned (u : bool) (client : GitlabClient) (vis mem : string)
    (ign : bool) (repos : list Repository) :
  result (getGitlabRepositories u client vis mem ign) = Returned repos ->
  exists kept,
    sublist kept (allItems client)
    /\ Forall (fun r => gitlabKept ign r = true) kept
    /\ repos = map (gitlabRepository u) kept.
Proof.
  intros Hres. unfold getGitlabRepositories in Hres.
  apply pageLoop_returned in Hres as (pre & items & resp & Hscript & _ & _ & ->).
  rewrite gitlabRepoBody_fold. simpl.
  exists (List.filter (gitlabKept ign) (allItems pre ++ items)).
  split; [|split; [|done]].
  - rewrite Hscript, allItems_app.
    etrans; [apply filter_sublist_bool|].
    change (allItems (Page items resp :: ?t)) with (items ++ allItems t).
    rewrite app_assoc. apply sublist_inserts_r. done.
  - apply Forall_forall. intros r Hr. apply list_elem_of_In in Hr.
    by apply filter_In in Hr as [_ ?].
Qed.

(** ** The namespace whitelist (C1) *)

(** what the façade hands on is what the adapter listed, after the two
    cross-provider filters *)
Lemma discover_returned (c : appConfig) (client : Client) (repos : list Repository) :
  discover c client = Returned repos <->
  exists listed,
    listRepositories c client = Returned listed
    /\ repos = dropPrivate c (keepWhitelisted c listed).
Proof.
  unfold discover. split.
  - destruct (listRepositories c client) as [listed| | |]; try discriminate.
    intros [= <-]. by exists listed.
  - intros (listed & -> & ->). done.
Qed.

Lemma keepWhitelisted_In (c : appConfig) (listed : list Repository) (repo : Repository) :
  In repo (keepWhitelisted c listed) <->
  In repo listed
  /\ (githubNamespaceWhitelist c = [] \/ In (Namespace repo) (githubNamespaceWhitelist c)).
Proof.
  unfold keepWhitelisted. destruct (githubNamespaceWhitelist c) as [|x wl] eqn:Hwl.
  - simpl. split; [intros H; split; [done|by left]|by intros [? _]].
  - cbn [length Nat.ltb Nat.leb]. rewrite filter_In, contains_In.
    split; intros [H1 H2]; (split; [done|]).
    + by right.
    + by destruct H2.
Qed.

Lemma dropPrivate_In (c : appConfig) (listed : list Repository) (repo : Repository) :
  In repo (dropPrivate c listed) <->
  In repo listed /\ (ignorePrivate c = true -> Private repo = false).
Proof.
  unfold dropPrivate. destruct (ignorePrivate c).
  - rewrite filter_In, negb_true_iff. split; intros [H1 H2]; (split; [done|]); auto.
  - split; [intros H; split; [done|discriminate]|by intros [? _]].
Qed.

Lemma keepWhitelisted_sublist (c : appConfig) (listed : list Repository) :
  sublist (keepWhitelisted c listed) listed.
Proof.
  unfold keepWhitelisted. destruct (0 <? _)%nat; [apply filter_sublist_bool|done].
Qed.

Lemma dropPrivate_sublist (c : appConfig) (listed : list Repository) :
  sublist (dropPrivate c listed) listed.
Proof.
  unfold dropPrivate. destruct (ignorePrivate c); [apply filter_sublist_bool|done].
Qed.

(** In the sources the whitelist is matched in the loop of
    [getGithubRepositories] only.  For the GitHub service and a selector
    other than starred, the adapter alone returns only repositories whose
    namespace is, as a string, one of the entries of a non-empty
    whitelist. *)
Lemma github_adapter_respects_whitelist (u : bool) (client : GithubClient)
    (githubRepoType : string) (whitelist : list string) (ignoreFork : bool)
    (repos : list Repository) :
  githubRepoType <> "starred"%string ->
  whitelist <> [] ->
  result (getGithubRepositories u client githubRepoType whitelist ignoreFork)
  = Returned repos ->
  Forall (fun repo => In (Namespace repo) whitelist) repos.
Proof.
  intros Hty Hwl Hres.
  destruct (github_listed_returned u client githubRepoType whitelist ignoreFork repos Hty Hres)
    as (kept & _ & Hkept & ->).
  apply Forall_map. eapply Forall_impl; [exact Hkept|].
  intros r Hr. simpl. unfold githubKept in Hr.
  apply andb_true_iff in Hr as [_ Hr]. apply negb_true_iff in Hr.
  apply andb_false_iff in Hr as [Hr|Hr].
  - destruct whitelist; [done|discriminate].
  - apply negb_false_iff in Hr. by apply contains_In.
Qed.

(** With the starred selector [getGithubRepositories] returns through
    [getGithubStarredRepositories] before it looks at the whitelist: the
    whitelist holds [acme] only, the user has starred [other/tool] and
    [acme/api], and the adapter returns both.  It is the façade that drops
    [other/tool]. *)
Lemma starred_adapter_ignores_whitelist :
  listRepositories Examples.acmeStars (ClientGithub Examples.starredAccount)
  = Returned [githubRepository false Examples.otherTool;
              githubRepository false Examples.acmeApi]
  /\ Namespace (githubRepository false Examples.otherTool) = "other"%string
  /\ ~ In "other"%string (githubNamespaceWhitelist Examples.acmeStars)
  /\ discover Examples.acmeStars (ClientGithub Examples.starredAccount)
     = Returned [githubRepository false Examples.acmeApi].
Proof.
  split; [reflexivity|]. split; [reflexivity|]. split; [|reflexivity].
  simpl. intros [H|[]]. discriminate H.
Qed.

(** C1: for every configuration with a non-empty namespace whitelist, every
    service (the client) and every selector the configuration names, the
    starred ones included, discovery returns only repositories whose
    namespace is, as a string, one of the entries of the whitelist; what it
    returns is taken from the adapter's listing, in the adapter's order, and
    nothing whose namespace is in the whitelist is dropped on account of the
    whitelist.  For the GitHub service and a selector other than starred the
    adapter's own listing already satisfies the whitelist. *)
Theorem discover_respects_whitelist (c : appConfig) (client : Client)
    (repos : list Repository) :
  githubNamespaceWhitelist c <> [] ->
  discover c client = Returned repos ->
  Forall (fun repo => In (Namespace repo) (githubNamespaceWhitelist c)) repos
  /\ (exists listed,
        listRepositories c client = Returned listed
        /\ sublist repos listed
        /\ (forall repo, In repo listed ->
              In (Namespace repo) (githubNamespaceWhitelist c) ->
              Private repo = false \/ ignorePrivate c = false ->
              In repo repos)
        /\ (forall gh, client = ClientGithub gh ->
              githubRepoType c <> "starred"%string ->
              Forall (fun repo => In (Namespace repo) (githubNamespaceWhitelist c)) listed)).
Proof.
  intros Hwl Hres. apply discover_returned in Hres as (listed & Hlisted & ->).
  split.
  - apply Forall_forall. intros repo Hin. apply list_elem_of_In in Hin.
    apply dropPrivate_In in Hin as [Hin _].
    apply keepWhitelisted_In in Hin as [_ [H|H]]; done.
  - exists listed. split; [done|]. split; [|split].
    + etrans; [apply dropPrivate_sublist|apply keepWhitelisted_sublist].
    + intros repo Hin Hns Hpriv. apply dropPrivate_In. split.
      * apply keepWhitelisted_In. split; [done|by right].
      * intros Hign. destruct Hpriv as [H|H]; [done|congruence].
    + intros gh -> Hty. simpl in Hlisted.
      by eapply github_adapter_respects_whitelist.
Qed.

Lemma discover_respects_whitelist_witness :
  githubNamespaceWhitelist Examples.acmeStars <> []
  /\ discover Examples.acmeStars (ClientGithub Examples.starredAccount)
     = Returned [githubRepository false Examples.acmeApi]
  /\ Forall (fun repo => In (Namespace repo) (githubNamespaceWhitelist Examples.acmeStars))
       [githubRepository false Examples.acmeApi].
Proof.
  assert (H1 : githubNamespaceWhitelist Examples.acmeStars <> []) by discriminate.
  assert (H2 : discover Examples.acmeStars (ClientGithub Examples.starredAccount)
               = Returned [githubRepository false Examples.acmeApi]) by reflexivity.
  split; [exact H1|]. split; [exact H2|].
  exact (proj1 (discover_respects_whitelist Examples.acmeStars
                  (ClientGithub Examples.starredAccount) _ H1 H2)).
Defined.

(** ** The fork filter (C2) *)

(** C2: with ignore-fork set, what a GitHub run (listed or starred) and a
    GitLab run return is, in order, the conversion of payload entries none
    of which is marked as a fork: GitHub's fork flag is false, GitLab's
    forked-from-project field is nil. *)
Theorem ignore_fork_drops_forks (u : bool) :
  (forall (client : GithubClient) (githubRepoType : string) (whitelist : list string)
          (repos : list Repository),
      result (getGithubRepositories u client githubRepoType whitelist true) = Returned repos ->
      exists kept,
        sublist kept (githubPayload client githubRepoType)
        /\ Forall (fun r => github.Fork r = false) kept
        /\ repos = map (githubRepository u) kept)
  /\ (forall (client : GitlabClient) (visibility membership : string)
             (repos : list Repository),
      result (getGitlabRepositories u client visibility membership true) = Returned repos ->
      exists kept,
        sublist kept (allItems client)
        /\ Forall (fun p => gitlab.ForkedFromProject p = None) kept
        /\ repos = map (gitlabRepository u) kept).
Proof.
  split.
  - intros client ty wl repos Hres. unfold githubPayload.
    destruct (String.eqb_spec ty "starred") as [->|Hty].
    + destruct (github_starred_returned u client wl true repos Hres)
        as (kept & Hsub & Hkept & ->).
      exists kept. split; [done|]. split; [|done].
      eapply Forall_impl; [exact Hkept|]. intros r Hr. unfold githubStarKept in Hr.
      by destruct (github.Fork r).
    + destruct (github_listed_returned u client ty wl true repos Hty Hres)
        as (kept & Hsub & Hkept & ->).
      exists kept. split; [done|]. split; [|done].
      eapply Forall_impl; [exact Hkept|]. intros r Hr. unfold githubKept in Hr.
      by destruct (github.Fork r).
  - intros client vis mem repos Hres.
    destruct (gitlab_returned u client vis mem true repos Hres)
      as (kept & Hsub & Hkept & ->).
    exists kept. split; [done|]. split; [|done].
    eapply Forall_impl; [exact Hkept|]. intros p Hp. unfold gitlabKept in Hp.
    by destruct (gitlab.ForkedFromProject p).
Qed.

Lemma ignore_fork_drops_forks_witness :
  (result (getGithubRepositories false Examples.githubAccount "all" [] true)
   = Returned [githubRepository false Examples.acmeApi;
               githubRepository false Examples.otherTool]
   /\ exists kept,
        sublist kept (githubPayload Examples.githubAccount "all")
        /\ Forall (fun r => github.Fork r = false) kept
        /\ [githubRepository false Examples.acmeApi;
            githubRepository false Examples.otherTool]
           = map (githubRepository false) kept)
  /\ (result (getGitlabRepositories false Examples.gitlabAccount "all" "owner" true)
      = Returned [gitlabRepository false Examples.gitlabInternal;
                  gitlabRepository false Examples.gitlabSecret]
      /\ exists kept,
           sublist kept (allItems Examples.gitlabAccount)
           /\ Forall (fun p => gitlab.ForkedFromProject p = None) kept
           /\ [gitlabRepository false Examples.gitlabInternal;
               gitlabRepository false Examples.gitlabSecret]
              = map (gitlabRepository false) kept).
Proof.
  split; (split; [reflexivity|]).
  - apply (proj1 (ignore_fork_drops_forks false) Examples.githubAccount "all" []).
    reflexivity.
  - apply (proj2 (ignore_fork_drops_forks false) Examples.gitlabAccount "all" "owner").
    reflexivity.
Defined.

(** ** Pagination (C4) *)

(** a script of Forgejo pages that each name a next page, read through the
    loop's vocabulary *)
Lemma forgejoPage_continuing (pre : list (list forgejo.Repository * Z)) :
  Forall (fun p => p.2 <> 0%Z) pre ->
  Forall (fun r => continuing forgejoNextPage r = true) (map forgejoPage pre).
Proof.
  intros H. apply Forall_map. eapply Forall_impl; [exact H|].
  intros [items n] Hn. simpl in *. by apply negb_true_iff, Z.eqb_neq.
Qed.

Lemma forgejoPage_cursors (pre : list (list forgejo.Repository * Z)) :
  map (cursorOf forgejoNextPage) (map forgejoPage pre) = map snd pre.
Proof. rewrite map_map. by apply map_ext. Qed.

Lemma forgejoPage_items (pre : list (list forgejo.Repository * Z)) :
  allItems (map forgejoPage pre) = concat (map fst pre).
Proof. unfold allItems. rewrite map_map. f_equal. Qed.

Lemma forgejo_sentinel (resp : option forgejo.Response) :
  match resp with
  | None => True
  | Some r => forgejo.NextPage r = 0%Z
  end ->
  forgejoNextPage resp = 0%Z.
Proof. by destruct resp. Qed.

(** C4: in every adapter that pages (both GitHub listings, GitLab, both
    Forgejo listings), when the replies are pages that each name a next
    page, followed by a page whose next-page indicator is the sentinel (0;
    for Forgejo a response with [NextPage] 0 or a nil response), the listing
    returns what the inner loop made of exactly these pages, leaves every
    later reply unread, and has sent one request per page: the first for the
    initial cursor (0 for GitHub and GitLab, 1 for Forgejo), each later one
    for the next-page value of the reply before it; the cursor travels in
    the [Page] field of the request's options.  When no reply carries the
    sentinel, the listing does not return. *)
Theorem listing_stops_at_sentinel (u : bool) :
  (forall (ty : string) (wl : list string) (ign : bool)
          (pre : list (reply github.Repository github.Response))
          (items : list github.Repository) (resp : github.Response)
          (rest : list (reply github.Repository github.Response))
          (stars : list (reply github.StarredRepository github.Response)),
      ty <> "starred"%string ->
      Forall (fun r => continuing github.NextPage r = true) pre ->
      github.NextPage resp = 0%Z ->
      getGithubRepositories u
        {| listReplies := pre ++ Page items resp :: rest; starredReplies := stars |}
        ty wl ign
      = {| result := Returned (map (githubRepository u)
                                 (List.filter (githubKept wl ign) (allItems pre ++ items)));
           asked := map (fun page => ReqList {| github.Type_ := ty; github.Page := page |})
                      (0%Z :: map (cursorOf github.NextPage) pre);
           unread := {| listReplies := rest; starredReplies := stars |} |})
  /\ (forall (wl : list string) (ign : bool)
             (pre : list (reply github.StarredRepository github.Response))
             (items : list github.StarredRepository) (resp : github.Response)
             (rest : list (reply github.StarredRepository github.Response))
             (listed : list (reply github.Repository github.Response)),
      Forall (fun r => continuing github.NextPage r = true) pre ->
      github.NextPage resp = 0%Z ->
      getGithubRepositories u
        {| listReplies := listed; starredReplies := pre ++ Page items resp :: rest |}
        "starred" wl ign
      = {| result := Returned (map (githubRepository u)
                                 (List.filter (githubStarKept ign)
                                    (map github.Repository_ (allItems pre ++ items))));
           asked := map (fun page => ReqListStarred {| github.StarredPage := page |})
                      (0%Z :: map (cursorOf github.NextPage) pre);
           unread := {| listReplies := listed; starredReplies := rest |} |})
  /\ (forall (vis mem : string) (ign : bool)
             (pre : list (reply gitlab.Project gitlab.Response))
             (items : list gitlab.Project) (resp : gitlab.Response)
             (rest : list (reply gitlab.Project gitlab.Response)),
      Forall (fun r => continuing gitlab.NextPage r = true) pre ->
      gitlab.NextPage resp = 0%Z ->
      let r := getGitlabRepositories u (pre ++ Page items resp :: rest) vis mem ign in
      result r = Returned (map (gitlabRepository u)
                             (List.filter (gitlabKept ign) (allItems pre ++ items)))
      /\ map gitlab.Page (asked r) = 0%Z :: map (cursorOf gitlab.NextPage) pre
      /\ asked r = map (gitlabListOptions vis mem) (map gitlab.Page (asked r))
      /\ unread r = rest)
  /\ (forall (ty : string) (me : forgejo.User + error)
             (pre : list (list forgejo.Repository * Z)) (items : list forgejo.Repository)
             (resp : option forgejo.Response) (rest : list forgejoReply),
      ty = "user"%string \/ ty = ""%string ->
      Forall (fun p => p.2 <> 0%Z) pre ->
      match resp with
      | None => True
      | Some r => forgejo.NextPage r = 0%Z
      end ->
      getForgejoRepositories u
        {| myUserInfo := me;
           repoReplies := map forgejoPage pre ++ Page items resp :: rest |} ty
      = {| result := Returned (map (forgejoRepository u) (concat (map fst pre) ++ items));
           asked := map forgejo.ListMyRepos (1%Z :: map snd pre);
           unread := rest |})
  /\ (forall (user : forgejo.User)
             (pre : list (list forgejo.Repository * Z)) (items : list forgejo.Repository)
             (resp : option forgejo.Response) (rest : list forgejoReply),
      Forall (fun p => p.2 <> 0%Z) pre ->
      match resp with
      | None => True
      | Some r => forgejo.NextPage r = 0%Z
      end ->
      getForgejoRepositories u
        {| myUserInfo := inl user;
           repoReplies := map forgejoPage pre ++ Page items resp :: rest |} "starred"
      = {| result := Returned (map (forgejoRepository u) (concat (map fst pre) ++ items));
           asked := forgejo.GetMyUserInfo
                    :: map (fun page => forgejo.SearchRepos page (forgejo.ID user))
                         (1%Z :: map snd pre);
           unread := rest |})
  /\ (forall (client : GithubClient) (ty : string) (wl : list string) (ign : bool),
      Forall (fun r => continuing github.NextPage r = true) (listReplies client) ->
      Forall (fun r => continuing github.NextPage r = true) (starredReplies client) ->
      result (getGithubRepositories u client ty wl ign) = Blocked)
  /\ (forall (client : GitlabClient) (vis mem : string) (ign : bool),
      Forall (fun r => continuing gitlab.NextPage r = true) client ->
      result (getGitlabRepositories u client vis mem ign) = Blocked)
  /\ (forall (user : forgejo.User) (pages : list (list forgejo.Repository * Z))
             (ty : string),
      ty = "user"%string \/ ty = ""%string \/ ty = "starred"%string ->
      Forall (fun p => p.2 <> 0%Z) pages ->
      result (getForgejoRepositories u
                {| myUserInfo := inl user; repoReplies := map forgejoPage pages |} ty)
      = Blocked).
Proof.
  repeat apply conj.
  - intros ty wl ign pre items resp rest stars Hty Hpre Hz.
    unfold getGithubRepositories. apply String.eqb_neq in Hty. rewrite Hty. simpl.
    rewrite pageLoop_returns by done. simpl.
    by rewrite githubRepoBody_fold.
  - intros wl ign pre items resp rest listed Hpre Hz.
    unfold getGithubRepositories, getGithubStarredRepositories. simpl.
    rewrite pageLoop_returns by done. simpl.
    by rewrite githubStarBody_fold.
  - intros vis mem ign pre items resp rest Hpre Hz.
    unfold getGitlabRepositories.
    rewrite pageLoop_returns by done. cbn [result asked unread app].
    rewrite gitlabRepoBody_fold.
    assert (Hpages : forall l, map gitlab.Page (map (gitlabListOptions vis mem) l) = l).
    { intros l. rewrite map_map. apply map_id. }
    split; [done|]. split; [apply Hpages|]. split; [by rewrite Hpages|done].
  - intros ty me pre items resp rest Hty Hpre Hz.
    apply forgejoPage_continuing in Hpre. apply forgejo_sentinel in Hz.
    unfold getForgejoRepositories, paginateForgejoRepositories.
    destruct Hty as [-> | ->]; simpl;
      rewrite pageLoop_returns by done; unfold wrapFailure; simpl;
      by rewrite forgejoRepoBody_fold, forgejoPage_cursors, forgejoPage_items.
  - intros user pre items resp rest Hpre Hz.
    apply forgejoPage_continuing in Hpre. apply forgejo_sentinel in Hz.
    unfold getForgejoRepositories, paginateForgejoRepositories. simpl.
    rewrite pageLoop_returns by done. unfold wrapFailure, afterCalls. simpl.
    by rewrite forgejoRepoBody_fold, forgejoPage_cursors, forgejoPage_items.
  - intros client ty wl ign Hl Hs.
    unfold getGithubRepositories, getGithubStarredRepositories.
    destruct (String.eqb ty "starred"); simpl; by rewrite pageLoop_blocks.
  - intros client vis mem ign Hs.
    unfold getGitlabRepositories. by rewrite pageLoop_blocks.
  - intros user pages ty Hty Hs. apply forgejoPage_continuing in Hs.
    unfold getForgejoRepositories, paginateForgejoRepositories.
    destruct Hty as [-> | [-> | ->]]; simpl;
      rewrite pageLoop_blocks by done; reflexivity.
Qed.

Lemma listing_stops_at_sentinel_witness :
  "all"%string <> "starred"%string
  /\ Forall (fun r => continuing github.NextPage r = true)
       [Page [Examples.acmeApi; Examples.otherTool] {| github.NextPage := 2 |}]
  /\ github.NextPage {| github.NextPage := 0 |} = 0%Z
  /\ getGithubRepositories false Examples.githubAccount "all" [] false
     = {| result := Returned [githubRepository false Examples.acmeApi;
                              githubRepository false Examples.otherTool;
                              githubRepository false Examples.acmeFork];
          asked := [ReqList {| github.Type_ := "all"; github.Page := 0 |};
                    ReqList {| github.Type_ := "all"; github.Page := 2 |}];
          unread := {| listReplies := [];
                       starredReplies := starredReplies Examples.githubAccount |} |}.
Proof.
  assert (H1 : "all"%string <> "starred"%string) by discriminate.
  assert (H2 : Forall (fun r => continuing github.NextPage r = true)
                 [Page [Examples.acmeApi; Examples.otherTool] {| github.NextPage := 2 |}])
    by (repeat constructor).
  assert (H3 : github.NextPage {| github.NextPage := 0 |} = 0%Z) by reflexivity.
  split; [exact H1|]. split; [exact H2|]. split; [exact H3|].
  exact (proj1 (listing_stops_at_sentinel false) "all"%string [] false
           [Page [Examples.acmeApi; Examples.otherTool] {| github.NextPage := 2 |}]
           [Examples.acmeFork] {| github.NextPage := 0 |} []
           (starredReplies Examples.githubAccount) H1 H2 H3).
Defined.

(** ** Errors of the listing calls (C3) *)

Lemma string_length_append (a b : string) :
  String.length (a +:+ b) = String.length a + String.length b.
Proof. induction a as [|c a IH]; simpl; [done|by rewrite IH]. Qed.

(** a wrapped error is never the error it wraps *)
Lemma wrapError_differs (context : string) (err : error) :
  wrapError context err <> err.
Proof.
  intros H. apply (f_equal String.length) in H.
  unfold wrapError in H. rewrite !string_length_append in H. simpl in H. lia.
Qed.

(** an error in the Bitbucket loop over the workspaces ends it at once *)
Lemma bitbucketWorkspaceLoop_fails (u : bool) (before : list bitbucket.Workspace) :
  forall (workspace : bitbucket.Workspace) (after : list bitbucket.Workspace)
         (pre : list bitbucketReply) (err : error) (rest : list bitbucketReply)
         (acc : list Repository) (sent : list BitbucketRequest),
    length pre = length before ->
    Forall (fun r => answered r = true) pre ->
    bitbucketWorkspaceLoop u (before ++ workspace :: after) (pre ++ Refused err :: rest)
      acc sent
    = {| result := Failed err;
         asked := sent ++ map (fun w => ReqListForAccount
                                          {| bitbucket.Owner := bitbucket.WorkspaceSlug w |})
                            (before ++ [workspace]);
         unread := rest |}.
Proof.
  induction before as [|w before IH]; intros workspace after pre err rest acc sent Hlen Hpre.
  - destruct pre; [|discriminate]. reflexivity.
  - destruct pre as [|r pre]; [discriminate|].
    inversion Hpre as [|? ? Hr Hpre']; subst.
    destruct r as [items resp|e]; [|discriminate].
    simpl. rewrite IH by (simpl in Hlen; first [lia | done]).
    by rewrite <- app_assoc.
Qed.

(** C3, as stated, fails for Forgejo.  A listing call refused with
    "connection reset" reaches the caller of [getForgejoRepositories] as a
    new error with another message; and the starred selector ends the
    process, inside the adapter, when the user-info call fails. *)
Lemma forgejo_errors_are_rewrapped_or_fatal :
  result (getForgejoRepositories false Examples.forgejoDown "user")
  = Failed "fetching user repositories from forgejo: connection reset"
  /\ "fetching user repositories from forgejo: connection reset"%string
     <> "connection reset"%string
  /\ result (getForgejoRepositories false Examples.forgejoAnonymous "starred")
     = Fatal "Error fetching user info from forgejo: unauthorized".
Proof. split; [reflexivity|]. split; [discriminate|reflexivity]. Qed.

(** C3, amended: when the replies are pages that each name a next page,
    followed by an error, every adapter returns an error and no
    repositories, and sends no further request: every later reply is left
    unread, and the process goes on.  The two GitHub listings, the GitLab
    listing, [paginateForgejoRepositories] and the Bitbucket adapter (for
    both of its calls) return the error unchanged; [getForgejoRepositories]
    returns a new error, whose message is a fixed context followed by the
    message of the listing's error. *)
Theorem listing_error_aborts (u : bool) :
  (forall (ty : string) (wl : list string) (ign : bool)
          (pre : list (reply github.Repository github.Response)) (err : error)
          (rest : list (reply github.Repository github.Response))
          (stars : list (reply github.StarredRepository github.Response)),
      ty <> "starred"%string ->
      Forall (fun r => continuing github.NextPage r = true) pre ->
      getGithubRepositories u
        {| listReplies := pre ++ Refused err :: rest; starredReplies := stars |} ty wl ign
      = {| result := Failed err;
           asked := map (fun page => ReqList {| github.Type_ := ty; github.Page := page |})
                      (0%Z :: map (cursorOf github.NextPage) pre);
           unread := {| listReplies := rest; starredReplies := stars |} |})
  /\ (forall (wl : list string) (ign : bool)
             (pre : list (reply github.StarredRepository github.Response)) (err : error)
             (rest : list (reply github.StarredRepository github.Response))
             (listed : list (reply github.Repository github.Response)),
      Forall (fun r => continuing github.NextPage r = true) pre ->
      getGithubRepositories u
        {| listReplies := listed; starredReplies := pre ++ Refused err :: rest |}
        "starred" wl ign
      = {| result := Failed err;
           asked := map (fun page => ReqListStarred {| github.StarredPage := page |})
                      (0%Z :: map (cursorOf github.NextPage) pre);
           unread := {| listReplies := listed; starredReplies := rest |} |})
  /\ (forall (vis mem : string) (ign : bool)
             (pre : list (reply gitlab.Project gitlab.Response)) (err : error)
             (rest : list (reply gitlab.Project gitlab.Response)),
      Forall (fun r => continuing gitlab.NextPage r = true) pre ->
      getGitlabRepositories u (pre ++ Refused err :: rest) vis mem ign
      = {| result := Failed err;
           asked := map (gitlabListOptions vis mem)
                      (0%Z :: map (cursorOf gitlab.NextPage) pre);
           unread := rest |})
  /\ (forall (fetch : Z -> forgejo.Request)
             (pre : list forgejoReply) (err : error) (rest : list forgejoReply),
      Forall (fun r => continuing forgejoNextPage r = true) pre ->
      paginateForgejoRepositories u fetch (pre ++ Refused err :: rest)
      = {| result := Failed err;
           asked := map fetch (1%Z :: map (cursorOf forgejoNextPage) pre);
           unread := rest |})
  /\ (forall (ty : string) (me : forgejo.User + error)
             (pre : list forgejoReply) (err : error) (rest : list forgejoReply),
      ty = "user"%string \/ ty = ""%string ->
      Forall (fun r => continuing forgejoNextPage r = true) pre ->
      getForgejoRepositories u
        {| myUserInfo := me; repoReplies := pre ++ Refused err :: rest |} ty
      = {| result := Failed (wrapError "fetching user repositories from forgejo" err);
           asked := map forgejo.ListMyRepos (1%Z :: map (cursorOf forgejoNextPage) pre);
           unread := rest |})
  /\ (forall (user : forgejo.User)
             (pre : list forgejoReply) (err : error) (rest : list forgejoReply),
      Forall (fun r => continuing forgejoNextPage r = true) pre ->
      getForgejoRepositories u
        {| myUserInfo := inl user; repoReplies := pre ++ Refused err :: rest |} "starred"
      = {| result := Failed (wrapError "fetching starred repositories from forgejo" err);
           asked := forgejo.GetMyUserInfo
                    :: map (fun page => forgejo.SearchRepos page (forgejo.ID user))
                         (1%Z :: map (cursorOf forgejoNextPage) pre);
           unread := rest |})
  /\ (forall (err : error) (replies : list bitbucketReply),
      getBitbucketRepositories u {| workspacesReply := inr err; accountReplies := replies |}
      = {| result := Failed err; asked := [ReqWorkspaces]; unread := replies |})
  /\ (forall (before : list bitbucket.Workspace) (workspace : bitbucket.Workspace)
             (after : list bitbucket.Workspace)
             (pre : list bitbucketReply) (err : error) (rest : list bitbucketReply),
      length pre = length before ->
      Forall (fun r => answered r = true) pre ->
      getBitbucketRepositories u
        {| workspacesReply := inl (before ++ workspace :: after);
           accountReplies := pre ++ Refused err :: rest |}
      = {| result := Failed err;
           asked := ReqWorkspaces
                    :: map (fun w => ReqListForAccount
                                       {| bitbucket.Owner := bitbucket.WorkspaceSlug w |})
                         (before ++ [workspace]);
           unread := rest |}).
Proof.
  repeat apply conj.
  - intros ty wl ign pre err rest stars Hty Hpre.
    unfold getGithubRepositories. apply String.eqb_neq in Hty. rewrite Hty. simpl.
    by rewrite pageLoop_fails.
  - intros wl ign pre err rest listed Hpre.
    unfold getGithubRepositories, getGithubStarredRepositories. simpl.
    by rewrite pageLoop_fails.
  - intros vis mem ign pre err rest Hpre.
    unfold getGitlabRepositories. by rewrite pageLoop_fails.
  - intros fetch pre err rest Hpre.
    unfold paginateForgejoRepositories. by rewrite pageLoop_fails.
  - intros ty me pre err rest Hty Hpre.
    unfold getForgejoRepositories, paginateForgejoRepositories.
    destruct Hty as [-> | ->]; simpl; by rewrite pageLoop_fails.
  - intros user pre err rest Hpre.
    unfold getForgejoRepositories, paginateForgejoRepositories. simpl.
    by rewrite pageLoop_fails.
  - intros err replies. reflexivity.
  - intros before workspace after pre err rest Hlen Hpre.
    unfold getBitbucketRepositories. simpl.
    by rewrite bitbucketWorkspaceLoop_fails.
Qed.

Lemma listing_error_aborts_witness :
  (("user"%string = "user"%string \/ "user"%string = ""%string)
   /\ Forall (fun r : forgejoReply => continuing forgejoNextPage r = true) []
   /\ getForgejoRepositories false Examples.forgejoDown "user"
      = {| result := Failed (wrapError "fetching user repositories from forgejo"
                               "connection reset");
           asked := [forgejo.ListMyRepos 1];
           unread := [] |})
  /\ ("all"%string <> "starred"%string
      /\ Forall (fun r => continuing github.NextPage r = true)
           [Page [Examples.acmeApi] {| github.NextPage := 2 |}]
      /\ getGithubRepositories false
           {| listReplies := [Page [Examples.acmeApi] {| github.NextPage := 2 |};
                              Refused "bad gateway"%string;
                              Page [Examples.otherTool] {| github.NextPage := 0 |}];
              starredReplies := [] |} "all" [] false
         = {| result := Failed "bad gateway";
              asked := [ReqList {| github.Type_ := "all"; github.Page := 0 |};
                        ReqList {| github.Type_ := "all"; github.Page := 2 |}];
              unread := {| listReplies := [Page [Examples.otherTool] {| github.NextPage := 0 |}];
                           starredReplies := [] |} |}).
Proof.
  assert (H1 : "user"%string = "user"%string \/ "user"%string = ""%string) by (left; reflexivity).
  assert (H2 : Forall (fun r : forgejoReply => continuing forgejoNextPage r = true) [])
    by constructor.
  assert (H3 : "all"%string <> "starred"%string) by discriminate.
  assert (H4 : Forall (fun r => continuing github.NextPage r = true)
                 [Page [Examples.acmeApi] {| github.NextPage := 2 |}])
    by (repeat constructor).
  split.
  - split; [exact H1|]. split; [exact H2|].
    exact (proj1 (proj2 (proj2 (proj2 (proj2 (listing_error_aborts false)))))
             "user"%string (myUserInfo Examples.forgejoDown) [] "connection reset"%string []
             H1 H2).
  - split; [exact H3|]. split; [exact H4|].
    exact (proj1 (listing_error_aborts false) "all"%string [] false
             [Page [Examples.acmeApi] {| github.NextPage := 2 |}] "bad gateway"%string
             [Page [Examples.otherTool] {| github.NextPage := 0 |}] [] H3 H4).
Defined.

(** ** The clone URL resolver (C5) *)

Lemma nonEmpty_true (s : string) : nonEmpty s = true <-> s <> ""%string.
Proof. unfold nonEmpty. rewrite negb_true_iff. apply String.eqb_neq. Qed.

Lemma nonEmpty_false (s : string) : nonEmpty s = false <-> s = ""%string.
Proof. unfold nonEmpty. rewrite negb_false_iff. apply String.eqb_eq. Qed.

(** C5: the resolver is a function of the preference and the two URLs.
    With the preference set and a non-empty HTTPS URL it returns the HTTPS
    URL, whatever the SSH URL; otherwise it returns the SSH URL if that is
    non-empty; otherwise it returns the HTTPS URL, the only one that can
    still be non-empty; so it returns the empty string exactly when both
    URLs are empty. *)
Theorem getCloneURL_resolution (preferHTTPS : bool) (httpsURL sshURL : string) :
  (preferHTTPS = true -> httpsURL <> ""%string ->
   getCloneURL preferHTTPS httpsURL sshURL = httpsURL)
  /\ (~ (preferHTTPS = true /\ httpsURL <> ""%string) -> sshURL <> ""%string ->
      getCloneURL preferHTTPS httpsURL sshURL = sshURL)
  /\ (~ (preferHTTPS = true /\ httpsURL <> ""%string) -> sshURL = ""%string ->
      getCloneURL preferHTTPS httpsURL sshURL = httpsURL)
  /\ (getCloneURL preferHTTPS httpsURL sshURL = ""%string
      <-> httpsURL = ""%string /\ sshURL = ""%string).
Proof.
  unfold getCloneURL. split; [|split; [|split]].
  - intros -> Hh. apply nonEmpty_true in Hh. by rewrite Hh.
  - intros Hn Hs. destruct (preferHTTPS && nonEmpty httpsURL) eqn:E.
    + apply andb_true_iff in E as [-> E]. apply nonEmpty_true in E.
      exfalso. by apply Hn.
    + apply nonEmpty_true in Hs. by rewrite Hs.
  - intros Hn ->. by destruct (preferHTTPS && nonEmpty httpsURL).
  - destruct (preferHTTPS && nonEmpty httpsURL) eqn:E.
    + apply andb_true_iff in E as [_ E]. apply nonEmpty_true in E.
      split; [done|]. by intros [? _].
    + destruct (nonEmpty sshURL) eqn:Es.
      * apply nonEmpty_true in Es. split; [done|]. by intros [_ ?].
      * apply nonEmpty_false in Es. split; [by intros ->|]. by intros [? _].
Qed.

Lemma getCloneURL_resolution_witness :
  (true = true /\ "https://h/r.git"%string <> ""%string
   /\ getCloneURL true "https://h/r.git" "git@h:r.git" = "https://h/r.git"%string)
  /\ (~ (false = true /\ "https://h/r.git"%string <> ""%string)
      /\ "git@h:r.git"%string <> ""%string
      /\ getCloneURL false "https://h/r.git" "git@h:r.git" = "git@h:r.git"%string)
  /\ (~ (false = true /\ "https://h/r.git"%string <> ""%string)
      /\ ""%string = ""%string
      /\ getCloneURL false "https://h/r.git" "" = "https://h/r.git"%string).
Proof.
  assert (H1 : "https://h/r.git"%string <> ""%string) by discriminate.
  assert (H2 : ~ (false = true /\ "https://h/r.git"%string <> ""%string))
    by (intros [H _]; discriminate H).
  assert (H3 : "git@h:r.git"%string <> ""%string) by discriminate.
  split; [|split].
  - split; [reflexivity|]. split; [exact H1|].
    exact (proj1 (getCloneURL_resolution true "https://h/r.git" "git@h:r.git") eq_refl H1).
  - split; [exact H2|]. split; [exact H3|].
    exact (proj1 (proj2 (getCloneURL_resolution false "https://h/r.git" "git@h:r.git")) H2 H3).
  - split; [exact H2|]. split; [reflexivity|].
    exact (proj1 (proj2 (proj2 (getCloneURL_resolution false "https://h/r.git" "")))
             H2 eq_refl).
Defined.

(** ** GitLab visibility (C10) *)

(** C10: what a GitLab run returns is, in order, the conversion of projects
    of the payload, and the repository of a project is private exactly when
    the project's visibility is the string "private".  A project whose
    visibility is "internal" gives a repository that is not private, and
    the ignore-private filter keeps such a repository wherever it occurs. *)
Theorem gitlab_private_iff_visibility_private (u : bool) :
  (forall (client : GitlabClient) (visibility membership : string) (ignoreFork : bool)
          (repos : list Repository),
      result (getGitlabRepositories u client visibility membership ignoreFork)
      = Returned repos ->
      exists kept,
        sublist kept (allItems client)
        /\ Forall2 (fun p repo =>
                      repo = gitlabRepository u p
                      /\ (Private repo = true <-> gitlab.Visibility p = "private"%string))
             kept repos)
  /\ (forall p : gitlab.Project,
      gitlab.Visibility p = "internal"%string -> Private (gitlabRepository u p) = false)
  /\ (forall (c : appConfig) (p : gitlab.Project) (repos : list Repository),
      gitlab.Visibility p = "internal"%string ->
      In (gitlabRepository u p) repos ->
      In (gitlabRepository u p) (dropPrivate c repos)).
Proof.
  repeat apply conj.
  - intros client vis mem ign repos Hres.
    destruct (gitlab_returned u client vis mem ign repos Hres) as (kept & Hsub & _ & ->).
    exists kept. split; [done|].
    apply Forall2_fmap_r, Forall_Forall2_diag, Forall_forall.
    intros p _. split; [done|]. simpl. apply String.eqb_eq.
  - intros p Hp. simpl. rewrite Hp. reflexivity.
  - intros c p repos Hp Hin. unfold dropPrivate.
    destruct (ignorePrivate c); [|done].
    apply filter_In. split; [done|]. simpl. rewrite Hp. reflexivity.
Qed.

Lemma gitlab_private_iff_visibility_private_witness :
  result (getGitlabRepositories false Examples.gitlabAccount "all" "owner" false)
  = Returned [gitlabRepository false Examples.gitlabForked;
              gitlabRepository false Examples.gitlabInternal;
              gitlabRepository false Examples.gitlabSecret]
  /\ (exists kept,
        sublist kept (allItems Examples.gitlabAccount)
        /\ Forall2 (fun p repo =>
                      repo = gitlabRepository false p
                      /\ (Private repo = true <-> gitlab.Visibility p = "private"%string))
             kept
             [gitlabRepository false Examples.gitlabForked;
              gitlabRepository false Examples.gitlabInternal;
              gitlabRepository false Examples.gitlabSecret])
  /\ gitlab.Visibility Examples.gitlabInternal = "internal"%string
  /\ Private (gitlabRepository false Examples.gitlabInternal) = false.
Proof.
  split; [reflexivity|]. split.
  - apply (proj1 (gitlab_private_iff_visibility_private false)
             Examples.gitlabAccount "all"%string "owner"%string false).
    reflexivity.
  - split; [reflexivity|].
    apply (proj1 (proj2 (gitlab_private_iff_visibility_private false))).
    reflexivity.
Defined.

(** ** The concurrency ceiling (C7) *)

Lemma startedOf_app (a b : list event) : startedOf (a ++ b) = startedOf a ++ startedOf b.
Proof. apply omap_app. Qed.

Lemma endedOf_app (a b : list event) : endedOf (a ++ b) = endedOf a ++ endedOf b.
Proof. apply omap_app. Qed.

(** an idle worker that takes a repository is busy with one more *)
Lemma busyWith_start (ws : list (option Repository)) (i : nat) (repo : Repository) :
  ws !! i = Some None ->
  busyWith (<[i := Some repo]> ws) ≡ₚ repo :: busyWith ws.
Proof.
  revert i. induction ws as [|w ws IH]; intros [|i] H; try discriminate.
  - simpl in H. injection H as ->. done.
  - simpl in H. apply IH in H.
    destruct w as [r|]; simpl.
    + rewrite H. apply Permutation_swap.
    + exact H.
Qed.

(** a busy worker that completes gives up the repository it was busy with *)
Lemma busyWith_end (ws : list (option Repository)) (i : nat) (repo : Repository) :
  ws !! i = Some (Some repo) ->
  busyWith ws ≡ₚ repo :: busyWith (<[i := None]> ws).
Proof.
  revert i. induction ws as [|w ws IH]; intros [|i] H; try discriminate.
  - simpl in H. injection H as ->. done.
  - simpl in H. apply IH in H.
    destruct w as [r|]; simpl.
    + rewrite H. apply Permutation_swap.
    + exact H.
Qed.

Lemma busyWith_length (ws : list (option Repository)) :
  length (busyWith ws) <= length ws.
Proof.
  induction ws as [|[r|] ws IH]; simpl; lia.
Qed.

Lemma busyWith_idle (n : nat) : busyWith (replicate n None) = [].
Proof. induction n as [|n IH]; [done|exact IH]. Qed.

Lemma prefix_snoc_inv {A : Type} (es l : list A) (x : A) :
  es `prefix_of` l ++ [x] -> es = l ++ [x] \/ es `prefix_of` l.
Proof.
  intros [k Hk]. destruct k as [|y k' _] using rev_ind.
  - left. by rewrite app_nil_r in Hk.
  - right. rewrite app_assoc in Hk. apply app_inj_tail in Hk as [-> _]. by exists k'.
Qed.

Section PoolFacts.
Variable backupRoot : path.
Variable git : gitCommand -> option error.
Variable c : appConfig.

Local Abbreviation reach := (reachable backupRoot git c).
Local Abbreviation step := (syncOne backupRoot git c).

(** The books of the pool balance in every state a run can reach: there are
    as many workers as the ceiling; the operations started are those ended
    and those the workers are busy with; the repositories are those whose
    operation has started, in that order, and those still queued; and the
    backup root and the summary are what the operations that ended have
    made of them, in the order of completion. *)
Lemma pool_accounts (ceiling : nat) (repositories : list Repository) (b : backup) (p : pool) :
  reach ceiling repositories b p ->
  length (workers p) = ceiling
  /\ startedOf (events p) ≡ₚ endedOf (events p) ++ busyWith (workers p)
  /\ repositories = startedOf (events p) ++ queue p
  /\ (disk p, report p) = fold_left step (endedOf (events p)) (b, emptySummary).
Proof.
  induction 1 as [|p q Hreach (Hlen & Hbal & Hqueue & Hdisk) Hstep].
  - simpl. split; [apply length_replicate|]. split; [by rewrite busyWith_idle|]. done.
  - destruct Hstep as [p i repo rest Hq Hw | p i repo Hw]; cbn [workers events queue disk report].
    + split; [by rewrite length_insert|]. split; [|split].
      * rewrite startedOf_app, endedOf_app. simpl. rewrite app_nil_r.
        rewrite (busyWith_start _ _ _ Hw), Hbal.
        rewrite <- Permutation_cons_append. apply Permutation_middle.
      * rewrite startedOf_app. simpl. rewrite <- app_assoc. simpl. by rewrite <- Hq.
      * rewrite endedOf_app. simpl. by rewrite app_nil_r.
    + split; [by rewrite length_insert|]. split; [|split].
      * rewrite startedOf_app, endedOf_app. simpl. rewrite app_nil_r.
        rewrite Hbal, (busyWith_end _ _ _ Hw).
        rewrite <- app_assoc. done.
      * rewrite startedOf_app. simpl. by rewrite app_nil_r.
      * rewrite endedOf_app. change (endedOf [Ended repo]) with [repo].
        rewrite fold_left_app. cbn [fold_left]. rewrite <- Hdisk.
        by destruct (step (disk p, report p) repo).
Qed.

(** the operations in flight are those the workers are busy with *)
Lemma inFlight_busy (ceiling : nat) (repositories : list Repository) (b : backup) (p : pool) :
  reach ceiling repositories b p ->
  length (startedOf (events p)) = length (endedOf (events p)) + length (busyWith (workers p)).
Proof.
  intros H. destruct (pool_accounts _ _ _ _ H) as (_ & Hbal & _).
  by rewrite Hbal, length_app.
Qed.

(** every earlier moment of a run is a state it reached *)
Lemma reachable_earlier (ceiling : nat) (repositories : list Repository) (b : backup)
    (p : pool) (es : list event) :
  reach ceiling repositories b p ->
  es `prefix_of` events p ->
  exists q, reach ceiling repositories b q /\ events q = es.
Proof.
  induction 1 as [|p q Hreach IH Hstep]; intros Hes.
  - simpl in Hes. apply prefix_nil_inv in Hes as ->.
    exists (startPool ceiling repositories b). split; [constructor|done].
  - assert (Hev : exists e, events q = events p ++ [e]).
    { destruct Hstep; eexists; reflexivity. }
    destruct Hev as [e Hev]. rewrite Hev in Hes.
    apply prefix_snoc_inv in Hes as [->|Hes]; [|by apply IH].
    exists q. split; [|done]. by eapply reachStep.
Qed.

(** A pool with at least one worker drains: the run that hands every
    repository to the first worker reaches a state with nothing queued and
    every worker idle, and leaves what [sync] leaves. *)
Lemma pool_drains (ceiling : nat) (repositories : list Repository) (b : backup) :
  0 < ceiling ->
  exists p,
    reach ceiling repositories b p /\ drained p
    /\ (disk p, report p) = sync backupRoot git c repositories b.
Proof.
  intros Hpos. unfold sync.
  assert (Hgo : forall rest p,
             reach ceiling repositories b p ->
             workers p = replicate ceiling None -> queue p = rest ->
             exists q, reach ceiling repositories b q /\ drained q
                       /\ (disk q, report q) = fold_left step rest (disk p, report p)).
  { induction rest as [|repo rest IH]; intros p Hp Hw Hq.
    - exists p. split; [done|]. split; [|done].
      split; [done|]. rewrite Hw. apply busyWith_idle.
    - destruct ceiling as [|n]; [lia|].
      pose proof (stepDispatch backupRoot git c p 0 repo rest Hq) as H1. rewrite Hw in H1.
      specialize (H1 eq_refl). cbn [replicate list_insert] in H1.
      match type of H1 with poolStep _ _ _ _ ?p1 => set (p1' := p1) in * end.
      pose proof (stepComplete backupRoot git c p1' 0 repo eq_refl) as H2.
      cbn [workers list_insert p1'] in H2.
      match type of H2 with poolStep _ _ _ _ ?p2 => set (p2' := p2) in * end.
      destruct (IH p2') as (q & Hq' & Hdr & Hres).
      + eapply reachStep; [|exact H2]. eapply reachStep; [exact Hp|exact H1].
      + reflexivity.
      + reflexivity.
      + exists q. split; [done|]. split; [done|]. rewrite Hres.
        cbn [disk report p2' p1' fold_left].
        by destruct (step (disk p, report p) repo). }
  destruct (Hgo repositories (startPool ceiling repositories b)) as (q & ? & ? & ?);
    [constructor|done|done|]. by exists q.
Qed.

(** Once the pool has drained, every repository has been synchronised
    exactly once, and the backup root and the summary are those of [sync]
    over the repositories in their order of completion. *)
Lemma drained_is_sync (ceiling : nat) (repositories : list Repository) (b : backup)
    (p : pool) :
  reach ceiling repositories b p -> drained p ->
  endedOf (events p) ≡ₚ repositories
  /\ (disk p, report p) = sync backupRoot git c (endedOf (events p)) b.
Proof.
  intros Hreach [Hq Hbusy].
  destruct (pool_accounts _ _ _ _ Hreach) as (_ & Hbal & Hrepos & Hdisk).
  rewrite Hbusy, app_nil_r in Hbal. rewrite Hq, app_nil_r in Hrepos.
  split; [by rewrite Hrepos, Hbal|exact Hdisk].
Qed.

End PoolFacts.

(** C7: in every state a synchronisation run can reach, for every ceiling
    and every list of repositories, the operations in flight (started and
    not ended, as the record of starts and ends shows them) are no more than
    the ceiling, and so it was at every earlier moment of the run; the count
    is exact (no more operations have ended than have started), and the
    operations in flight are those the workers are busy with.  With the
    ceiling [MaxConcurrentClones] that is at most 20. *)
Theorem pool_respects_ceiling (backupRoot : path) (git : gitCommand -> option error)
    (c : appConfig) (ceiling : nat) (repositories : list Repository) (b : backup)
    (p : pool) :
  reachable backupRoot git c ceiling repositories b p ->
  inFlight (events p) <= ceiling
  /\ (forall es, es `prefix_of` events p -> inFlight es <= ceiling)
  /\ length (endedOf (events p)) <= length (startedOf (events p))
  /\ startedOf (events p) ≡ₚ endedOf (events p) ++ busyWith (workers p)
  /\ (ceiling = MaxConcurrentClones -> inFlight (events p) <= 20).
Proof.
  intros Hreach.
  assert (Hbound : forall q, reachable backupRoot git c ceiling repositories b q ->
                             inFlight (events q) <= ceiling).
  { intros q Hq. unfold inFlight. rewrite (inFlight_busy _ _ _ _ _ _ _ Hq).
    destruct (pool_accounts _ _ _ _ _ _ _ Hq) as (Hlen & _).
    pose proof (busyWith_length (workers q)). lia. }
  split; [by apply Hbound|]. split; [|split; [|split]].
  - intros es Hes.
    destruct (reachable_earlier _ _ _ _ _ _ _ _ Hreach Hes) as (q & Hq & <-).
    by apply Hbound.
  - rewrite (inFlight_busy _ _ _ _ _ _ _ Hreach). lia.
  - by destruct (pool_accounts _ _ _ _ _ _ _ Hreach) as (_ & ? & _).
  - intros ->. by apply Hbound.
Qed.

Lemma pool_respects_ceiling_witness :
  reachable ["backup"%string] Examples.gitSucceeds Examples.ignoringPrivate 2
    [Examples.repoApi; Examples.repoSecrets; Examples.repoTool] freshBackup Examples.busyPool
  /\ inFlight (events Examples.busyPool) = 2
  /\ inFlight (events Examples.busyPool) <= 2.
Proof.
  assert (H : reachable ["backup"%string] Examples.gitSucceeds Examples.ignoringPrivate 2
                [Examples.repoApi; Examples.repoSecrets; Examples.repoTool] freshBackup
                Examples.busyPool).
  { eapply reachStep.
    - eapply reachStep; [apply reachStart|].
      exact (stepDispatch _ _ _
               (startPool 2 [Examples.repoApi; Examples.repoSecrets; Examples.repoTool]
                  freshBackup)
               0 Examples.repoApi [Examples.repoSecrets; Examples.repoTool]
               eq_refl eq_refl).
    - exact (stepDispatch _ _ _
               {| queue := [Examples.repoSecrets; Examples.repoTool];
                  workers := [Some Examples.repoApi; None];
                  events := [Started Examples.repoApi];
                  disk := freshBackup;
                  report := emptySummary |}
               1 Examples.repoSecrets [Examples.repoTool] eq_refl eq_refl). }
  split; [exact H|]. split; [reflexivity|].
  exact (proj1 (pool_respects_ceiling _ _ _ _ _ _ _ H)).
Defined.

(** ** Ignore-private and the run that follows (C6) *)

(** C6: with ignore-private set, nothing that discovery returns is private;
    what discovery returns are, in the adapter's order, exactly the
    repositories the adapter listed that pass the whitelist (when there is
    one) and, with ignore-private set, are not private.  In particular, when
    the adapter lists one public and one private repository of the same
    namespace, which the whitelist admits, the public one has a clone URL,
    the backup root is empty and the git tool clones, then discovery returns
    the public one only and the run invokes git once, to clone it, leaves
    exactly one local repository, the public one's, and the summary counts
    one success and no failure.  When the whitelist does not admit the
    namespace, nothing is discovered and the run does nothing. *)
Theorem ignore_private_excludes_private :
  (forall (c : appConfig) (client : Client) (repos : list Repository),
      ignorePrivate c = true ->
      discover c client = Returned repos ->
      Forall (fun repo => Private repo = false) repos)
  /\ (forall (c : appConfig) (client : Client) (repos : list Repository),
      discover c client = Returned repos ->
      exists listed,
        listRepositories c client = Returned listed
        /\ sublist repos listed
        /\ forall repo,
             In repo repos <->
             In repo listed
             /\ (githubNamespaceWhitelist c = []
                 \/ In (Namespace repo) (githubNamespaceWhitelist c))
             /\ (ignorePrivate c = true -> Private repo = false))
  /\ (forall (backupRoot : path) (git : gitCommand -> option error)
             (c : appConfig) (client : Client) (pub priv : Repository),
      ignorePrivate c = true ->
      listRepositories c client = Returned [pub; priv] ->
      Private pub = false ->
      Private priv = true ->
      Namespace pub = Namespace priv ->
      githubNamespaceWhitelist c = [] \/ In (Namespace pub) (githubNamespaceWhitelist c) ->
      CloneURL pub <> ""%string ->
      git {| gitOperation := Clone; gitURL := CloneURL pub;
             gitTarget := targetPath backupRoot c pub; gitBare := bare c |} = None ->
      discover c client = Returned [pub]
      /\ backupRun backupRoot git c client freshBackup
         = Some ({| contents := {[ targetPath backupRoot c pub := GitRepository (bare c) ]};
                    invoked := [ {| gitOperation := Clone; gitURL := CloneURL pub;
                                    gitTarget := targetPath backupRoot c pub;
                                    gitBare := bare c |} ] |},
                 {| succeeded := 1; failures := []; warnings := [] |}))
  /\ (forall (backupRoot : path) (git : gitCommand -> option error)
             (c : appConfig) (client : Client) (pub priv : Repository),
      listRepositories c client = Returned [pub; priv] ->
      Namespace pub = Namespace priv ->
      githubNamespaceWhitelist c <> [] ->
      ~ In (Namespace pub) (githubNamespaceWhitelist c) ->
      discover c client = Returned []
      /\ backupRun backupRoot git c client freshBackup = Some (freshBackup, emptySummary)).
Proof.
  split; [|split; [|split]].
  - intros c client repos Hc Hd. apply discover_returned in Hd as (listed & _ & ->).
    apply Forall_forall. intros repo Hin. apply list_elem_of_In in Hin.
    by apply dropPrivate_In in Hin as [_ H]; apply H.
  - intros c client repos Hd. apply discover_returned in Hd as (listed & Hl & ->).
    exists listed. split; [done|]. split.
    + etrans; [apply dropPrivate_sublist|apply keepWhitelisted_sublist].
    + intros repo. rewrite dropPrivate_In, keepWhitelisted_In. tauto.
  - intros root git c client pub priv Hc Hl Hpub Hpriv Hns Hwl Hurl Hgit.
    assert (Hkeep : keepWhitelisted c [pub; priv] = [pub; priv]).
    { unfold keepWhitelisted. destruct (0 <? _)%nat eqn:Hlen; [|done].
      destruct Hwl as [Hwl|Hwl]; [by rewrite Hwl in Hlen|].
      apply contains_In in Hwl. simpl. by rewrite <- Hns, Hwl. }
    assert (Hd : discover c client = Returned [pub]).
    { unfold discover. rewrite Hl, Hkeep. unfold dropPrivate. rewrite Hc.
      simpl. by rewrite Hpub, Hpriv. }
    split; [done|].
    unfold backupRun. rewrite Hd. unfold sync. cbn [fold_left]. unfold syncOne.
    apply nonEmpty_true in Hurl. rewrite Hurl. cbn [negb freshBackup contents].
    rewrite lookup_empty. unfold runGit. rewrite Hgit. reflexivity.
  - intros root git c client pub priv Hl Hns Hne Hwl.
    assert (Hd : discover c client = Returned []).
    { unfold discover. rewrite Hl. unfold keepWhitelisted.
      destruct (githubNamespaceWhitelist c) as [|x wl] eqn:Hx; [done|].
      cbn [length Nat.ltb Nat.leb List.filter]. rewrite <- Hns.
      destruct (contains (x :: wl) (Namespace pub)) eqn:Hc.
      - apply contains_In in Hc. done.
      - by destruct (ignorePrivate c) eqn:Hi; unfold dropPrivate; rewrite Hi. }
    split; [done|]. unfold backupRun. by rewrite Hd.
Qed.

Lemma ignore_private_excludes_private_witness :
  ignorePrivate Examples.ignoringPrivate = true
  /\ listRepositories Examples.ignoringPrivate (ClientGithub Examples.acmeAccount)
     = Returned [Examples.repoApi; Examples.repoSecrets]
  /\ Private Examples.repoApi = false
  /\ Private Examples.repoSecrets = true
  /\ Namespace Examples.repoApi = Namespace Examples.repoSecrets
  /\ CloneURL Examples.repoApi <> ""%string
  /\ discover Examples.ignoringPrivate (ClientGithub Examples.acmeAccount)
     = Returned [Examples.repoApi]
  /\ Forall (fun repo => Private repo = false) [Examples.repoApi]
  /\ backupRun ["backup"%string] Examples.gitSucceeds Examples.ignoringPrivate
       (ClientGithub Examples.acmeAccount) freshBackup
     = Some ({| contents := {[ ["backup"; "github"; "acme"; "api"]%string
                               := GitRepository false ]};
                invoked := [ {| gitOperation := Clone;
                                gitURL := "git@github.com:acme/api.git";
                                gitTarget := ["backup"; "github"; "acme"; "api"]%string;
                                gitBare := false |} ] |},
             {| succeeded := 1; failures := []; warnings := [] |}).
Proof.
  assert (Hurl : CloneURL Examples.repoApi <> ""%string) by discriminate.
  split; [reflexivity|]. split; [reflexivity|]. split; [reflexivity|].
  split; [reflexivity|]. split; [reflexivity|]. split; [exact Hurl|].
  split; [reflexivity|]. split.
  - exact (proj1 ignore_private_excludes_private Examples.ignoringPrivate
             (ClientGithub Examples.acmeAccount) [Examples.repoApi] eq_refl eq_refl).
  - exact (proj2 (proj1 (proj2 (proj2 ignore_private_excludes_private))
                    ["backup"%string] Examples.gitSucceeds
                    Examples.ignoringPrivate (ClientGithub Examples.acmeAccount)
                    Examples.repoApi Examples.repoSecrets
                    eq_refl eq_refl eq_refl eq_refl eq_refl (or_introl eq_refl) Hurl eq_refl)).
Defined.

(** ** Two runs in succession (C8) *)

Section TwoRuns.
Variable backupRoot : path.
Variable c : appConfig.

Local Abbreviation target := (targetPath backupRoot c).

(** cloning leaves every other path as it was *)
Lemma cloned_other (repos : list Repository) :
  forall (fs : store) (p : path),
    p ∉ map target repos -> cloned backupRoot c repos fs !! p = fs !! p.
Proof.
  unfold cloned.
  induction repos as [|r repos IH]; intros fs p Hp; simpl; [done|].
  simpl in Hp. apply not_elem_of_cons in Hp as [Hne Hp].
  rewrite IH by done. by rewrite lookup_insert_ne.
Qed.

(** cloning leaves a repository of the run's kind at every target *)
Lemma cloned_target (repos : list Repository) :
  forall (fs : store) (r : Repository),
    r ∈ repos -> cloned backupRoot c repos fs !! target r = Some (GitRepository (bare c)).
Proof.
  induction repos as [|r0 repos IH]; intros fs r Hr; [by apply elem_of_nil in Hr|].
  change (cloned backupRoot c (r0 :: repos) fs)
    with (cloned backupRoot c repos (<[target r0 := GitRepository (bare c)]> fs)).
  destruct (decide (target r ∈ map target repos)) as [Hin|Hnin].
  - apply list_elem_of_fmap in Hin as (r' & Heq & Hr'). rewrite Heq. by apply IH.
  - rewrite (cloned_other repos _ (target r) Hnin).
    apply elem_of_cons in Hr as [->|Hr].
    + by rewrite lookup_insert_eq.
    + exfalso. apply Hnin. apply list_elem_of_fmap. by exists r.
Qed.

(** a run over targets that do not exist yet, with a git tool that clones
    every one of them, invokes git once for each repository, to clone it *)
Lemma sync_clones (git : gitCommand -> option error) (repos : list Repository) :
  forall (b : backup) (sm : summary),
    NoDup (map target repos) ->
    Forall (fun r => contents b !! target r = None) repos ->
    Forall (fun r => CloneURL r <> ""%string) repos ->
    Forall (fun r => git (cloneCommand backupRoot c r) = None) repos ->
    fold_left (syncOne backupRoot git c) repos (b, sm)
    = ({| contents := cloned backupRoot c repos (contents b);
          invoked := invoked b ++ map (cloneCommand backupRoot c) repos |},
       {| succeeded := length repos + succeeded sm;
          failures := failures sm;
          warnings := warnings sm |}).
Proof.
  induction repos as [|r repos IH]; intros b sm Hnd Habs Hurl Hgit.
  - simpl. rewrite app_nil_r. by destruct sm, b.
  - inversion Hnd as [|? ? Hnotin Hnd']; subst.
    inversion Habs as [|? ? Hr Habs']; subst.
    inversion Hurl as [|? ? Hu Hurl']; subst.
    inversion Hgit as [|? ? Hg Hgit']; subst.
    cbn [fold_left]. unfold syncOne at 2.
    apply nonEmpty_true in Hu. rewrite Hu. cbn [negb].
    rewrite Hr. unfold runGit. unfold cloneCommand in Hg. rewrite Hg.
    cbn [gitOperation gitTarget gitBare recordExit].
    rewrite IH; try done.
    + cbn [succeeded failures warnings contents invoked cloned fold_left map length].
      f_equal; [|f_equal; lia]. f_equal. by rewrite <- app_assoc.
    + cbn [contents]. apply Forall_forall. intros r' Hr'.
      rewrite lookup_insert_ne.
      * by apply (proj1 (Forall_forall _ _) Habs').
      * intros Heq. apply Hnotin. rewrite Heq. apply list_elem_of_fmap. by exists r'.
Qed.

(** an item whose target holds a repository of the run's kind is one fetch,
    which leaves the backup root as it is *)
Lemma syncOne_fetch (git : gitCommand -> option error) (b : backup) (sm : summary)
    (r : Repository) :
  contents b !! target r = Some (GitRepository (bare c)) ->
  CloneURL r <> ""%string ->
  syncOne backupRoot git c (b, sm) r
  = ({| contents := contents b; invoked := invoked b ++ [fetchCommand backupRoot c r] |},
     recordExit sm r (git (fetchCommand backupRoot c r))).
Proof.
  intros Hr Hu. unfold syncOne.
  apply nonEmpty_true in Hu. rewrite Hu. cbn [negb].
  rewrite Hr, eqb_reflx. unfold runGit, fetchCommand. cbn [gitOperation].
  by destruct (git _).
Qed.

(** a run over targets that all hold a repository of the run's kind invokes
    git once for each repository, to fetch, and leaves the backup root as it
    is, whatever the git tool answers; every item ends as a success or as a
    failure *)
Lemma sync_fetches (git : gitCommand -> option error) (repos : list Repository) :
  forall (b : backup) (sm : summary),
    Forall (fun r => contents b !! target r = Some (GitRepository (bare c))) repos ->
    Forall (fun r => CloneURL r <> ""%string) repos ->
    (fold_left (syncOne backupRoot git c) repos (b, sm)).1
    = {| contents := contents b;
         invoked := invoked b ++ map (fetchCommand backupRoot c) repos |}
    /\ succeeded (fold_left (syncOne backupRoot git c) repos (b, sm)).2
       + length (failures (fold_left (syncOne backupRoot git c) repos (b, sm)).2)
       = succeeded sm + length (failures sm) + length repos
    /\ warnings (fold_left (syncOne backupRoot git c) repos (b, sm)).2 = warnings sm.
Proof.
  induction repos as [|r repos IH]; intros b sm Hex Hurl.
  - simpl. rewrite app_nil_r. split; [by destruct b|]. split; [lia|done].
  - inversion Hex as [|? ? Hr Hex']; subst.
    inversion Hurl as [|? ? Hu Hurl']; subst.
    cbn [fold_left]. rewrite (syncOne_fetch git b sm r Hr Hu).
    match goal with
    | |- context [fold_left _ repos (?b1, ?s1)] =>
        destruct (IH b1 s1 Hex' Hurl') as (H1 & H2 & H3)
    end.
    rewrite H1, H2, H3. cbn [contents invoked map length].
    split; [by rewrite <- app_assoc|].
    destruct (git _); cbn [recordExit succeeded failures warnings];
      (split; [|done]); rewrite ?length_app; simpl; lia.
Qed.

End TwoRuns.

(** C8: two runs in succession over the same backup root and the same
    repositories.  When the targets are distinct and none exists before the
    first run, every repository has a clone URL and the git tool clones
    every one of them, the first run invokes git exactly once for each
    repository, with a clone of its URL into its target, all successful, and
    afterwards every target holds a repository; the second run, whatever the
    git tool then answers, invokes git exactly once for each repository,
    with a fetch for its target and never a clone, ends every item as a
    success or a failure, and leaves the backup root as the first run left
    it: nothing is removed or replaced. *)
Theorem sync_twice_clones_then_fetches (backupRoot : path) (c : appConfig)
    (git1 git2 : gitCommand -> option error) (repos : list Repository) (b : backup) :
  NoDup (map (targetPath backupRoot c) repos) ->
  Forall (fun r => contents b !! targetPath backupRoot c r = None) repos ->
  Forall (fun r => CloneURL r <> ""%string) repos ->
  Forall (fun r => git1 {| gitOperation := Clone; gitURL := CloneURL r;
                           gitTarget := targetPath backupRoot c r;
                           gitBare := bare c |} = None) repos ->
  let first := sync backupRoot git1 c repos b in
  let second := sync backupRoot git2 c repos first.1 in
  invoked first.1
  = invoked b ++ map (fun r => {| gitOperation := Clone; gitURL := CloneURL r;
                                  gitTarget := targetPath backupRoot c r;
                                  gitBare := bare c |}) repos
  /\ succeeded first.2 = length repos
  /\ failures first.2 = []
  /\ Forall (fun r => contents first.1 !! targetPath backupRoot c r
                      = Some (GitRepository (bare c))) repos
  /\ invoked second.1
     = invoked first.1 ++ map (fun r => {| gitOperation := Fetch; gitURL := CloneURL r;
                                           gitTarget := targetPath backupRoot c r;
                                           gitBare := bare c |}) repos
  /\ contents second.1 = contents first.1
  /\ succeeded second.2 + length (failures second.2) = length repos
  /\ warnings second.2 = [].
Proof.
  intros Hnd Habs Hurl Hgit first second. subst first second. unfold sync.
  rewrite (sync_clones backupRoot c git1 repos b emptySummary Hnd Habs Hurl Hgit).
  cbn [fst snd invoked contents succeeded failures emptySummary].
  assert (Hthere : Forall (fun r => cloned backupRoot c repos (contents b)
                                    !! targetPath backupRoot c r
                                    = Some (GitRepository (bare c))) repos).
  { apply Forall_forall. intros r Hr. by apply cloned_target. }
  destruct (sync_fetches backupRoot c git2 repos
              {| contents := cloned backupRoot c repos (contents b);
                 invoked := invoked b ++ map (cloneCommand backupRoot c) repos |}
              emptySummary Hthere Hurl) as (Hfs & Hcount & Hwarn).
  rewrite Hfs, Hcount, Hwarn.
  cbn [invoked contents succeeded failures warnings emptySummary length].
  repeat apply conj; try done; lia.
Qed.

Lemma sync_twice_clones_then_fetches_witness :
  let repos := [Examples.repoApi; Examples.repoTool] in
  let first := sync ["backup"%string] Examples.gitSucceeds Examples.ignoringPrivate repos
                 freshBackup in
  let second := sync ["backup"%string] Examples.gitSucceeds Examples.ignoringPrivate repos
                  first.1 in
  NoDup (map (targetPath ["backup"%string] Examples.ignoringPrivate) repos)
  /\ Forall (fun r => contents freshBackup
                      !! targetPath ["backup"%string] Examples.ignoringPrivate r = None) repos
  /\ Forall (fun r => CloneURL r <> ""%string) repos
  /\ map gitOperation (invoked first.1) = [Clone; Clone]
  /\ map gitTarget (invoked first.1)
     = [["backup"; "github"; "acme"; "api"]%string;
        ["backup"; "github"; "other"; "tool"]%string]
  /\ map gitOperation (invoked second.1) = [Clone; Clone; Fetch; Fetch]
  /\ contents second.1 = contents first.1.
Proof.
  intros repos first second.
  assert (H1 : NoDup (map (targetPath ["backup"%string] Examples.ignoringPrivate) repos)).
  { apply NoDup_cons. split.
    - intros H. apply list_elem_of_singleton in H. discriminate H.
    - apply NoDup_singleton. }
  assert (H2 : Forall (fun r => contents freshBackup
                                !! targetPath ["backup"%string] Examples.ignoringPrivate r
                                = None) repos)
    by (repeat constructor).
  assert (H3 : Forall (fun r => CloneURL r <> ""%string) repos)
    by (repeat constructor; discriminate).
  assert (H4 : Forall (fun r => Examples.gitSucceeds
                                  {| gitOperation := Clone; gitURL := CloneURL r;
                                     gitTarget := targetPath ["backup"%string]
                                                    Examples.ignoringPrivate r;
                                     gitBare := bare Examples.ignoringPrivate |} = None)
                 repos)
    by (repeat constructor).
  pose proof (sync_twice_clones_then_fetches ["backup"%string] Examples.ignoringPrivate
                Examples.gitSucceeds Examples.gitSucceeds repos freshBackup H1 H2 H3 H4)
    as (Hp1 & _ & _ & _ & Hp2 & Hfs & _).
  fold first in Hp1, Hp2, Hfs. fold second in Hp2, Hfs.
  split; [exact H1|]. split; [exact H2|]. split; [exact H3|].
  split; [by rewrite Hp1|]. split; [by rewrite Hp1|].
  split; [by rewrite Hp2, Hp1|exact Hfs].
Defined.

(** ** The file system operations *)

Lemma removelast_snoc {A : Type} (l : list A) :
  l <> [] -> exists x, l = removelast l ++ [x].
Proof.
  intros Hl. destruct (exists_last Hl) as (l' & x & ->).
  exists x. by rewrite removelast_last.
Qed.

(** a path is not a prefix of its own directory *)
Lemma not_prefix_of_dir (p : path) :
  p <> [] -> ~ (p `prefix_of` filepath_Dir p).
Proof.
  intros Hp Hpre. apply prefix_length in Hpre.
  destruct (removelast_snoc p Hp) as [x Hx]. unfold filepath_Dir in Hpre.
  rewrite Hx in Hpre at 1. rewrite length_app in Hpre. simpl in Hpre. lia.
Qed.

(** [os.MkdirAll] changes nothing but to make directories, on the way
    down, whether it succeeds or fails *)
Lemma mkdirFrom_frame (os : refusals) (below : path) :
  forall (fs : tree) (above : path) (q : path),
    (mkdirFrom os fs above below).1 !! q = fs !! q
    \/ (fs !! q = None
        /\ (mkdirFrom os fs above below).1 !! q = Some Dir
        /\ q `prefix_of` (above ++ below)
        /\ length above < length q).
Proof.
  induction below as [|c below IH]; intros fs above q; simpl; [by left|].
  assert (Hcons : above ++ c :: below = (above ++ [c]) ++ below)
    by (by rewrite <- app_assoc).
  assert (Hlen : length (above ++ [c]) = S (length above))
    by (rewrite length_app; simpl; lia).
  destruct (fs !! (above ++ [c])) as [[d|]|] eqn:Hhere; simpl.
  - by left.
  - destruct (IH fs (above ++ [c]) q) as [H|(H1 & H2 & H3 & H4)]; [by left|].
    right. rewrite Hcons. repeat split; try done. lia.
  - destruct (refuseMkdir os (above ++ [c])) as [err|]; [by left|].
    destruct (IH (<[above ++ [c] := Dir]> fs) (above ++ [c]) q)
      as [H|(H1 & H2 & H3 & H4)].
    + rewrite H. destruct (decide (above ++ [c] = q)) as [<-|Hne].
      * right. rewrite lookup_insert_eq, Hcons. repeat split; try done.
        -- by apply prefix_app_r.
        -- lia.
      * left. by rewrite lookup_insert_ne.
    + right. rewrite Hcons. repeat split; try done; [|lia].
      destruct (decide (above ++ [c] = q)) as [<-|Hne].
      * by rewrite lookup_insert_eq in H1.
      * by rewrite lookup_insert_ne in H1.
Qed.

(** [os.MkdirAll] succeeds where no regular file is on the way and the
    system does not refuse to make the directories that are missing; it
    keeps what was there and leaves a directory at every step of the way *)
Lemma mkdirFrom_ok (os : refusals) (below : path) :
  forall (fs : tree) (above : path),
    (forall q d, q `prefix_of` (above ++ below) -> fs !! q <> Some (File d)) ->
    (forall q, q `prefix_of` (above ++ below) -> fs !! q = None ->
               refuseMkdir os q = None) ->
    (mkdirFrom os fs above below).2 = None
    /\ (forall q n, fs !! q = Some n -> (mkdirFrom os fs above below).1 !! q = Some n)
    /\ (forall q, q `prefix_of` (above ++ below) -> length above < length q ->
                  (mkdirFrom os fs above below).1 !! q = Some Dir).
Proof.
  induction below as [|c below IH]; intros fs above Hfree Hperm; simpl.
  - split; [done|]. split; [done|]. intros q Hq Hlen.
    rewrite app_nil_r in Hq. apply prefix_length in Hq. lia.
  - assert (Hcons : above ++ c :: below = (above ++ [c]) ++ below)
      by (by rewrite <- app_assoc).
    assert (Hlen : length (above ++ [c]) = S (length above))
      by (rewrite length_app; simpl; lia).
    assert (Hhere_pre : (above ++ [c]) `prefix_of` (above ++ c :: below))
      by (rewrite Hcons; by apply prefix_app_r).
    assert (Hstep : forall q, q `prefix_of` ((above ++ [c]) ++ below) ->
                              length above < length q ->
                              q = above ++ [c] \/ length (above ++ [c]) < length q).
    { intros q Hq Hl.
      destruct (decide (length q = length (above ++ [c]))) as [Heq|Hne]; [|right; lia].
      left. destruct Hq as [k Hk].
      apply (f_equal (take (length q))) in Hk.
      rewrite take_app_length in Hk. rewrite Heq, take_app_length in Hk. done. }
    destruct (fs !! (above ++ [c])) as [[d|]|] eqn:Hhere.
    + exfalso. by apply (Hfree (above ++ [c]) d).
    + destruct (IH fs (above ++ [c])) as (Hok & Hkeep & Hdirs).
      { intros q d. rewrite <- Hcons. apply Hfree. }
      { intros q. rewrite <- Hcons. apply Hperm. }
      split; [done|]. split; [done|]. intros q Hq Hl. rewrite Hcons in Hq.
      destruct (Hstep q Hq Hl) as [->|Hl']; [by apply Hkeep|by apply Hdirs].
    + rewrite (Hperm (above ++ [c]) Hhere_pre Hhere).
      destruct (IH (<[above ++ [c] := Dir]> fs) (above ++ [c])) as (Hok & Hkeep & Hdirs).
      { intros q d Hq. rewrite <- Hcons in Hq.
        destruct (decide (above ++ [c] = q)) as [<-|Hne].
        - by rewrite lookup_insert_eq.
        - rewrite lookup_insert_ne by done. by apply Hfree. }
      { intros q Hq. rewrite <- Hcons in Hq.
        destruct (decide (above ++ [c] = q)) as [<-|Hne].
        - by rewrite lookup_insert_eq.
        - rewrite lookup_insert_ne by done. by apply Hperm. }
      split; [done|]. split.
      * intros q n Hq. apply Hkeep. rewrite lookup_insert_ne; [done|].
        intros <-. congruence.
      * intros q Hq Hl. rewrite Hcons in Hq.
        destruct (Hstep q Hq Hl) as [->|Hl']; [|by apply Hdirs].
        apply Hkeep. by rewrite lookup_insert_eq.
Qed.

Lemma os_Stat_None (fs : tree) (p : path) :
  os_Stat fs p = None -> p <> [] /\ fs !! p = None.
Proof. destruct p; [discriminate|]. simpl. by intros ->. Qed.

Lemma os_Stat_lookup (fs : tree) (p : path) : p <> [] -> os_Stat fs p = fs !! p.
Proof. by destruct p. Qed.

(** a successful [os.WriteFile] has put a file with the data at the path,
    and nothing else has changed *)
Lemma os_WriteFile_done (os : refusals) (fs fs' : tree) (p : path) (data : string) :
  os_WriteFile os fs p data = (fs', None) ->
  p <> [] /\ fs' = <[p := File data]> fs /\ refuseWrite os p = None.
Proof.
  unfold os_WriteFile. destruct p as [|x p']; [discriminate|].
  destruct (fs !! _) as [[d|]|]; try discriminate;
    (destruct (isDir _ _); [|discriminate]);
    (destruct (refuseWrite os _) as [[e|part e]|]; [discriminate|discriminate|]);
    by intros [= <-].
Qed.

(** a failed [os.WriteFile] at a path where nothing was leaves nothing
    there, or the part of a file that a write that broke off has left; it
    touches no other path *)
Lemma os_WriteFile_failed (os : refusals) (fs fs' : tree) (p : path) (data : string)
    (err : error) :
  fs !! p = None ->
  os_WriteFile os fs p data = (fs', Some err) ->
  (fs' !! p = None \/ exists part, fs' !! p = Some (File part))
  /\ forall q, q <> p -> fs' !! q = fs !! q.
Proof.
  intros Hnone. unfold os_WriteFile. destruct p as [|x p']; [by intros [= <-]; split; [left|]|].
  rewrite Hnone. destruct (isDir _ _); [|by intros [= <-]; split; [left|]].
  destruct (refuseWrite os _) as [[e|part e]|]; [| |discriminate].
  - intros [= <-]. by split; [left|].
  - intros [= <- _]. split.
    + right. exists part. by rewrite lookup_insert_eq.
    + intros q Hq. by rewrite lookup_insert_ne.
Qed.

(** [os.MkdirAll] on the directory of a path does not touch the path *)
Lemma os_MkdirAll_path (os : refusals) (fs : tree) (p : path) :
  p <> [] -> (os_MkdirAll os fs (filepath_Dir p)).1 !! p = fs !! p.
Proof.
  intros Hp. unfold os_MkdirAll.
  destruct (mkdirFrom_frame os (filepath_Dir p) fs [] p) as [H|(_ & _ & Hpre & _)]; [done|].
  exfalso. by apply (not_prefix_of_dir p Hp).
Qed.

(** ** Creating the default configuration file (C9) *)

Section InitFacts.
Variable userConfigDir : path + error.
Variable marshal : fileConfig -> string + error.

Local Abbreviation init := (handleInitConfig userConfigDir marshal).

(** where nothing is at the path, no regular file is on the way, the system
    does not refuse the missing directories and the configuration can be
    marshalled, [handleInitConfig] makes the directories and comes to the
    write, which decides its outcome *)
Lemma handleInitConfig_writes (w : world) (configPath p : path) (data : string) :
  resolveConfigPath userConfigDir configPath = inl p ->
  os_Stat (files w) p = None ->
  (forall q d, q `prefix_of` filepath_Dir p -> files w !! q <> Some (File d)) ->
  (forall q, q `prefix_of` filepath_Dir p -> files w !! q = None ->
             refuseMkdir (refuses w) q = None) ->
  marshal defaultFileConfig = inl data ->
  exists fs1,
    (forall q n, files w !! q = Some n -> fs1 !! q = Some n)
    /\ (forall q, q `prefix_of` filepath_Dir p -> q <> [] -> fs1 !! q = Some Dir)
    /\ fs1 !! p = None
    /\ init w configPath
       = match refuseWrite (refuses w) p with
         | None =>
             (None,
              {| files := <[p := File data]> fs1;
                 stdout := stdout w ++ [("Created " +:+ pathString p +:+ nl)%string];
                 refuses := refuses w |})
         | Some (NotOpened e) =>
             (Some ("error writing " +:+ pathString p +:+ ": "
                    +:+ ("open " +:+ pathString p +:+ ": " +:+ e))%string,
              {| files := fs1; stdout := stdout w; refuses := refuses w |})
         | Some (BrokenOff part e) =>
             (Some ("error writing " +:+ pathString p +:+ ": "
                    +:+ ("write " +:+ pathString p +:+ ": " +:+ e))%string,
              {| files := <[p := File part]> fs1; stdout := stdout w;
                 refuses := refuses w |})
         end.
Proof.
  intros Hres Hstat Hfree Hmk Hdata.
  unfold handleInitConfig. rewrite Hres, Hstat.
  destruct (os_Stat_None _ _ Hstat) as [Hp Hnone].
  pose proof (os_MkdirAll_path (refuses w) (files w) p Hp) as Hpath.
  destruct (mkdirFrom_ok (refuses w) (filepath_Dir p) (files w) [] Hfree Hmk)
    as (Hok & Hkeep & Hdirs).
  fold (os_MkdirAll (refuses w) (files w) (filepath_Dir p)) in Hok, Hkeep, Hdirs.
  destruct (os_MkdirAll (refuses w) (files w) (filepath_Dir p)) as [fs1 e].
  simpl in *. subst e.
  rewrite Hdata. rewrite Hnone in Hpath.
  assert (Hdir : isDir fs1 (filepath_Dir p) = true).
  { unfold isDir, os_Stat. destruct (filepath_Dir p) as [|x l] eqn:E; [done|].
    rewrite Hdirs; [done|done|simpl; lia]. }
  exists fs1. split; [done|]. split.
  { intros q Hq Hne. apply Hdirs; [done|]. destruct q; [done|simpl; lia]. }
  split; [done|].
  unfold os_WriteFile. destruct p as [|x p']; [done|].
  rewrite Hpath, Hdir. by destruct (refuseWrite (refuses w) (x :: p')) as [[e|part e]|].
Qed.

(** where, moreover, the system does not refuse the write,
    [handleInitConfig] writes the file *)
Lemma handleInitConfig_creates (w : world) (configPath p : path) (data : string) :
  resolveConfigPath userConfigDir configPath = inl p ->
  os_Stat (files w) p = None ->
  (forall q d, q `prefix_of` filepath_Dir p -> files w !! q <> Some (File d)) ->
  permits w p ->
  marshal defaultFileConfig = inl data ->
  (init w configPath).1 = None
  /\ stdout (init w configPath).2 = stdout w ++ [("Created " +:+ pathString p +:+ nl)%string]
  /\ refuses (init w configPath).2 = refuses w
  /\ files (init w configPath).2 !! p = Some (File data)
  /\ (forall q, q `prefix_of` filepath_Dir p -> q <> [] ->
                files (init w configPath).2 !! q = Some Dir)
  /\ (forall q n, files w !! q = Some n -> files (init w configPath).2 !! q = Some n).
Proof.
  intros Hres Hstat Hfree [Hmk Hwr] Hdata.
  destruct (handleInitConfig_writes w configPath p data Hres Hstat Hfree Hmk Hdata)
    as (fs1 & Hkeep & Hdirs & Hnone & ->).
  rewrite Hwr. cbn [fst snd files stdout refuses].
  destruct (os_Stat_None _ _ Hstat) as [Hp _].
  split; [done|]. split; [done|]. split; [done|].
  split; [by rewrite lookup_insert_eq|]. split.
  - intros q Hq Hne. rewrite lookup_insert_ne; [by apply Hdirs|].
    intros <-. by apply (not_prefix_of_dir p Hp).
  - intros q n Hq. rewrite lookup_insert_ne; [by apply Hkeep|].
    intros <-. apply Hkeep in Hq. congruence.
Qed.

(** [handleInitConfig] returns nil only after it has written the marshalled
    default configuration to a path at which nothing was *)
Lemma handleInitConfig_succeeded (w : world) (configPath : path) :
  (init w configPath).1 = None ->
  exists p data,
    resolveConfigPath userConfigDir configPath = inl p
    /\ os_Stat (files w) p = None
    /\ marshal defaultFileConfig = inl data
    /\ os_Stat (files (init w configPath).2) p = Some (File data)
    /\ stdout (init w configPath).2
       = stdout w ++ [("Created " +:+ pathString p +:+ nl)%string].
Proof.
  unfold handleInitConfig.
  destruct (resolveConfigPath userConfigDir configPath) as [p|e]; [|discriminate].
  destruct (os_Stat (files w) p) eqn:Hstat; [discriminate|].
  destruct (os_MkdirAll _ _ _) as [fs1 [e|]]; [discriminate|].
  destruct (marshal defaultFileConfig) as [data|e]; [|discriminate].
  destruct (os_WriteFile _ _ _ _) as [fs2 [e|]] eqn:Hw; [discriminate|].
  intros _. exists p, data. apply os_WriteFile_done in Hw as (Hp & -> & _).
  cbn [snd files stdout]. repeat split; try done.
  rewrite os_Stat_lookup by done. by rewrite lookup_insert_eq.
Qed.

(** what [handleInitConfig] leaves at the path when it returns an error:
    what was there, if something was; else nothing, or the part of the file
    that a write that broke off has left *)
Lemma handleInitConfig_failed (w : world) (configPath p : path) (err : error) :
  resolveConfigPath userConfigDir configPath = inl p ->
  (init w configPath).1 = Some err ->
  (exists n, os_Stat (files w) p = Some n
             /\ err = (pathString p +:+ " already exists")%string
             /\ (init w configPath).2 = w)
  \/ (os_Stat (files w) p = None
      /\ ((exists e, (os_MkdirAll (refuses w) (files w) (filepath_Dir p)).2 = Some e
                     /\ err = ("error creating directory " +:+ pathString (filepath_Dir p)
                               +:+ ": " +:+ e)%string
                     /\ os_Stat (files (init w configPath).2) p = None)
          \/ (exists e, marshal defaultFileConfig = inr e
                        /\ err = ("error generating config: " +:+ e)%string
                        /\ os_Stat (files (init w configPath).2) p = None)
          \/ (exists data e,
                marshal defaultFileConfig = inl data
                /\ (os_WriteFile (refuses w)
                      (os_MkdirAll (refuses w) (files w) (filepath_Dir p)).1 p data).2
                   = Some e
                /\ err = ("error writing " +:+ pathString p +:+ ": " +:+ e)%string
                /\ (os_Stat (files (init w configPath).2) p = None
                    \/ exists part,
                         os_Stat (files (init w configPath).2) p = Some (File part))))).
Proof.
  intros Hres. unfold handleInitConfig. rewrite Hres.
  destruct (os_Stat (files w) p) as [n|] eqn:Hstat.
  - intros [= <-]. left. by exists n.
  - intros Herr. right. split; [done|]. revert Herr.
    destruct (os_Stat_None _ _ Hstat) as [Hp Hnone].
    pose proof (os_MkdirAll_path (refuses w) (files w) p Hp) as Hpath.
    rewrite Hnone in Hpath.
    destruct (os_MkdirAll (refuses w) (files w) (filepath_Dir p)) as [fs1 [e|]];
      cbn [fst snd] in *.
    + intros [= <-]. left. exists e. cbn [files]. by rewrite os_Stat_lookup.
    + destruct (marshal defaultFileConfig) as [data|e].
      * destruct (os_WriteFile (refuses w) fs1 p data) as [fs2 [e|]] eqn:Hw;
          [|discriminate].
        intros [= <-]. right. right. exists data, e. cbn [fst snd files].
        split; [done|]. split; [by rewrite Hw|]. split; [done|].
        rewrite !os_Stat_lookup by done.
        by destruct (os_WriteFile_failed _ _ _ _ _ _ Hpath Hw) as [H _].
      * intros [= <-]. right. left. exists e. cbn [files]. by rewrite os_Stat_lookup.
Qed.

End InitFacts.

(** C9, as stated, fails.  No file exists at [etc/gitbackup.yml], but [etc]
    is a regular file: the parent directory cannot be made, an error comes
    back and nothing is written. *)
Lemma init_config_below_a_regular_file :
  os_Stat (files Examples.etcIsAFile) ["etc"; "gitbackup.yml"]%string = None
  /\ handleInitConfig Examples.homeConfig Examples.renderYaml Examples.etcIsAFile
       ["etc"; "gitbackup.yml"]%string
     = (Some "error creating directory etc: mkdir etc: not a directory"%string,
        Examples.etcIsAFile).
Proof.
  assert (H1 : files Examples.etcIsAFile !! ["etc"; "gitbackup.yml"]%string = None).
  { unfold Examples.etcIsAFile. simpl. by rewrite lookup_singleton_ne. }
  assert (H2 : files Examples.etcIsAFile !! ["etc"%string] = Some (File "")).
  { unfold Examples.etcIsAFile. simpl. by rewrite lookup_singleton_eq. }
  split; [exact H1|].
  unfold handleInitConfig. cbn [resolveConfigPath os_Stat].
  rewrite H1. cbn [filepath_Dir removelast os_MkdirAll mkdirFrom app].
  rewrite H2. reflexivity.
Qed.

(** The write itself can fail.  On a read-only disk nothing is at
    [gitbackup.yml] before or after, and the error is that of the write; on
    a full disk the file is created and left empty. *)
Lemma init_config_write_refused :
  handleInitConfig Examples.homeConfig Examples.renderYaml Examples.readOnlyWorld
    ["gitbackup.yml"%string]
  = (Some "error writing gitbackup.yml: open gitbackup.yml: read-only file system"%string,
     Examples.readOnlyWorld)
  /\ (handleInitConfig Examples.homeConfig Examples.renderYaml Examples.fullDiskWorld
        ["gitbackup.yml"%string]).1
     = Some "error writing gitbackup.yml: write gitbackup.yml: no space left on device"%string
  /\ os_Stat (files (handleInitConfig Examples.homeConfig Examples.renderYaml
                       Examples.fullDiskWorld ["gitbackup.yml"%string]).2)
       ["gitbackup.yml"%string]
     = Some (File "").
Proof.
  split; [reflexivity|]. split; reflexivity.
Qed.

(** The service flag of the command line declares no default, while
    [defaultFileConfig], documented as holding "the same defaults as the CLI
    flags", says [github]. *)
Lemma service_flag_has_no_default :
  lookupFlag appFlags "service" = Some (StringValue "")
  /\ defaultString "service" = ""%string
  /\ fc_Service defaultFileConfig = "github"%string.
Proof. repeat split. Qed.

(** C9, amended.  Where something exists at the resolved path,
    [handleInitConfig] returns the error "<path> already exists" and leaves
    the machine as it is.  Where nothing exists there, no regular file is
    on the way to the parent directory, the operating system refuses neither
    the missing directories nor the write, and the configuration can be
    marshalled, it returns nil, reports "Created <path>", leaves at the path
    a file holding the marshalled [defaultFileConfig], with a directory at
    every step of the way to it, and keeps everything that was there.  It
    returns nil only when it has written that file at a path where nothing
    was.  Where the directories can be made but the system refuses the
    write, it returns the error "error writing <path>: ..." and leaves
    nothing at the path or, after a write that broke off, the part that was
    written.  Whenever it returns an error with nothing at the path before,
    the error names the step that failed (making the directory,
    marshalling, writing), and afterwards there is nothing at the path or
    an incomplete file.  The values written are service
    [github], GitHub repo type [all], GitLab project visibility [internal];
    repo type, visibility and the other selectors and switches of the file
    are the defaults of their command-line flags. *)
Theorem handleInitConfig_contract (userConfigDir : path + error)
    (marshal : fileConfig -> string + error) :
  (forall (w : world) (configPath p : path) (n : node),
      resolveConfigPath userConfigDir configPath = inl p ->
      os_Stat (files w) p = Some n ->
      handleInitConfig userConfigDir marshal w configPath
      = (Some (pathString p +:+ " already exists")%string, w))
  /\ (forall (w : world) (configPath p : path) (data : string),
      resolveConfigPath userConfigDir configPath = inl p ->
      os_Stat (files w) p = None ->
      (forall q d, q `prefix_of` filepath_Dir p -> files w !! q <> Some (File d)) ->
      permits w p ->
      marshal defaultFileConfig = inl data ->
      let r := handleInitConfig userConfigDir marshal w configPath in
      r.1 = None
      /\ stdout r.2 = stdout w ++ [("Created " +:+ pathString p +:+ nl)%string]
      /\ files r.2 !! p = Some (File data)
      /\ (forall q, q `prefix_of` filepath_Dir p -> q <> [] -> files r.2 !! q = Some Dir)
      /\ (forall q n, files w !! q = Some n -> files r.2 !! q = Some n))
  /\ (forall (w : world) (configPath p : path) (data : string) (failure : writeFailure),
      resolveConfigPath userConfigDir configPath = inl p ->
      os_Stat (files w) p = None ->
      (forall q d, q `prefix_of` filepath_Dir p -> files w !! q <> Some (File d)) ->
      (forall q, q `prefix_of` filepath_Dir p -> files w !! q = None ->
                 refuseMkdir (refuses w) q = None) ->
      marshal defaultFileConfig = inl data ->
      refuseWrite (refuses w) p = Some failure ->
      let r := handleInitConfig userConfigDir marshal w configPath in
      match failure with
      | NotOpened e =>
          r.1 = Some ("error writing " +:+ pathString p +:+ ": "
                      +:+ ("open " +:+ pathString p +:+ ": " +:+ e))%string
          /\ os_Stat (files r.2) p = None
      | BrokenOff part e =>
          r.1 = Some ("error writing " +:+ pathString p +:+ ": "
                      +:+ ("write " +:+ pathString p +:+ ": " +:+ e))%string
          /\ os_Stat (files r.2) p = Some (File part)
      end)
  /\ (forall (w : world) (configPath : path),
      let r := handleInitConfig userConfigDir marshal w configPath in
      r.1 = None ->
      exists p data,
        resolveConfigPath userConfigDir configPath = inl p
        /\ os_Stat (files w) p = None
        /\ marshal defaultFileConfig = inl data
        /\ os_Stat (files r.2) p = Some (File data))
  /\ (forall (w : world) (configPath p : path) (err : error),
      let r := handleInitConfig userConfigDir marshal w configPath in
      resolveConfigPath userConfigDir configPath = inl p ->
      os_Stat (files w) p = None ->
      r.1 = Some err ->
      ((exists e, err = ("error creating directory " +:+ pathString (filepath_Dir p)
                         +:+ ": " +:+ e)%string)
       \/ (exists e, err = ("error generating config: " +:+ e)%string)
       \/ (exists e, err = ("error writing " +:+ pathString p +:+ ": " +:+ e)%string))
      /\ (os_Stat (files r.2) p = None
          \/ exists part, os_Stat (files r.2) p = Some (File part)))
  /\ (fc_Service defaultFileConfig = "github"%string
      /\ gh_RepoType (fc_GitHub defaultFileConfig) = "all"%string
      /\ gl_ProjectVisibility (fc_GitLab defaultFileConfig) = "internal"%string)
  /\ (let d := fileConfigToAppConfig defaultFileConfig in
      gitHostURL d = gitHostURL cliDefaults
      /\ backupDir d = backupDir cliDefaults
      /\ ignorePrivate d = ignorePrivate cliDefaults
      /\ ignoreFork d = ignoreFork cliDefaults
      /\ useHTTPSClone d = useHTTPSClone cliDefaults
      /\ bare d = bare cliDefaults
      /\ githubRepoType d = githubRepoType cliDefaults
      /\ githubNamespaceWhitelist d = githubNamespaceWhitelist cliDefaults
      /\ gitlabProjectVisibility d = gitlabProjectVisibility cliDefaults
      /\ gitlabProjectMembershipType d = gitlabProjectMembershipType cliDefaults
      /\ forgejoRepoType d = forgejoRepoType cliDefaults).
Proof.
  split; [|split; [|split; [|split; [|split; [|split]]]]].
  - intros w configPath p n Hres Hstat. unfold handleInitConfig.
    by rewrite Hres, Hstat.
  - intros w configPath p data Hres Hstat Hfree Hperm Hdata r. subst r.
    destruct (handleInitConfig_creates userConfigDir marshal w configPath p data
                Hres Hstat Hfree Hperm Hdata) as (H1 & H2 & _ & H3 & H4 & H5).
    done.
  - intros w configPath p data failure Hres Hstat Hfree Hmk Hdata Hwr r. subst r.
    destruct (handleInitConfig_writes userConfigDir marshal w configPath p data
                Hres Hstat Hfree Hmk Hdata) as (fs1 & _ & _ & Hnone & ->).
    destruct (os_Stat_None _ _ Hstat) as [Hp _].
    rewrite Hwr. destruct failure as [e|part e]; cbn [fst snd files];
      rewrite os_Stat_lookup by done; (split; [done|]).
    + done.
    + by rewrite lookup_insert_eq.
  - intros w configPath r Hnil. subst r.
    destruct (handleInitConfig_succeeded userConfigDir marshal w configPath Hnil)
      as (p & data & H1 & H2 & H3 & H4 & _).
    by exists p, data.
  - intros w configPath p err r Hres Hstat Herr. subst r.
    destruct (handleInitConfig_failed userConfigDir marshal w configPath p err Hres Herr)
      as [(n & Hn & _)|[_ [(e & _ & -> & Hp)|[(e & _ & -> & Hp)|(data & e & _ & _ & -> & Hp)]]]].
    + congruence.
    + split; [left; by exists e|by left].
    + split; [right; left; by exists e|by left].
    + split; [right; right; by exists e|done].
  - repeat split.
  - repeat split.
Qed.

Lemma handleInitConfig_contract_witness :
  let p := ["etc"; "gitbackup"; "gitbackup.yml"]%string in
  let r := handleInitConfig Examples.homeConfig Examples.renderYaml Examples.emptyWorld p in
  resolveConfigPath Examples.homeConfig p = inl p
  /\ os_Stat (files Examples.emptyWorld) p = None
  /\ (forall q d, q `prefix_of` filepath_Dir p ->
                  files Examples.emptyWorld !! q <> Some (File d))
  /\ permits Examples.emptyWorld p
  /\ (exists data, Examples.renderYaml defaultFileConfig = inl data
                   /\ r.1 = None
                   /\ files r.2 !! p = Some (File data)
                   /\ files r.2 !! ["etc"; "gitbackup"]%string = Some Dir)
  /\ handleInitConfig Examples.homeConfig Examples.renderYaml r.2 p
     = (Some "etc/gitbackup/gitbackup.yml already exists"%string, r.2).
Proof.
  intros p r.
  assert (H1 : resolveConfigPath Examples.homeConfig p = inl p) by reflexivity.
  assert (H2 : os_Stat (files Examples.emptyWorld) p = None) by reflexivity.
  assert (H3 : forall q d, q `prefix_of` filepath_Dir p ->
                           files Examples.emptyWorld !! q <> Some (File d)).
  { intros q d _. unfold Examples.emptyWorld. simpl. by rewrite lookup_empty. }
  assert (H5 : permits Examples.emptyWorld p) by (split; [intros q _ _|]; reflexivity).
  destruct (Examples.renderYaml defaultFileConfig) as [data|e] eqn:H4; [|discriminate H4].
  pose proof (proj1 (proj2 (handleInitConfig_contract Examples.homeConfig Examples.renderYaml))
                Examples.emptyWorld p p data H1 H2 H3 H5 H4) as (Hnil & _ & Hfile & Hdirs & _).
  split; [exact H1|]. split; [exact H2|]. split; [exact H3|]. split; [exact H5|]. split.
  - exists data. split; [reflexivity|]. split; [exact Hnil|]. split; [exact Hfile|].
    apply Hdirs; [|discriminate]. exists []. reflexivity.
  - apply (proj1 (handleInitConfig_contract Examples.homeConfig Examples.renderYaml)
             r.2 p p (File data) H1).
    exact Hfile.
Defined.

(** * Further properties of the adapters *)

(** ** Bitbucket *)

(** the loop over the workspaces, when every call is answered *)
Lemma bitbucketWorkspaceLoop_returns (u : bool) (workspaces : list bitbucket.Workspace) :
  forall (pages rest : list bitbucketReply) (acc : list Repository)
         (sent : list BitbucketRequest),
    length pages = length workspaces ->
    Forall (fun r => answered r = true) pages ->
    bitbucketWorkspaceLoop u workspaces (pages ++ rest) acc sent
    = {| result := Returned (acc ++ map (bitbucketRepository u) (allItems pages));
         asked := sent ++ map accountRequest workspaces;
         unread := rest |}.
Proof.
  induction workspaces as [|w workspaces IH]; intros pages rest acc sent Hlen Hpages.
  - destruct pages; [|discriminate]. simpl. by rewrite !app_nil_r.
  - destruct pages as [|r pages]; [discriminate|].
    inversion Hpages as [|? ? Hr Hpages']; subst.
    destruct r as [items resp|e]; [|discriminate].
    simpl. rewrite IH by (simpl in Hlen; first [lia | done]).
    rewrite bitbucketRepoBody_fold. unfold allItems. simpl.
    by rewrite map_app, <- !app_assoc.
Qed.

(** X1: when [Workspaces.List] answers and every [ListForAccount] call is
    answered, the Bitbucket adapter sends one call for each workspace, in
    order and with the workspace's slug as owner, and returns the conversion
    of every repository of every answer, in order: it filters nothing. *)
Theorem bitbucket_lists_every_workspace (u : bool)
    (workspaces : list bitbucket.Workspace) (pages rest : list bitbucketReply) :
  length pages = length workspaces ->
  Forall (fun r => answered r = true) pages ->
  getBitbucketRepositories u
    {| workspacesReply := inl workspaces; accountReplies := pages ++ rest |}
  = {| result := Returned (map (bitbucketRepository u) (allItems pages));
       asked := ReqWorkspaces :: map accountRequest workspaces;
       unread := rest |}.
Proof.
  intros Hlen Hpages. unfold getBitbucketRepositories. simpl.
  by rewrite bitbucketWorkspaceLoop_returns.
Qed.

Lemma bitbucket_lists_every_workspace_witness :
  let ws := [ {| bitbucket.WorkspaceSlug := "acme" |};
              {| bitbucket.WorkspaceSlug := "other" |} ] in
  let repo := {| bitbucket.Slug := "api"; bitbucket.Full_name := "acme/api";
                 bitbucket.Is_private := true; bitbucket.Links := None |} in
  let pages : list bitbucketReply := [Page [repo] tt; Page [] tt] in
  length pages = length ws
  /\ Forall (fun r => answered r = true) pages
  /\ getBitbucketRepositories false
       {| workspacesReply := inl ws; accountReplies := pages |}
     = {| result := Returned [ {| CloneURL := ""; Name := "api";
                                  Namespace := "acme"; Private := true |} ];
          asked := [ReqWorkspaces;
                    ReqListForAccount {| bitbucket.Owner := "acme" |};
                    ReqListForAccount {| bitbucket.Owner := "other" |}];
          unread := [] |}.
Proof.
  intros ws repo pages.
  assert (H1 : length pages = length ws) by reflexivity.
  assert (H2 : Forall (fun r => answered r = true) pages) by (repeat constructor).
  split; [exact H1|]. split; [exact H2|].
  exact (bitbucket_lists_every_workspace false ws pages [] H1 H2).
Defined.

Lemma find_rev_snoc {A : Type} (f : A -> bool) (l : list A) (x : A) :
  List.find f (rev (l ++ [x])) = if f x then Some x else List.find f (rev l).
Proof. by rewrite rev_app_distr. Qed.

(** X2: [extractBitbucketCloneURLs] returns, for each of the two names
    [https] and [ssh], the [href] of the last element of [links["clone"]]
    that is a map with that name, and the empty string when there is none;
    elements that are not maps play no part, and without a list under
    ["clone"] both are empty. *)
Theorem extractBitbucketCloneURLs_last_wins :
  extractBitbucketCloneURLs None = (EmptyString, EmptyString)
  /\ (forall linkmaps : list (option bitbucket.CloneLink),
      extractBitbucketCloneURLs (Some linkmaps)
      = (lastHref "https" linkmaps, lastHref "ssh" linkmaps))
  /\ (forall linkmaps : list (option bitbucket.CloneLink),
      extractBitbucketCloneURLs (Some linkmaps)
      = extractBitbucketCloneURLs (Some (List.filter notNil linkmaps))).
Proof.
  assert (Hmain : forall linkmaps : list (option bitbucket.CloneLink),
             extractBitbucketCloneURLs (Some linkmaps)
             = (lastHref "https" linkmaps, lastHref "ssh" linkmaps)).
  { intros linkmaps. unfold extractBitbucketCloneURLs, lastHref.
    induction linkmaps as [|x linkmaps IH] using rev_ind; [reflexivity|].
    rewrite fold_left_app. simpl. rewrite IH.
    rewrite omap_app. destruct x as [l|]; simpl.
    - rewrite !find_rev_snoc.
      destruct (String.eqb (bitbucket.name l) "https");
        destruct (String.eqb (bitbucket.name l) "ssh"); reflexivity.
    - by rewrite app_nil_r. }
  split; [reflexivity|]. split; [exact Hmain|].
  intros linkmaps. rewrite !Hmain. unfold lastHref.
  assert (Heq : omap id (List.filter notNil linkmaps) = omap id linkmaps).
  { induction linkmaps as [|[l|] linkmaps IH]; [done| |exact IH].
    change (l :: omap id (List.filter notNil linkmaps) = l :: omap id linkmaps).
    by f_equal. }
  by rewrite Heq.
Qed.

(** ** Requests and replies *)

Section PagingRequests.
Context {Item Resp Req : Type}.
Variable body : list Repository -> Item -> list Repository.
Variable nextPage : Resp -> Z.
Variable request : Z -> Req.

(** the loop sends one request for every reply it reads, each for a page
    cursor, the first for the initial cursor; blocked, it has sent one more *)
Lemma pageLoop_requests (script : list (reply Item Resp)) (page : Z)
    (acc : list Repository) (sent : list Req) :
  let r := pageLoop body nextPage request script page acc sent in
  exists pages,
    asked r = sent ++ map request (page :: pages)
    /\ (result r <> Blocked -> S (length pages) + length (unread r) = length script)
    /\ (result r = Blocked -> length pages = length script /\ unread r = []).
Proof.
  intros r. subst r.
  destruct (script_shape nextPage script)
    as [H|[(pre & items & resp & rest & -> & Hpre & Hz)|(pre & e & rest & -> & Hpre)]].
  - rewrite pageLoop_blocks by done. exists (map (cursorOf nextPage) script). simpl.
    split; [done|]. split; [done|]. intros _. by rewrite length_map.
  - rewrite pageLoop_returns by done. exists (map (cursorOf nextPage) pre). simpl.
    split; [done|]. split; [|done]. intros _.
    rewrite length_map, length_app. simpl. lia.
  - rewrite pageLoop_fails by done. exists (map (cursorOf nextPage) pre). simpl.
    split; [done|]. split; [|done]. intros _.
    rewrite length_map, length_app. simpl. lia.
Qed.

End PagingRequests.

(** X3: every request of a GitLab run carries the list options the two
    selectors determine, and only the page differs between them; the first
    is for page 0.  A run that has ended has sent exactly one request for
    every reply it has read; a run that is still waiting has read every
    reply and sent one request more. *)
Theorem gitlab_one_request_per_reply (u : bool) (client : GitlabClient)
    (visibility membership : string) (ignoreFork : bool) :
  let r := getGitlabRepositories u client visibility membership ignoreFork in
  (exists pages, asked r = map (gitlabListOptions visibility membership) (0%Z :: pages))
  /\ (result r <> Blocked -> length (asked r) + length (unread r) = length client)
  /\ (result r = Blocked -> length (asked r) = S (length client) /\ unread r = []).
Proof.
  intros r. subst r. unfold getGitlabRepositories.
  destruct (pageLoop_requests (gitlabRepoBody u ignoreFork) gitlab.NextPage
              (gitlabListOptions visibility membership) client 0%Z [] [])
    as (pages & Hasked & Hend & Hblocked).
  split; [by exists pages|]. rewrite Hasked. simpl. rewrite length_map. split.
  - intros H. specialize (Hend H). lia.
  - intros H. destruct (Hblocked H) as [-> ->]. done.
Qed.

Lemma gitlab_one_request_per_reply_witness :
  let r := getGitlabRepositories false Examples.gitlabAccount "all" "owner" false in
  result r <> Blocked
  /\ asked r = map (gitlabListOptions "all" "owner") [0%Z; 2%Z]
  /\ length (asked r) + length (unread r) = length Examples.gitlabAccount.
Proof.
  intros r.
  assert (H : result r <> Blocked) by discriminate.
  split; [exact H|]. split; [reflexivity|].
  exact (proj1 (proj2 (gitlab_one_request_per_reply false Examples.gitlabAccount
                         "all" "owner" false)) H).
Defined.

(** X4: a GitHub run for a selector other than starred sends only requests
    of [Repositories.List], each carrying the selector as type; a run for
    the starred selector sends only requests of [Activity.ListStarred] and
    leaves the replies of [Repositories.List] unread.  The first request is
    for page 0. *)
Theorem github_requests_carry_selector (u : bool) (client : GithubClient)
    (whitelist : list string) (ignoreFork : bool) :
  (forall githubRepoType : string,
      githubRepoType <> "starred"%string ->
      let r := getGithubRepositories u client githubRepoType whitelist ignoreFork in
      (exists pages,
          asked r = map (fun page => ReqList {| github.Type_ := githubRepoType;
                                                github.Page := page |}) (0%Z :: pages))
      /\ starredReplies (unread r) = starredReplies client)
  /\ (let r := getGithubRepositories u client "starred" whitelist ignoreFork in
      (exists pages,
          asked r = map (fun page => ReqListStarred {| github.StarredPage := page |})
                      (0%Z :: pages))
      /\ listReplies (unread r) = listReplies client).
Proof.
  split.
  - intros ty Hty r. subst r. unfold getGithubRepositories.
    apply String.eqb_neq in Hty. rewrite Hty. simpl.
    destruct (pageLoop_requests (githubRepoBody u whitelist ignoreFork) github.NextPage
                (fun page => ReqList {| github.Type_ := ty; github.Page := page |})
                (listReplies client) 0%Z [] []) as (pages & Hasked & _).
    split; [by exists pages|done].
  - intros r. subst r. unfold getGithubRepositories, getGithubStarredRepositories. simpl.
    destruct (pageLoop_requests (githubStarBody u ignoreFork) github.NextPage
                (fun page => ReqListStarred {| github.StarredPage := page |})
                (starredReplies client) 0%Z [] []) as (pages & Hasked & _).
    split; [by exists pages|done].
Qed.

Lemma github_requests_carry_selector_witness :
  "owner"%string <> "starred"%string
  /\ asked (getGithubRepositories false Examples.githubAccount "owner" [] false)
     = [ReqList {| github.Type_ := "owner"; github.Page := 0 |};
        ReqList {| github.Type_ := "owner"; github.Page := 2 |}]
  /\ (exists pages,
        asked (getGithubRepositories false Examples.githubAccount "owner" [] false)
        = map (fun page => ReqList {| github.Type_ := "owner"; github.Page := page |})
            (0%Z :: pages)).
Proof.
  assert (H : "owner"%string <> "starred"%string) by discriminate.
  split; [exact H|]. split; [reflexivity|].
  exact (proj1 (proj1 (github_requests_carry_selector false Examples.githubAccount [] false)
                  "owner"%string H)).
Defined.

(** ** Ending the process *)

Lemma bitbucketWorkspaceLoop_not_fatal (u : bool) (workspaces : list bitbucket.Workspace) :
  forall (script : list bitbucketReply) (acc : list Repository)
         (sent : list BitbucketRequest) (msg : string),
    result (bitbucketWorkspaceLoop u workspaces script acc sent) <> Fatal msg.
Proof.
  induction workspaces as [|w workspaces IH]; intros script acc sent msg; simpl; [done|].
  destruct script as [|[items resp|e] script]; simpl; [done| |done]. apply IH.
Qed.

Lemma wrapFailure_fatal (context : string)
    (r : run forgejo.Request (list forgejoReply)) (msg : string) :
  result (wrapFailure context r) = Fatal msg -> result r = Fatal msg.
Proof. unfold wrapFailure. by destruct (result r) eqn:E; simpl; rewrite ?E. Qed.

(** X5: no listing ends the process through [log.Fatalf], whatever the
    service answers, with one exception: the Forgejo adapter ends it exactly
    when the selector is starred and the user-info call fails, with that
    error in the message. *)
Theorem only_forgejo_user_info_is_fatal (u : bool) :
  (forall (client : GithubClient) (ty : string) (wl : list string) (ign : bool)
          (msg : string),
      result (getGithubRepositories u client ty wl ign) <> Fatal msg)
  /\ (forall (client : GitlabClient) (vis mem : string) (ign : bool) (msg : string),
      result (getGitlabRepositories u client vis mem ign) <> Fatal msg)
  /\ (forall (client : BitbucketClient) (msg : string),
      result (getBitbucketRepositories u client) <> Fatal msg)
  /\ (forall (client : ForgejoClient) (ty : string) (msg : string),
      result (getForgejoRepositories u client ty) = Fatal msg
      <-> ty = "starred"%string
          /\ exists err, myUserInfo client = inr err
                         /\ msg = ("Error fetching user info from forgejo: " +:+ err)%string).
Proof.
  split; [|split; [|split]].
  - intros client ty wl ign msg.
    unfold getGithubRepositories, getGithubStarredRepositories.
    destruct (String.eqb ty "starred"); simpl; apply pageLoop_not_fatal.
  - intros client vis mem ign msg. apply pageLoop_not_fatal.
  - intros client msg. unfold getBitbucketRepositories.
    destruct (workspacesReply client); [apply bitbucketWorkspaceLoop_not_fatal|done].
  - intros client ty msg. unfold getForgejoRepositories, paginateForgejoRepositories.
    destruct (String.eqb_spec ty "starred") as [->|Hty].
    + destruct (myUserInfo client) as [user|err]; simpl.
      * split.
        -- intros H. apply wrapFailure_fatal in H. by apply pageLoop_not_fatal in H.
        -- by intros (_ & err & Herr & _).
      * split.
        -- intros [= <-]. split; [done|]. by exists err.
        -- intros (_ & err' & [= <-] & ->). done.
    + destruct (String.eqb ty "user" || String.eqb ty ""); simpl.
      * split; [|by intros [? _]].
        intros H. apply wrapFailure_fatal in H. by apply pageLoop_not_fatal in H.
      * split; [done|by intros [? _]].
Qed.

Lemma only_forgejo_user_info_is_fatal_witness :
  result (getForgejoRepositories false Examples.forgejoAnonymous "starred")
  = Fatal "Error fetching user info from forgejo: unauthorized"
  /\ ("starred"%string = "starred"%string
      /\ exists err, myUserInfo Examples.forgejoAnonymous = inr err
                     /\ "Error fetching user info from forgejo: unauthorized"%string
                        = ("Error fetching user info from forgejo: " +:+ err)%string).
Proof.
  split; [reflexivity|].
  apply (proj1 (proj2 (proj2 (proj2 (only_forgejo_user_info_is_fatal false)))
                  Examples.forgejoAnonymous "starred"%string
                  "Error fetching user info from forgejo: unauthorized"%string)).
  reflexivity.
Defined.

Lemma asked_wrapFailure (context : string) (r : run forgejo.Request (list forgejoReply)) :
  asked (wrapFailure context r) = asked r.
Proof. unfold wrapFailure. by destruct (result r). Qed.

(** X6: the Forgejo adapter knows three selectors.  The empty selector is
    the selector [user]: both runs are the same.  For every other selector
    but [starred] it returns the error "unknown repo type: <selector>"
    without making any call: no listing request and no [GetMyUserInfo].
    The adapter asks who the user is exactly when the selector is
    [starred], and then before anything else. *)
Theorem forgejo_selectors (u : bool) (client : ForgejoClient) :
  getForgejoRepositories u client "" = getForgejoRepositories u client "user"
  /\ (forall ty : string,
      ty <> "starred"%string -> ty <> "user"%string -> ty <> ""%string ->
      getForgejoRepositories u client ty
      = {| result := Failed ("unknown repo type: " +:+ ty)%string;
           asked := []; unread := repoReplies client |})
  /\ (forall ty : string,
      In forgejo.GetMyUserInfo (asked (getForgejoRepositories u client ty))
      <-> ty = "starred"%string)
  /\ hd_error (asked (getForgejoRepositories u client "starred"))
     = Some forgejo.GetMyUserInfo.
Proof.
  split; [reflexivity|]. split; [|split].
  - intros ty H1 H2 H3. unfold getForgejoRepositories.
    apply String.eqb_neq in H1, H2, H3. by rewrite H1, H2, H3.
  - intros ty. unfold getForgejoRepositories, paginateForgejoRepositories.
    destruct (String.eqb_spec ty "starred") as [->|Hty].
    + split; [done|]. intros _. destruct (myUserInfo client); simpl; by left.
    + split; [|done].
      destruct (String.eqb ty "user" || String.eqb ty ""); [|by intros []].
      rewrite asked_wrapFailure.
      destruct (pageLoop_requests (forgejoRepoBody u) forgejoNextPage
                  (fun page => forgejo.ListMyRepos page) (repoReplies client) 1 [] [])
        as (pages & Hasked & _).
      cbv zeta in Hasked. rewrite Hasked. simpl.
      intros [H|H]; [discriminate|]. apply in_map_iff in H as (page & H & _). discriminate.
  - unfold getForgejoRepositories. simpl. by destruct (myUserInfo client).
Qed.

Lemma forgejo_selectors_witness :
  "all"%string <> "starred"%string /\ "all"%string <> "user"%string
  /\ "all"%string <> ""%string
  /\ getForgejoRepositories false Examples.forgejoDown "all"
     = {| result := Failed "unknown repo type: all";
          asked := []; unread := repoReplies Examples.forgejoDown |}.
Proof.
  assert (H1 : "all"%string <> "starred"%string) by discriminate.
  assert (H2 : "all"%string <> "user"%string) by discriminate.
  assert (H3 : "all"%string <> ""%string) by discriminate.
  split; [exact H1|]. split; [exact H2|]. split; [exact H3|].
  exact (proj1 (proj2 (forgejo_selectors false Examples.forgejoDown)) "all"%string H1 H2 H3).
Defined.

(** ** Namespaces *)

Lemma splitChar_nonempty (sep : ascii) (s : string) : splitChar sep s <> [].
Proof.
  destruct s as [|c s]; simpl; [done|].
  destruct (Ascii.eqb c sep); [done|]. by destruct (splitChar sep s).
Qed.

(** the first segment of [owner/rest] is [owner] *)
Lemma firstSegment_owner (owner rest : string) :
  hasChar "/" owner = false ->
  firstSegment (owner +:+ "/" +:+ rest) = owner.
Proof.
  unfold firstSegment. induction owner as [|c owner IH]; intros Hno; [reflexivity|].
  simpl in Hno. apply orb_false_iff in Hno as [Hc Hno]. simpl. rewrite Hc.
  specialize (IH Hno).
  destruct (splitChar "/" (owner +:+ "/" +:+ rest)) as [|h t] eqn:E.
  - by apply splitChar_nonempty in E.
  - simpl in *. by rewrite IH.
Qed.

(** the first segment of a name without a slash is the name *)
Lemma firstSegment_whole (s : string) :
  hasChar "/" s = false -> firstSegment s = s.
Proof.
  unfold firstSegment. induction s as [|c s IH]; intros Hno; [reflexivity|].
  simpl in Hno. apply orb_false_iff in Hno as [Hc Hno]. simpl. rewrite Hc.
  specialize (IH Hno).
  destruct (splitChar "/" s) as [|h t] eqn:E.
  - by apply splitChar_nonempty in E.
  - simpl in *. by rewrite IH.
Qed.

(** a first segment holds no slash *)
Lemma firstSegment_no_slash (s : string) : hasChar "/" (firstSegment s) = false.
Proof.
  unfold firstSegment. induction s as [|c s IH]; [reflexivity|].
  simpl. destruct (Ascii.eqb c "/") eqn:Hc; [reflexivity|].
  destruct (splitChar "/" s) as [|h t] eqn:E.
  - by apply splitChar_nonempty in E.
  - simpl in *. by rewrite Hc, IH.
Qed.

(** X7: the namespace of a repository is the part of the provider's full
    name before the first slash, and nothing else of it: for a GitHub,
    GitLab or Bitbucket entry named [owner/rest] the loop appends one
    repository whose namespace is [owner], whatever [rest] is, so the
    subgroups of a GitLab path are dropped; a namespace never holds a
    slash. *)
Theorem namespace_is_first_segment (u : bool) (owner rest : string)
    (acc : list Repository) :
  hasChar "/" owner = false ->
  (forall repo : github.Repository,
      github.FullName repo = (owner +:+ "/" +:+ rest)%string ->
      exists r, githubRepoBody u [] false acc repo = acc ++ [r] /\ Namespace r = owner)
  /\ (forall repo : gitlab.Project,
      gitlab.PathWithNamespace repo = (owner +:+ "/" +:+ rest)%string ->
      exists r, gitlabRepoBody u false acc repo = acc ++ [r]
                /\ Namespace r = owner /\ Name r = gitlab.Name repo)
  /\ (forall repo : bitbucket.Repository,
      bitbucket.Full_name repo = (owner +:+ "/" +:+ rest)%string ->
      exists r, bitbucketRepoBody u acc repo = acc ++ [r] /\ Namespace r = owner)
  /\ (forall (ign : bool) (repo : gitlab.Project) (r : Repository),
      gitlabRepoBody u ign acc repo = acc ++ [r] -> hasChar "/" (Namespace r) = false).
Proof.
  intros Hno. split; [|split; [|split]].
  - intros repo Hname. unfold githubRepoBody.
    rewrite andb_false_r. simpl. eexists. split; [reflexivity|].
    simpl. rewrite Hname. by apply firstSegment_owner.
  - intros repo Hname. unfold gitlabRepoBody.
    rewrite andb_false_r. eexists. split; [reflexivity|].
    simpl. rewrite Hname. split; [by apply firstSegment_owner|done].
  - intros repo Hname. unfold bitbucketRepoBody.
    eexists. split; [reflexivity|].
    simpl. rewrite Hname. by apply firstSegment_owner.
  - intros ign repo r. unfold gitlabRepoBody.
    destruct (notNil (gitlab.ForkedFromProject repo) && ign).
    + intros H. apply (f_equal length) in H. rewrite length_app in H. simpl in H. lia.
    + intros H. apply app_inv_head in H. injection H as <-.
      apply firstSegment_no_slash.
Qed.

Lemma namespace_is_first_segment_witness :
  hasChar "/" "acme" = false
  /\ gitlab.PathWithNamespace Examples.gitlabInternal = ("acme" +:+ "/" +:+ "wiki")%string
  /\ exists r, gitlabRepoBody false false [] Examples.gitlabInternal = [] ++ [r]
               /\ Namespace r = "acme"%string /\ Name r = "wiki"%string.
Proof.
  assert (H1 : hasChar "/" "acme" = false) by reflexivity.
  assert (H2 : gitlab.PathWithNamespace Examples.gitlabInternal
               = ("acme" +:+ "/" +:+ "wiki")%string) by reflexivity.
  split; [exact H1|]. split; [exact H2|].
  exact (proj1 (proj2 (namespace_is_first_segment false "acme" "wiki" [] H1))
           Examples.gitlabInternal H2).
Defined.

(** ** What a GitHub listing keeps *)

(** X8: a GitHub listing (selector other than starred) that reads pages up
    to a sentinel returns every repository of these pages that is not a fork
    to be ignored and whose namespace passes the whitelist, and returns each
    as often as the pages hold it: with no whitelist and forks not ignored
    it returns as many repositories as the pages hold, duplicates
    included. *)
Theorem github_listing_complete (u : bool) (ty : string) (wl : list string) (ign : bool)
    (pre : list (reply github.Repository github.Response))
    (items : list github.Repository) (resp : github.Response)
    (rest : list (reply github.Repository github.Response))
    (stars : list (reply github.StarredRepository github.Response)) :
  ty <> "starred"%string ->
  Forall (fun r => continuing github.NextPage r = true) pre ->
  github.NextPage resp = 0%Z ->
  exists repos,
    result (getGithubRepositories u
              {| listReplies := pre ++ Page items resp :: rest; starredReplies := stars |}
              ty wl ign) = Returned repos
    /\ (forall repo,
          In repo (allItems pre ++ items) ->
          github.Fork repo && ign = false ->
          wl = [] \/ In (firstSegment (github.FullName repo)) wl ->
          In (githubRepository u repo) repos)
    /\ (wl = [] -> ign = false -> length repos = length (allItems pre ++ items)).
Proof.
  intros Hty Hpre Hz. unfold getGithubRepositories.
  apply String.eqb_neq in Hty. rewrite Hty. simpl.
  rewrite pageLoop_returns by done. simpl. rewrite githubRepoBody_fold. simpl.
  eexists. split; [reflexivity|]. split.
  - intros repo Hin Hfork Hwl. apply in_map, filter_In. split; [done|].
    unfold githubKept. rewrite Hfork. simpl. apply negb_true_iff.
    destruct Hwl as [->|Hwl]; [done|].
    apply contains_In in Hwl. rewrite Hwl. by rewrite andb_false_r.
  - intros -> ->. rewrite length_map. f_equal.
    apply forallb_filter_id. apply forallb_forall. intros repo _.
    unfold githubKept. simpl. by rewrite andb_false_r.
Qed.

Lemma github_listing_complete_witness :
  "all"%string <> "starred"%string
  /\ Forall (fun r => continuing github.NextPage r = true)
       [Page [Examples.acmeApi; Examples.otherTool] {| github.NextPage := 2 |}]
  /\ github.NextPage {| github.NextPage := 0 |} = 0%Z
  /\ exists repos,
       result (getGithubRepositories false Examples.githubAccount "all" ["acme"%string] true)
       = Returned repos
       /\ In (githubRepository false Examples.acmeApi) repos.
Proof.
  assert (H1 : "all"%string <> "starred"%string) by discriminate.
  assert (H2 : Forall (fun r => continuing github.NextPage r = true)
                 [Page [Examples.acmeApi; Examples.otherTool] {| github.NextPage := 2 |}])
    by (repeat constructor).
  assert (H3 : github.NextPage {| github.NextPage := 0 |} = 0%Z) by reflexivity.
  split; [exact H1|]. split; [exact H2|]. split; [exact H3|].
  destruct (github_listing_complete false "all" ["acme"%string] true
              [Page [Examples.acmeApi; Examples.otherTool] {| github.NextPage := 2 |}]
              [Examples.acmeFork] {| github.NextPage := 0 |} []
              (starredReplies Examples.githubAccount) H1 H2 H3)
    as (repos & Hres & Hin & _).
  exists repos. split; [exact Hres|].
  apply Hin; [simpl; tauto|reflexivity|right; simpl; tauto].
Defined.

(** * Further properties of the configuration *)

Lemma knownServices_unknown (s : string) :
  knownServices !! s = None
  <-> s <> "github"%string /\ s <> "gitlab"%string
      /\ s <> "bitbucket"%string /\ s <> "forgejo"%string.
Proof.
  unfold knownServices. split.
  - intros H. repeat split; intros ->; revert H;
      repeat (first [rewrite lookup_insert_eq | rewrite lookup_insert_ne by done]); done.
  - intros (H1 & H2 & H3 & H4).
    rewrite !lookup_insert_ne by done. apply lookup_empty.
Qed.

Lemma knownServices_known (s : string) :
  s = "github"%string \/ s = "gitlab"%string \/ s = "bitbucket"%string \/ s = "forgejo"%string ->
  exists host, knownServices !! s = Some host.
Proof.
  destruct (knownServices !! s) as [host|] eqn:E; [by exists host|].
  apply knownServices_unknown in E. intros H. exfalso. tauto.
Qed.

Section ConfigFacts.
Variable userConfigDir : path + error.
Variable marshal : fileConfig -> string + error.
Variable unmarshal : string -> fileConfig + error.
Variable getenv : string -> string.
Variable validMembership : string -> bool.
Variable quoted : string -> string.
Variable setupBackupDir : string -> string -> string -> string.

Local Abbreviation init := (handleInitConfig userConfigDir marshal).
Local Abbreviation validate :=
  (handleValidateConfig userConfigDir unmarshal getenv validMembership quoted).
Local Abbreviation load := (loadConfigFile userConfigDir unmarshal).
Local Abbreviation errorsOf := (validationErrors getenv validMembership quoted).
Local Abbreviation build := (buildConfig userConfigDir unmarshal setupBackupDir).

(** X9: a second [handleInitConfig] for the same path, after one that
    succeeded, returns the error "<path> already exists" and changes
    nothing: the file written first stays.  The first call succeeds where
    nothing is at the path, no regular file is on the way and the operating
    system refuses neither the directories nor the write. *)
Theorem handleInitConfig_twice (w : world) (configPath p : path) (data : string) :
  resolveConfigPath userConfigDir configPath = inl p ->
  marshal defaultFileConfig = inl data ->
  let first := init w configPath in
  (os_Stat (files w) p = None ->
   (forall q d, q `prefix_of` filepath_Dir p -> files w !! q <> Some (File d)) ->
   permits w p ->
   first.1 = None)
  /\ (first.1 = None ->
      init first.2 configPath
      = (Some (pathString p +:+ " already exists")%string, first.2)
      /\ os_ReadFile (files (init first.2 configPath).2) p = inl data).
Proof.
  intros Hres Hdata first. subst first. split.
  - intros Hstat Hfree Hperm.
    by destruct (handleInitConfig_creates userConfigDir marshal w configPath p data
                   Hres Hstat Hfree Hperm Hdata) as [Hnil _].
  - intros Hnil.
    destruct (handleInitConfig_succeeded userConfigDir marshal w configPath Hnil)
      as (p' & data' & Hres' & _ & Hdata' & Hfile & _).
    assert (p' = p) as -> by congruence. assert (data' = data) as -> by congruence.
    assert (Hsecond : init (init w configPath).2 configPath
                      = (Some (pathString p +:+ " already exists")%string,
                         (init w configPath).2)).
    { unfold handleInitConfig at 1. by rewrite Hres, Hfile. }
    split; [done|]. rewrite Hsecond. simpl. unfold os_ReadFile. by rewrite Hfile.
Qed.

(** the configuration [loadConfigFile] reads back after [handleInitConfig] *)
Lemma load_after_init (w : world) (configPath p : path) (data : string) :
  resolveConfigPath userConfigDir configPath = inl p ->
  os_Stat (files w) p = Some (File data) ->
  load (files w) configPath
  = match unmarshal data with
    | inl cfg => inl cfg
    | inr err => inr ("error parsing " +:+ pathString p +:+ ": " +:+ err)%string
    end.
Proof.
  intros Hres Hstat. unfold loadConfigFile, os_ReadFile. rewrite Hres, Hstat.
  by destruct (unmarshal data).
Qed.

Lemma validate_result (w : world) (configPath : path) (cfg : fileConfig) :
  load (files w) configPath = inl cfg ->
  files (validate w configPath).2 = files w
  /\ ((validate w configPath).1 = None <-> errorsOf cfg = [])
  /\ ((validate w configPath).1 <> None ->
      (validate w configPath).1 = Some "config validation failed"%string).
Proof.
  intros Hload. unfold handleValidateConfig.
  destruct (resolveConfigPath userConfigDir configPath) as [p|e] eqn:Hres.
  - rewrite Hload. simpl. destruct (errorsOf cfg) as [|e errors]; simpl.
    + repeat split; done.
    + repeat split; done.
  - unfold loadConfigFile in Hload. by rewrite Hres in Hload.
Qed.

(** X10: the file [handleInitConfig] has written validates exactly when
    [GITHUB_TOKEN] is set, provided the YAML library reads back what it
    wrote; validation leaves the files alone. *)
Theorem init_then_validate (w : world) (configPath p : path) (data : string) :
  resolveConfigPath userConfigDir configPath = inl p ->
  marshal defaultFileConfig = inl data ->
  unmarshal data = inl defaultFileConfig ->
  (init w configPath).1 = None ->
  let w1 := (init w configPath).2 in
  ((validate w1 configPath).1 = None <-> getenv "GITHUB_TOKEN" <> ""%string)
  /\ files (validate w1 configPath).2 = files w1.
Proof.
  intros Hres Hdata Hback Hnil w1. subst w1.
  destruct (handleInitConfig_succeeded userConfigDir marshal w configPath Hnil)
    as (p' & data' & Hres' & _ & Hdata' & Hfile & _).
  assert (p' = p) as -> by congruence. assert (data' = data) as -> by congruence.
  pose proof (load_after_init _ configPath p data Hres Hfile) as Hload.
  rewrite Hback in Hload.
  destruct (validate_result _ configPath defaultFileConfig Hload) as (Hfiles & Hnil' & _).
  split; [|done]. rewrite Hnil'.
  unfold validationErrors, serviceErrors, fieldErrors, envErrors. simpl.
  destruct (knownServices_known "github") as [host ->]; [by left|]. simpl.
  destruct (String.eqb_spec (getenv "GITHUB_TOKEN") ""); split; done.
Qed.

(** the errors collected, service by service *)
Lemma validationErrors_nil (cfg : fileConfig) :
  errorsOf cfg = []
  <-> (fc_Service cfg = "github"%string
       /\ In (gh_RepoType (fc_GitHub cfg)) ["all"; "owner"; "member"; "starred"]%string
       /\ getenv "GITHUB_TOKEN" <> ""%string)
      \/ (fc_Service cfg = "gitlab"%string
          /\ In (gl_ProjectVisibility (fc_GitLab cfg)) ["internal"; "public"; "private"]%string
          /\ validMembership (gl_ProjectMembershipType (fc_GitLab cfg)) = true
          /\ getenv "GITLAB_TOKEN" <> ""%string)
      \/ (fc_Service cfg = "bitbucket"%string
          /\ getenv "BITBUCKET_USERNAME" <> ""%string
          /\ (getenv "BITBUCKET_TOKEN" <> ""%string
              \/ getenv "BITBUCKET_PASSWORD" <> ""%string))
      \/ (fc_Service cfg = "forgejo"%string
          /\ In (fj_RepoType (fc_Forgejo cfg)) ["user"; "starred"]%string
          /\ getenv "FORGEJO_TOKEN" <> ""%string).
Proof.
  clear userConfigDir marshal unmarshal setupBackupDir.
  unfold validationErrors, serviceErrors, fieldErrors, envErrors.
  destruct (String.eqb_spec (fc_Service cfg) "github") as [Hs|Hgh].
  { destruct (knownServices_known (fc_Service cfg)) as [host ->]; [by left|].
    destruct (contains ["all"; "owner"; "member"; "starred"]%string
                (gh_RepoType (fc_GitHub cfg))) eqn:Hc;
      destruct (String.eqb_spec (getenv "GITHUB_TOKEN") "") as [Ht|Ht];
      rewrite Hs; simpl.
    all: apply contains_In in Hc || (apply not_true_iff_false in Hc;
                                     rewrite contains_In in Hc).
    all: split; [try discriminate; intros _|intros H].
    all: try (left; by repeat split).
    all: destruct H as [(_ & ? & ?)|[(? & _)|[(? & _)|(? & _)]]]; try done. }
  destruct (String.eqb_spec (fc_Service cfg) "gitlab") as [Hs|Hgl].
  { destruct (knownServices_known (fc_Service cfg)) as [host ->]; [by right; left|].
    destruct (contains ["internal"; "public"; "private"]%string
                (gl_ProjectVisibility (fc_GitLab cfg))) eqn:Hc;
      destruct (validMembership (gl_ProjectMembershipType (fc_GitLab cfg))) eqn:Hm;
      destruct (String.eqb_spec (getenv "GITLAB_TOKEN") "") as [Ht|Ht];
      rewrite Hs; simpl.
    all: apply contains_In in Hc || (apply not_true_iff_false in Hc;
                                     rewrite contains_In in Hc).
    all: split; [try discriminate; intros _|intros H].
    all: try (right; left; by repeat split).
    all: destruct H as [(? & _)|[(_ & ? & ? & ?)|[(? & _)|(? & _)]]]; try done. }
  destruct (String.eqb_spec (fc_Service cfg) "bitbucket") as [Hs|Hbb].
  { destruct (knownServices_known (fc_Service cfg)) as [host ->]; [by right; right; left|].
    destruct (String.eqb_spec (getenv "BITBUCKET_USERNAME") "") as [Hu|Hu];
      destruct (String.eqb_spec (getenv "BITBUCKET_TOKEN") "") as [Ht|Ht];
      destruct (String.eqb_spec (getenv "BITBUCKET_PASSWORD") "") as [Hp|Hp];
      rewrite Hs; simpl.
    all: split; [try discriminate; intros _|intros H].
    all: try (right; right; left; split; [done|]; split; [done|]; tauto).
    all: destruct H as [(? & _)|[(? & _)|[(_ & ? & [?|?])|(? & _)]]]; try done. }
  destruct (String.eqb_spec (fc_Service cfg) "forgejo") as [Hs|Hfj].
  { destruct (knownServices_known (fc_Service cfg)) as [host ->]; [by right; right; right|].
    destruct (contains ["user"; "starred"]%string (fj_RepoType (fc_Forgejo cfg))) eqn:Hc;
      destruct (String.eqb_spec (getenv "FORGEJO_TOKEN") "") as [Ht|Ht];
      rewrite Hs; simpl.
    all: apply contains_In in Hc || (apply not_true_iff_false in Hc;
                                     rewrite contains_In in Hc).
    all: split; [try discriminate; intros _|intros H].
    all: try (right; right; right; by repeat split).
    all: destruct H as [(? & _)|[(? & _)|[(? & _)|(_ & ? & ?)]]]; try done. }
  assert (Hnone : knownServices !! fc_Service cfg = None)
    by (by apply knownServices_unknown).
  rewrite Hnone. simpl. split; [discriminate|].
  intros [(? & _)|[(? & _)|[(? & _)|(? & _)]]]; done.
Qed.

(** X11: [handleValidateConfig] on a file that loads returns nil exactly
    when the service is one of the four known ones, the selectors of that
    service (and of no other) have one of their listed values, and the
    environment holds the credentials of that service; otherwise it returns
    the error "config validation failed".  It never changes a file. *)
Theorem validate_accepts_exactly (w : world) (configPath : path) (cfg : fileConfig) :
  load (files w) configPath = inl cfg ->
  files (validate w configPath).2 = files w
  /\ ((validate w configPath).1 = None
      <-> (fc_Service cfg = "github"%string
           /\ In (gh_RepoType (fc_GitHub cfg)) ["all"; "owner"; "member"; "starred"]%string
           /\ getenv "GITHUB_TOKEN" <> ""%string)
          \/ (fc_Service cfg = "gitlab"%string
              /\ In (gl_ProjectVisibility (fc_GitLab cfg))
                   ["internal"; "public"; "private"]%string
              /\ validMembership (gl_ProjectMembershipType (fc_GitLab cfg)) = true
              /\ getenv "GITLAB_TOKEN" <> ""%string)
          \/ (fc_Service cfg = "bitbucket"%string
              /\ getenv "BITBUCKET_USERNAME" <> ""%string
              /\ (getenv "BITBUCKET_TOKEN" <> ""%string
                  \/ getenv "BITBUCKET_PASSWORD" <> ""%string))
          \/ (fc_Service cfg = "forgejo"%string
              /\ In (fj_RepoType (fc_Forgejo cfg)) ["user"; "starred"]%string
              /\ getenv "FORGEJO_TOKEN" <> ""%string))
  /\ ((validate w configPath).1 <> None ->
      (validate w configPath).1 = Some "config validation failed"%string).
Proof.
  intros Hload.
  destruct (validate_result w configPath cfg Hload) as (Hfiles & Hnil & Herr).
  split; [done|]. split; [|done]. rewrite Hnil. apply validationErrors_nil.
Qed.

(** X12: [handleValidateConfig] for a path at which there is nothing, or a
    directory, returns an error that says the file cannot be read, prints
    nothing and changes nothing. *)
Theorem validate_without_file (w : world) (configPath p : path) :
  resolveConfigPath userConfigDir configPath = inl p ->
  (forall data, os_Stat (files w) p <> Some (File data)) ->
  exists reason,
    validate w configPath
    = (Some ("error reading " +:+ pathString p +:+ ": " +:+ reason)%string, w).
Proof.
  intros Hres Hno. unfold handleValidateConfig, loadConfigFile, os_ReadFile.
  rewrite Hres. destruct (os_Stat (files w) p) as [[data|]|] eqn:E.
  - exfalso. by apply (Hno data).
  - by eexists.
  - by eexists.
Qed.

(** X13: the two validations disagree.  A GitHub configuration file with a
    good repo type validates whenever [GITHUB_TOKEN] is set, whatever its
    GitLab fields are; [validateConfig], which the run itself calls, rejects
    the same configuration when its GitLab membership type is not a valid
    one, although the service is GitHub. *)
Theorem validations_disagree (cfg : fileConfig) :
  fc_Service cfg = "github"%string ->
  In (gh_RepoType (fc_GitHub cfg)) ["all"; "owner"; "member"; "starred"]%string ->
  getenv "GITHUB_TOKEN" <> ""%string ->
  validMembership (gl_ProjectMembershipType (fc_GitLab cfg)) = false ->
  errorsOf cfg = []
  /\ validateConfig validMembership (fileConfigToAppConfig cfg)
     = Some "please specify a valid gitlab project membership - all/owner/member/starred"%string.
Proof.
  intros Hs Hty Htoken Hm. split.
  - apply validationErrors_nil. left. by repeat split.
  - unfold validateConfig. simpl.
    destruct (knownServices_known (fc_Service cfg)) as [host ->]; [by left|].
    by rewrite Hm.
Qed.

(** X14: without a config file ([os.UserConfigDir] fails for an empty
    [config] flag, or nothing is at the resolved path) [buildConfig] does
    not fail and reads every option from the flag of its name on the command
    line; the whitelist is the flag's value split at the commas, and empty
    for an empty value; the backup directory is what [setupBackupDir] makes
    of the three flags [backupdir], [service] and [githost.url].  When no
    flag is set, the values are the defaults the flags declare, the service
    is empty and [validateConfig] rejects the result for its service. *)
Theorem buildConfig_without_file (fs : tree) (cCtx : Context) :
  (forall p, resolveConfigPath userConfigDir (configFlag cCtx) = inl p ->
             os_Stat fs p = None) ->
  exists c,
    build fs cCtx = inl c
    /\ (service c = ctxString cCtx "service"
        /\ gitHostURL c = ctxString cCtx "githost.url"
        /\ backupDir c = setupBackupDir (ctxString cCtx "backupdir")
                           (ctxString cCtx "service") (ctxString cCtx "githost.url")
        /\ ignorePrivate c = ctxBool cCtx "ignore-private"
        /\ ignoreFork c = ctxBool cCtx "ignore-fork"
        /\ useHTTPSClone c = ctxBool cCtx "use-https-clone"
        /\ bare c = ctxBool cCtx "bare"
        /\ githubRepoType c = ctxString cCtx "github.repoType"
        /\ githubNamespaceWhitelist c
           = (if String.eqb (ctxString cCtx "github.namespaceWhitelist") ""
              then []
              else splitChar ","%char (ctxString cCtx "github.namespaceWhitelist"))
        /\ githubCreateUserMigration c = ctxBool cCtx "github.createUserMigration"
        /\ githubCreateUserMigrationRetry c = ctxBool cCtx "github.createUserMigrationRetry"
        /\ githubCreateUserMigrationRetryMax c
           = ctxInt cCtx "github.createUserMigrationRetryMax"
        /\ githubListUserMigrations c = ctxBool cCtx "github.listUserMigrations"
        /\ githubWaitForMigrationComplete c = ctxBool cCtx "github.waitForUserMigration"
        /\ gitlabProjectVisibility c = ctxString cCtx "gitlab.projectVisibility"
        /\ gitlabProjectMembershipType c = ctxString cCtx "gitlab.projectMembershipType"
        /\ forgejoRepoType c = ctxString cCtx "forgejo.repoType")
    /\ (flagsSet cCtx = ∅ ->
        (service c = ""%string
         /\ gitHostURL c = ""%string
         /\ backupDir c = setupBackupDir "" "" ""
         /\ ignorePrivate c = false
         /\ ignoreFork c = false
         /\ useHTTPSClone c = false
         /\ bare c = false
         /\ githubRepoType c = "all"%string
         /\ githubNamespaceWhitelist c = []
         /\ githubCreateUserMigration c = false
         /\ githubCreateUserMigrationRetry c = true
         /\ githubCreateUserMigrationRetryMax c = 5%Z
         /\ githubListUserMigrations c = false
         /\ githubWaitForMigrationComplete c = true
         /\ gitlabProjectVisibility c = "internal"%string
         /\ gitlabProjectMembershipType c = "all"%string
         /\ forgejoRepoType c = "user"%string)
        /\ c = withBackupDir cliDefaults (backupDir c)
        /\ validateConfig validMembership c
           = Some "please specify the git service type: github, gitlab, bitbucket, forgejo"%string).
Proof.
  intros Hno. unfold buildConfig.
  assert (Hloaded :
            match resolveConfigPath userConfigDir (configFlag cCtx) with
            | inl resolvedPath =>
                match os_Stat fs resolvedPath with
                | Some _ =>
                    match load fs (configFlag cCtx) with
                    | inl fc => inl (Some fc)
                    | inr err => inr err
                    end
                | None => inl None
                end
            | inr _ => inl None
            end = (inl None : option fileConfig + error)).
  { destruct (resolveConfigPath userConfigDir (configFlag cCtx)) as [p|e] eqn:Hres; [|done].
    by rewrite (Hno p eq_refl). }
  rewrite Hloaded. eexists. split; [reflexivity|]. split.
  - cbn [withBackupDir fromCommandLine service gitHostURL backupDir ignorePrivate
         ignoreFork useHTTPSClone bare githubRepoType githubNamespaceWhitelist
         githubCreateUserMigration githubCreateUserMigrationRetry
         githubCreateUserMigrationRetryMax githubListUserMigrations
         githubWaitForMigrationComplete gitlabProjectVisibility
         gitlabProjectMembershipType forgejoRepoType].
    repeat (split; [reflexivity|]). split; [|repeat (split; [reflexivity|]); reflexivity].
    unfold whitelistOf.
    by destruct (ctxString cCtx "github.namespaceWhitelist").
  - intros Hset.
    assert (Hcli : fromCommandLine cCtx = cliDefaults).
    { unfold fromCommandLine, cliDefaults, ctxString, ctxBool, ctxInt, whitelistOf.
      rewrite Hset. by rewrite !lookup_empty. }
    rewrite Hcli. split; [|split; reflexivity].
    repeat (split; [reflexivity|]). reflexivity.
Qed.

(** X15: with a config file that loads, [buildConfig] takes the file as the
    base.  Every option of the file has the value of the flag of its name
    when that flag is set on the command line and the file's value
    otherwise, with two exceptions: a whitelist flag set to the empty string
    keeps the whitelist of the file; and the backup directory is always
    replaced by what [setupBackupDir] makes of the backup directory, service
    and host so chosen.  The migration options always come from their flags,
    so with no flag set they have the defaults the flags declare (retry on,
    five attempts, wait on), which the file cannot change. *)
Theorem buildConfig_over_file (fs : tree) (cCtx : Context) (p : path) (n : node)
    (fc : fileConfig) :
  resolveConfigPath userConfigDir (configFlag cCtx) = inl p ->
  os_Stat fs p = Some n ->
  load fs (configFlag cCtx) = inl fc ->
  exists c,
    build fs cCtx = inl c
    /\ (service c
        = (if ctxIsSet cCtx "service" then ctxString cCtx "service" else fc_Service fc)
        /\ gitHostURL c
           = (if ctxIsSet cCtx "githost.url" then ctxString cCtx "githost.url"
              else fc_GitHostURL fc)
        /\ backupDir c
           = setupBackupDir
               (if ctxIsSet cCtx "backupdir" then ctxString cCtx "backupdir"
                else fc_BackupDir fc)
               (service c) (gitHostURL c)
        /\ ignorePrivate c
           = (if ctxIsSet cCtx "ignore-private" then ctxBool cCtx "ignore-private"
              else fc_IgnorePrivate fc)
        /\ ignoreFork c
           = (if ctxIsSet cCtx "ignore-fork" then ctxBool cCtx "ignore-fork"
              else fc_IgnoreFork fc)
        /\ useHTTPSClone c
           = (if ctxIsSet cCtx "use-https-clone" then ctxBool cCtx "use-https-clone"
              else fc_UseHTTPSClone fc)
        /\ bare c = (if ctxIsSet cCtx "bare" then ctxBool cCtx "bare" else fc_Bare fc)
        /\ githubRepoType c
           = (if ctxIsSet cCtx "github.repoType" then ctxString cCtx "github.repoType"
              else gh_RepoType (fc_GitHub fc))
        /\ githubNamespaceWhitelist c
           = (if ctxIsSet cCtx "github.namespaceWhitelist"
                 && negb (String.eqb (ctxString cCtx "github.namespaceWhitelist") "")
              then splitChar ","%char (ctxString cCtx "github.namespaceWhitelist")
              else gh_NamespaceWhitelist (fc_GitHub fc))
        /\ gitlabProjectVisibility c
           = (if ctxIsSet cCtx "gitlab.projectVisibility"
              then ctxString cCtx "gitlab.projectVisibility"
              else gl_ProjectVisibility (fc_GitLab fc))
        /\ gitlabProjectMembershipType c
           = (if ctxIsSet cCtx "gitlab.projectMembershipType"
              then ctxString cCtx "gitlab.projectMembershipType"
              else gl_ProjectMembershipType (fc_GitLab fc))
        /\ forgejoRepoType c
           = (if ctxIsSet cCtx "forgejo.repoType" then ctxString cCtx "forgejo.repoType"
              else fj_RepoType (fc_Forgejo fc))
        /\ githubCreateUserMigration c = ctxBool cCtx "github.createUserMigration"
        /\ githubCreateUserMigrationRetry c = ctxBool cCtx "github.createUserMigrationRetry"
        /\ githubCreateUserMigrationRetryMax c
           = ctxInt cCtx "github.createUserMigrationRetryMax"
        /\ githubListUserMigrations c = ctxBool cCtx "github.listUserMigrations"
        /\ githubWaitForMigrationComplete c = ctxBool cCtx "github.waitForUserMigration")
    /\ (flagsSet cCtx = ∅ ->
        service c = fc_Service fc
        /\ gitHostURL c = fc_GitHostURL fc
        /\ backupDir c
           = setupBackupDir (fc_BackupDir fc) (fc_Service fc) (fc_GitHostURL fc)
        /\ ignorePrivate c = fc_IgnorePrivate fc
        /\ ignoreFork c = fc_IgnoreFork fc
        /\ useHTTPSClone c = fc_UseHTTPSClone fc
        /\ bare c = fc_Bare fc
        /\ githubRepoType c = gh_RepoType (fc_GitHub fc)
        /\ githubNamespaceWhitelist c = gh_NamespaceWhitelist (fc_GitHub fc)
        /\ gitlabProjectVisibility c = gl_ProjectVisibility (fc_GitLab fc)
        /\ gitlabProjectMembershipType c = gl_ProjectMembershipType (fc_GitLab fc)
        /\ forgejoRepoType c = fj_RepoType (fc_Forgejo fc)
        /\ githubCreateUserMigration c = false
        /\ githubCreateUserMigrationRetry c = true
        /\ githubCreateUserMigrationRetryMax c = 5%Z
        /\ githubListUserMigrations c = false
        /\ githubWaitForMigrationComplete c = true)
    /\ (forall s, flagsSet cCtx !! "service"%string = Some (StringValue s) ->
                  service c = s /\ (flagsSet cCtx !! "ignore-fork"%string = None ->
                                    ignoreFork c = fc_IgnoreFork fc))
    /\ (flagsSet cCtx !! "github.namespaceWhitelist"%string = Some (StringValue "") ->
        githubNamespaceWhitelist c = gh_NamespaceWhitelist (fc_GitHub fc)).
Proof.
  intros Hres Hstat Hload. unfold buildConfig. rewrite Hres, Hstat, Hload.
  eexists. split; [reflexivity|]. simpl. split; [|split; [|split]].
  - repeat (split; [reflexivity|]).
    split; [|repeat (split; [reflexivity|]); reflexivity].
    unfold whitelistOf.
    destruct (ctxIsSet cCtx "github.namespaceWhitelist"); [|done].
    by destruct (ctxString cCtx "github.namespaceWhitelist").
  - intros Hset. unfold ctxIsSet, ctxBool, ctxInt, ctxString. rewrite Hset.
    rewrite !lookup_empty. simpl. repeat split.
  - intros s Hs. unfold ctxIsSet, ctxString. rewrite Hs. simpl.
    split; [done|]. by intros ->.
  - intros Hns. unfold ctxIsSet, ctxString, whitelistOf. rewrite Hns. by simpl.
Qed.

(** X16: [buildConfig] fails in one case only: something is at the
    resolved path of the config file and [loadConfigFile] cannot load it
    (it is a directory, or its text does not parse); the error is that of
    [loadConfigFile]. *)
Theorem buildConfig_fails_exactly (fs : tree) (cCtx : Context) (err : error) :
  build fs cCtx = inr err
  <-> exists p n,
        resolveConfigPath userConfigDir (configFlag cCtx) = inl p
        /\ os_Stat fs p = Some n
        /\ load fs (configFlag cCtx) = inr err.
Proof.
  unfold buildConfig.
  destruct (resolveConfigPath userConfigDir (configFlag cCtx)) as [p|e] eqn:Hres.
  - destruct (os_Stat fs p) as [n|] eqn:Hstat.
    + destruct (load fs (configFlag cCtx)) as [fc|e] eqn:Hload.
      * split; [discriminate|]. by intros (? & ? & _ & _ & ?).
      * split.
        -- intros [= <-]. by exists p, n.
        -- intros (? & ? & _ & _ & [= <-]). done.
    + split; [discriminate|]. intros (p' & n & [= <-] & ? & _). congruence.
  - split; [discriminate|]. by intros (? & ? & ? & _).
Qed.

End ConfigFacts.

Lemma handleInitConfig_twice_witness :
  let p := ["etc"; "gitbackup"; "gitbackup.yml"]%string in
  let first := handleInitConfig Examples.homeConfig Examples.renderYaml Examples.emptyWorld p in
  resolveConfigPath Examples.homeConfig p = inl p
  /\ os_Stat (files Examples.emptyWorld) p = None
  /\ (forall q d, q `prefix_of` filepath_Dir p ->
                  files Examples.emptyWorld !! q <> Some (File d))
  /\ permits Examples.emptyWorld p
  /\ exists data,
       Examples.renderYaml defaultFileConfig = inl data
       /\ first.1 = None
       /\ handleInitConfig Examples.homeConfig Examples.renderYaml first.2 p
          = (Some "etc/gitbackup/gitbackup.yml already exists"%string, first.2).
Proof.
  intros p first.
  assert (H1 : resolveConfigPath Examples.homeConfig p = inl p) by reflexivity.
  assert (H2 : os_Stat (files Examples.emptyWorld) p = None) by reflexivity.
  assert (H3 : forall q d, q `prefix_of` filepath_Dir p ->
                           files Examples.emptyWorld !! q <> Some (File d)).
  { intros q d _. unfold Examples.emptyWorld. simpl. by rewrite lookup_empty. }
  assert (H5 : permits Examples.emptyWorld p) by (split; [intros q _ _|]; reflexivity).
  destruct (Examples.renderYaml defaultFileConfig) as [data|e] eqn:H4; [|discriminate H4].
  split; [exact H1|]. split; [exact H2|]. split; [exact H3|]. split; [exact H5|].
  exists data. split; [reflexivity|].
  destruct (handleInitConfig_twice Examples.homeConfig Examples.renderYaml
              Examples.emptyWorld p p data H1 H4) as (Hfirst & Hsecond).
  pose proof (Hfirst H2 H3 H5) as Hnil.
  split; [exact Hnil|exact (proj1 (Hsecond Hnil))].
Defined.

Lemma init_then_validate_witness :
  let p := ["etc"; "gitbackup"; "gitbackup.yml"]%string in
  let first := handleInitConfig Examples.homeConfig Examples.renderYaml Examples.emptyWorld p in
  resolveConfigPath Examples.homeConfig p = inl p
  /\ (exists data, Examples.renderYaml defaultFileConfig = inl data
                   /\ ConfigExamples.parseDefault data = inl defaultFileConfig)
  /\ first.1 = None
  /\ ConfigExamples.tokenSet "GITHUB_TOKEN" <> ""%string
  /\ (handleValidateConfig Examples.homeConfig ConfigExamples.parseDefault
        ConfigExamples.tokenSet ConfigExamples.membershipNamed ConfigExamples.inQuotes
        first.2 p).1 = None.
Proof.
  intros p first.
  assert (H1 : resolveConfigPath Examples.homeConfig p = inl p) by reflexivity.
  assert (H2 : first.1 = None) by reflexivity.
  assert (H6 : ConfigExamples.tokenSet "GITHUB_TOKEN" <> ""%string) by discriminate.
  destruct (Examples.renderYaml defaultFileConfig) as [data|e] eqn:H4; [|discriminate H4].
  assert (H5 : ConfigExamples.parseDefault data = inl defaultFileConfig).
  { unfold ConfigExamples.parseDefault. rewrite H4. by rewrite String.eqb_refl. }
  split; [exact H1|]. split; [by exists data|]. split; [exact H2|]. split; [exact H6|].
  exact (proj2 (proj1 (init_then_validate Examples.homeConfig Examples.renderYaml
                         ConfigExamples.parseDefault ConfigExamples.tokenSet
                         ConfigExamples.membershipNamed ConfigExamples.inQuotes
                         Examples.emptyWorld p p data H1 H4 H5 H2)) H6).
Defined.

Lemma withConfigFile_loads :
  loadConfigFile Examples.homeConfig ConfigExamples.parseGitlab
    ConfigExamples.withConfigFile ["gitbackup.yml"%string]
  = inl ConfigExamples.gitlabFile.
Proof.
  unfold loadConfigFile, os_ReadFile, ConfigExamples.withConfigFile. simpl.
  by rewrite lookup_singleton_eq.
Defined.

Lemma validate_accepts_exactly_witness :
  let w := {| files := ConfigExamples.withConfigFile; stdout := []; refuses := noRefusal |} in
  loadConfigFile Examples.homeConfig ConfigExamples.parseGitlab (files w)
    ["gitbackup.yml"%string] = inl ConfigExamples.gitlabFile
  /\ (fc_Service ConfigExamples.gitlabFile = "gitlab"%string
      /\ In (gl_ProjectVisibility (fc_GitLab ConfigExamples.gitlabFile))
           ["internal"; "public"; "private"]%string
      /\ ConfigExamples.membershipNamed
           (gl_ProjectMembershipType (fc_GitLab ConfigExamples.gitlabFile)) = true
      /\ ConfigExamples.gitlabTokenSet "GITLAB_TOKEN" <> ""%string)
  /\ (handleValidateConfig Examples.homeConfig ConfigExamples.parseGitlab
        ConfigExamples.gitlabTokenSet ConfigExamples.membershipNamed ConfigExamples.inQuotes
        w ["gitbackup.yml"%string]).1 = None.
Proof.
  intros w.
  assert (H1 : loadConfigFile Examples.homeConfig ConfigExamples.parseGitlab (files w)
                 ["gitbackup.yml"%string] = inl ConfigExamples.gitlabFile)
    by exact withConfigFile_loads.
  assert (H2 : fc_Service ConfigExamples.gitlabFile = "gitlab"%string
               /\ In (gl_ProjectVisibility (fc_GitLab ConfigExamples.gitlabFile))
                    ["internal"; "public"; "private"]%string
               /\ ConfigExamples.membershipNamed
                    (gl_ProjectMembershipType (fc_GitLab ConfigExamples.gitlabFile)) = true
               /\ ConfigExamples.gitlabTokenSet "GITLAB_TOKEN" <> ""%string).
  { split; [reflexivity|]. split; [simpl; tauto|]. split; [reflexivity|discriminate]. }
  split; [exact H1|]. split; [exact H2|].
  apply (proj2 (proj1 (proj2 (validate_accepts_exactly Examples.homeConfig
                                ConfigExamples.parseGitlab ConfigExamples.gitlabTokenSet
                                ConfigExamples.membershipNamed ConfigExamples.inQuotes
                                w ["gitbackup.yml"%string] ConfigExamples.gitlabFile H1)))).
  right. left. exact H2.
Defined.

Lemma validate_without_file_witness :
  let p := ["gitbackup.yml"%string] in
  resolveConfigPath Examples.homeConfig p = inl p
  /\ (forall data, os_Stat (files Examples.emptyWorld) p <> Some (File data))
  /\ exists reason,
       handleValidateConfig Examples.homeConfig ConfigExamples.parseDefault
         ConfigExamples.tokenSet ConfigExamples.membershipNamed ConfigExamples.inQuotes
         Examples.emptyWorld p
       = (Some ("error reading " +:+ pathString p +:+ ": " +:+ reason)%string,
          Examples.emptyWorld).
Proof.
  intros p.
  assert (H1 : resolveConfigPath Examples.homeConfig p = inl p) by reflexivity.
  assert (H2 : forall data, os_Stat (files Examples.emptyWorld) p <> Some (File data))
    by (intros data; discriminate).
  split; [exact H1|]. split; [exact H2|].
  exact (validate_without_file Examples.homeConfig ConfigExamples.parseDefault
           ConfigExamples.tokenSet ConfigExamples.membershipNamed ConfigExamples.inQuotes
           Examples.emptyWorld p p H1 H2).
Defined.

Lemma validations_disagree_witness :
  let cfg := ConfigExamples.githubFileOddMembership in
  fc_Service cfg = "github"%string
  /\ In (gh_RepoType (fc_GitHub cfg)) ["all"; "owner"; "member"; "starred"]%string
  /\ ConfigExamples.tokenSet "GITHUB_TOKEN" <> ""%string
  /\ ConfigExamples.membershipNamed (gl_ProjectMembershipType (fc_GitLab cfg)) = false
  /\ validationErrors ConfigExamples.tokenSet ConfigExamples.membershipNamed
       ConfigExamples.inQuotes cfg = []
  /\ validateConfig ConfigExamples.membershipNamed (fileConfigToAppConfig cfg)
     = Some "please specify a valid gitlab project membership - all/owner/member/starred"%string.
Proof.
  intros cfg.
  assert (H1 : fc_Service cfg = "github"%string) by reflexivity.
  assert (H2 : In (gh_RepoType (fc_GitHub cfg)) ["all"; "owner"; "member"; "starred"]%string)
    by (simpl; tauto).
  assert (H3 : ConfigExamples.tokenSet "GITHUB_TOKEN" <> ""%string) by discriminate.
  assert (H4 : ConfigExamples.membershipNamed (gl_ProjectMembershipType (fc_GitLab cfg))
               = false) by reflexivity.
  split; [exact H1|]. split; [exact H2|]. split; [exact H3|]. split; [exact H4|].
  exact (validations_disagree ConfigExamples.tokenSet ConfigExamples.membershipNamed
           ConfigExamples.inQuotes cfg H1 H2 H3 H4).
Defined.

Lemma buildConfig_without_file_witness :
  (forall p, resolveConfigPath Examples.homeConfig (configFlag ConfigExamples.noFlags) = inl p ->
             os_Stat (∅ : tree) p = None)
  /\ flagsSet ConfigExamples.noFlags = ∅
  /\ exists c,
       buildConfig Examples.homeConfig ConfigExamples.parseDefault
         ConfigExamples.keepBackupDir ∅ ConfigExamples.noFlags = inl c
       /\ service c = ""%string
       /\ githubRepoType c = "all"%string
       /\ validateConfig ConfigExamples.membershipNamed c
          = Some "please specify the git service type: github, gitlab, bitbucket, forgejo"%string.
Proof.
  assert (H1 : forall p, resolveConfigPath Examples.homeConfig
                           (configFlag ConfigExamples.noFlags) = inl p ->
                         os_Stat (∅ : tree) p = None).
  { intros p [= <-]. reflexivity. }
  assert (H2 : flagsSet ConfigExamples.noFlags = ∅) by reflexivity.
  split; [exact H1|]. split; [exact H2|].
  destruct (buildConfig_without_file Examples.homeConfig ConfigExamples.parseDefault
              ConfigExamples.membershipNamed ConfigExamples.keepBackupDir
              ∅ ConfigExamples.noFlags H1) as (c & Hc & _ & Hdefaults).
  destruct (Hdefaults H2) as ((Hs & _ & _ & _ & _ & _ & _ & Hty & _) & _ & Hval).
  exists c. split; [exact Hc|]. split; [exact Hs|]. split; [exact Hty|exact Hval].
Defined.

Lemma buildConfig_over_file_witness :
  resolveConfigPath Examples.homeConfig (configFlag ConfigExamples.serviceOverridden)
  = inl ["gitbackup.yml"%string]
  /\ os_Stat ConfigExamples.withConfigFile ["gitbackup.yml"%string]
     = Some (File "service: gitlab")
  /\ flagsSet ConfigExamples.serviceOverridden !! "service"%string
     = Some (StringValue "github")
  /\ flagsSet ConfigExamples.serviceOverridden !! "ignore-fork"%string = None
  /\ exists c,
       buildConfig Examples.homeConfig ConfigExamples.parseGitlab
         ConfigExamples.keepBackupDir ConfigExamples.withConfigFile
         ConfigExamples.serviceOverridden = inl c
       /\ service c = "github"%string
       /\ ignoreFork c = true.
Proof.
  assert (H1 : resolveConfigPath Examples.homeConfig
                 (configFlag ConfigExamples.serviceOverridden)
               = inl ["gitbackup.yml"%string]) by reflexivity.
  assert (H2 : os_Stat ConfigExamples.withConfigFile ["gitbackup.yml"%string]
               = Some (File "service: gitlab")).
  { unfold ConfigExamples.withConfigFile. simpl. by rewrite lookup_singleton_eq. }
  assert (H3 : flagsSet ConfigExamples.serviceOverridden !! "service"%string
               = Some (StringValue "github")).
  { unfold ConfigExamples.serviceOverridden. simpl. by rewrite lookup_singleton_eq. }
  assert (H4 : flagsSet ConfigExamples.serviceOverridden !! "ignore-fork"%string = None).
  { unfold ConfigExamples.serviceOverridden. simpl. by rewrite lookup_singleton_ne. }
  split; [exact H1|]. split; [exact H2|]. split; [exact H3|]. split; [exact H4|].
  destruct (buildConfig_over_file Examples.homeConfig ConfigExamples.parseGitlab
              ConfigExamples.keepBackupDir ConfigExamples.withConfigFile
              ConfigExamples.serviceOverridden ["gitbackup.yml"%string]
              (File "service: gitlab") ConfigExamples.gitlabFile H1 H2 withConfigFile_loads)
    as (c & Hc & _ & _ & Hservice & _).
  destruct (Hservice "github"%string H3) as [Hs Hfork].
  exists c. split; [exact Hc|]. split; [exact Hs|exact (Hfork H4)].
Defined.

Lemma buildConfig_fails_exactly_witness :
  (exists p n,
      resolveConfigPath Examples.homeConfig (configFlag ConfigExamples.configGiven) = inl p
      /\ os_Stat ConfigExamples.directoryInTheWay p = Some n
      /\ loadConfigFile Examples.homeConfig ConfigExamples.parseDefault
           ConfigExamples.directoryInTheWay (configFlag ConfigExamples.configGiven)
         = inr "error reading gitbackup.yml: read gitbackup.yml: is a directory"%string)
  /\ buildConfig Examples.homeConfig ConfigExamples.parseDefault
       ConfigExamples.keepBackupDir ConfigExamples.directoryInTheWay
       ConfigExamples.configGiven
     = inr "error reading gitbackup.yml: read gitbackup.yml: is a directory"%string.
Proof.
  assert (Hdir : ConfigExamples.directoryInTheWay !! ["gitbackup.yml"%string] = Some Dir).
  { unfold ConfigExamples.directoryInTheWay. by rewrite lookup_singleton_eq. }
  assert (H : exists p n,
             resolveConfigPath Examples.homeConfig (configFlag ConfigExamples.configGiven)
             = inl p
             /\ os_Stat ConfigExamples.directoryInTheWay p = Some n
             /\ loadConfigFile Examples.homeConfig ConfigExamples.parseDefault
                  ConfigExamples.directoryInTheWay (configFlag ConfigExamples.configGiven)
                = inr "error reading gitbackup.yml: read gitbackup.yml: is a directory"%string).
  { exists ["gitbackup.yml"%string], Dir. split; [reflexivity|]. split; [exact Hdir|].
    unfold loadConfigFile, os_ReadFile. simpl. by rewrite Hdir. }
  split; [exact H|].
  exact (proj2 (buildConfig_fails_exactly Examples.homeConfig ConfigExamples.parseDefault
                  ConfigExamples.keepBackupDir ConfigExamples.directoryInTheWay
                  ConfigExamples.configGiven _) H).
Defined.

(** ** The selectors of GitLab *)

(** X17: what the two GitLab selectors put into the list options of every
    request.  Membership [owner], [member] and [starred] set the one filter
    of that name, [all] sets the three of them, and any other membership
    sets none; no filter is ever set to false.  Visibility [all] leaves the
    visibility unset; [public], [private] and [internal] are sent as they
    are; [default] is sent as [internal]; any other visibility is sent as
    the empty string. *)
Theorem gitlab_selectors (visibility membership : string) (page : Z) :
  let o := gitlabListOptions visibility membership page in
  gitlab.Page o = page
  /\ (gitlab.Owned o = Some true <-> membership = "owner"%string \/ membership = "all"%string)
  /\ (gitlab.Membership o = Some true
      <-> membership = "member"%string \/ membership = "all"%string)
  /\ (gitlab.Starred o = Some true
      <-> membership = "starred"%string \/ membership = "all"%string)
  /\ (gitlab.Owned o <> Some false /\ gitlab.Membership o <> Some false
      /\ gitlab.Starred o <> Some false)
  /\ (gitlab.VisibilityOpt o = None <-> visibility = "all"%string)
  /\ (In visibility ["public"; "private"; "internal"]%string ->
      gitlab.VisibilityOpt o = Some visibility)
  /\ (visibility = "default"%string -> gitlab.VisibilityOpt o = Some "internal"%string)
  /\ (~ In visibility ["all"; "public"; "private"; "internal"; "default"]%string ->
      gitlab.VisibilityOpt o = Some ""%string).
Proof.
  intros o. subst o. unfold gitlabListOptions. simpl.
  split; [reflexivity|].
  split; [|split; [|split; [|split]]].
  - destruct (String.eqb_spec membership "owner"), (String.eqb_spec membership "all");
      simpl; split; intros H; try done; try tauto; by destruct H.
  - destruct (String.eqb_spec membership "member"), (String.eqb_spec membership "all");
      simpl; split; intros H; try done; try tauto; by destruct H.
  - destruct (String.eqb_spec membership "starred"), (String.eqb_spec membership "all");
      simpl; split; intros H; try done; try tauto; by destruct H.
  - repeat split;
      match goal with |- (if ?b then _ else _) <> _ => by destruct b end.
  - destruct (String.eqb_spec visibility "all") as [->|Hall].
    { simpl. repeat split; try done.
      - intros [H|[H|[H|[]]]]; discriminate H.
      - intros H. exfalso. apply H. by left. }
    destruct (String.eqb_spec visibility "public") as [->|Hpub].
    { simpl. repeat split; try done. intros H. exfalso. apply H. right. by left. }
    destruct (String.eqb_spec visibility "private") as [->|Hpriv].
    { simpl. repeat split; try done. intros H. exfalso. apply H. right. right. by left. }
    destruct (String.eqb_spec visibility "internal") as [->|Hint].
    { simpl. repeat split; try done.
      intros H. exfalso. apply H. right. right. right. by left. }
    destruct (String.eqb_spec visibility "default") as [->|Hdef].
    { simpl. repeat split; try done.
      - intros [H|[H|[H|[]]]]; discriminate H.
      - intros H. exfalso. apply H. right. right. right. right. by left. }
    repeat split; try done.
    intros [H|[H|[H|[]]]]; congruence.
Qed.

Lemma gitlab_selectors_witness :
  "default"%string = "default"%string
  /\ gitlab.VisibilityOpt (gitlabListOptions "default" "owner" 3)
     = Some "internal"%string
  /\ ("owner"%string = "owner"%string \/ "owner"%string = "all"%string)
  /\ gitlab.Owned (gitlabListOptions "default" "owner" 3) = Some true.
Proof.
  pose proof (gitlab_selectors "default" "owner" 3) as (_ & Howned & _ & _ & _ & _ & _ & Hdef & _).
  assert (H : "owner"%string = "owner"%string \/ "owner"%string = "all"%string)
    by (left; reflexivity).
  split; [reflexivity|]. split; [exact (Hdef eq_refl)|]. split; [exact H|].
  exact (proj2 Howned H).
Defined.

(** ** The default location of the configuration file *)

(** X18: for the empty config path, [handleInitConfig] and
    [handleValidateConfig] both work on [gitbackup/gitbackup.yml] below the
    configuration directory of the user: the first creates that file (when
    nothing is there, no regular file is on the way and the operating system
    refuses neither the directories nor the write), the second then reads
    it; whatever the machine, the empty path does what that path, given in
    full, does.  When the environment names no configuration directory, both
    return the error "unable to determine config directory: ..." and touch
    nothing. *)
Theorem empty_config_path_is_default (marshal : fileConfig -> string + error)
    (unmarshal : string -> fileConfig + error) (getenv : string -> string)
    (validMembership : string -> bool) (quoted : string -> string) (w : world) :
  (forall (configDir : path) (data : string),
      let p := configDir ++ ["gitbackup"; "gitbackup.yml"]%string in
      os_Stat (files w) p = None ->
      (forall q d, q `prefix_of` filepath_Dir p -> files w !! q <> Some (File d)) ->
      permits w p ->
      marshal defaultFileConfig = inl data ->
      let w1 := (handleInitConfig (inl configDir) marshal w []).2 in
      (handleInitConfig (inl configDir) marshal w []).1 = None
      /\ os_ReadFile (files w1) p = inl data
      /\ loadConfigFile (inl configDir) unmarshal (files w1) []
         = match unmarshal data with
           | inl cfg => inl cfg
           | inr err => inr ("error parsing " +:+ pathString p +:+ ": " +:+ err)%string
           end)
  /\ (forall configDir : path,
      let p := configDir ++ ["gitbackup"; "gitbackup.yml"]%string in
      handleInitConfig (inl configDir) marshal w [] = handleInitConfig (inl configDir) marshal w p
      /\ handleValidateConfig (inl configDir) unmarshal getenv validMembership quoted w []
         = handleValidateConfig (inl configDir) unmarshal getenv validMembership quoted w p)
  /\ (forall err : error,
      handleInitConfig (inr err) marshal w []
      = (Some ("unable to determine config directory: " +:+ err)%string, w)
      /\ handleValidateConfig (inr err) unmarshal getenv validMembership quoted w []
         = (Some ("unable to determine config directory: " +:+ err)%string, w)).
Proof.
  split; [|split].
  - intros configDir data p Hstat Hfree Hperm Hdata w1. subst w1.
    assert (Hres : resolveConfigPath (inl configDir) [] = inl p) by reflexivity.
    destruct (handleInitConfig_creates (inl configDir) marshal w [] p data
                Hres Hstat Hfree Hperm Hdata) as (Hnil & _ & _ & Hfile & _).
    destruct (os_Stat_None _ _ Hstat) as [Hp _].
    rewrite <- os_Stat_lookup in Hfile by done.
    split; [done|]. split.
    + unfold os_ReadFile. by rewrite Hfile.
    + by apply load_after_init.
  - intros configDir p.
    assert (Hres : resolveConfigPath (inl configDir) p = resolveConfigPath (inl configDir) []).
    { subst p. by destruct configDir. }
    unfold handleInitConfig, handleValidateConfig, loadConfigFile. by rewrite Hres.
  - intros err. split; reflexivity.
Qed.

Lemma empty_config_path_is_default_witness :
  let p := [".config"; "gitbackup"; "gitbackup.yml"]%string in
  os_Stat (files Examples.emptyWorld) p = None
  /\ (forall q d, q `prefix_of` filepath_Dir p ->
                  files Examples.emptyWorld !! q <> Some (File d))
  /\ permits Examples.emptyWorld p
  /\ exists data,
       Examples.renderYaml defaultFileConfig = inl data
       /\ (handleInitConfig (inl [".config"%string]) Examples.renderYaml
             Examples.emptyWorld []).1 = None
       /\ os_ReadFile
            (files (handleInitConfig (inl [".config"%string]) Examples.renderYaml
                      Examples.emptyWorld []).2) p = inl data.
Proof.
  intros p.
  assert (H2 : os_Stat (files Examples.emptyWorld) p = None) by reflexivity.
  assert (H3 : forall q d, q `prefix_of` filepath_Dir p ->
                           files Examples.emptyWorld !! q <> Some (File d)).
  { intros q d _. unfold Examples.emptyWorld. simpl. by rewrite lookup_empty. }
  assert (H5 : permits Examples.emptyWorld p) by (split; [intros q _ _|]; reflexivity).
  destruct (Examples.renderYaml defaultFileConfig) as [data|e] eqn:H4; [|discriminate H4].
  split; [exact H2|]. split; [exact H3|]. split; [exact H5|].
  exists data. split; [reflexivity|].
  destruct (proj1 (empty_config_path_is_default Examples.renderYaml
                     ConfigExamples.parseDefault ConfigExamples.tokenSet
                     ConfigExamples.membershipNamed ConfigExamples.inQuotes
                     Examples.emptyWorld)
              [".config"%string] data H2 H3 H5 H4) as (Hnil & Hread & _).
  split; [exact Hnil|exact Hread].
Defined.
